(** * Static analysis service: structural analyzers and cross-file validator

    A shallow embedding of the in-memory static analysis service
    (CSSAnalyzer, HTMLAnalyzer, JavaScriptAnalyzer, HTMLCSSCrossValidator,
    InMemoryAnalyzer) together with the properties its specification states.

    Conventions of the embedding:
    - a JavaScript string is a [string] whose characters are the code units
      below 256 (Latin-1); a character is an [ascii];
    - a [Set<string>] is a [gset string], a [Record<string, string>] is a
      [gmap string string];
    - an array that is only appended to is a [list] in push order;
    - the two external parsers (htmlparser2 and acorn) are parameters: a run
      of htmlparser2 is the list of callbacks it makes, followed by the
      exception it throws, if any. *)

From Stdlib Require Import Ascii.
From stdpp Require Import base gmap strings list pretty sorting.

Local Open Scope string_scope.
Local Open Scope list_scope.

#[local] Arguments String.append !_ _ / : simpl nomatch.

(* ===================================================================== *)
(** * Shared types (types.ts) *)
(* ===================================================================== *)

Inductive LintSeverity := error | warning | info.

Global Instance LintSeverity_eq_dec : EqDecision LintSeverity.
Proof. solve_decision. Defined.

(** Modelled from the spec: the declaration of [CodeIssue] lives in
    sandbox/sandboxTypes, which is not among the sources; the fields are the
    ones of the spec's Issue (message, filePath, 1-based line, 0-based column,
    severity, ruleId, source), which are also the ones every analyzer fills. *)
Record CodeIssue := {
  message : string;
  filePath : string;
  line : nat;
  column : nat;
  severity : LintSeverity;
  ruleId : string;
  source : string
}.

Record FileInput := { path : string; content : string }.

(** The issues of a list that carry a given rule id, in order. *)
Definition withRule (rule : string) (found : list CodeIssue) : list CodeIssue :=
  filter (fun i => ruleId i = rule) found.

(** [LanguageAnalyzer]: the capability every single-file analyzer implements. *)
Record LanguageAnalyzer := {
  supportedExtensions : list string;
  analyzeFile : FileInput -> list CodeIssue
}.

(** Modelled from the spec: [StaticAnalysisResponse] is declared in
    sandbox/sandboxTypes (not among the sources); its shape is the one
    [buildResponse] constructs and the spec's Response. *)
Record Summary := { errorCount : nat; warningCount : nat; infoCount : nat }.
Record IssueBlock := { issues : list CodeIssue; summary : Summary }.
Record StaticAnalysisResponse := {
  success : bool;
  lint : IssueBlock;
  typecheck : IssueBlock
}.

(* ===================================================================== *)
(** * JavaScript string primitives used by the sources *)
(* ===================================================================== *)

Module Js.

Definition LF : ascii := "010"%char.
Definition backslash : ascii := "\"%char.
Definition dquote : ascii := "034"%char.
Definition squote : ascii := "'"%char.

(** [s] between double quotes. *)
Definition quoted (s : string) : string :=
  String dquote (s +:+ String dquote EmptyString).

(** [s[0]], or [undefined] on the empty string. *)
Definition head (s : string) : option ascii :=
  match s with String c _ => Some c | EmptyString => None end.

(** [c === d] for a character [c] and a possibly undefined [d]. *)
Definition is_char (o : option ascii) (c : ascii) : bool :=
  match o with Some d => bool_decide (d = c) | None => false end.

Definition code (c : ascii) : N := N_of_ascii c.

Definition in_range (lo hi : N) (c : ascii) : bool :=
  ((lo <=? code c) && (code c <=? hi))%N.

(** [String.prototype.toLowerCase] on one Latin-1 code unit: A-Z and the
    accented capitals U+00C0-U+00DE (except the multiplication sign). *)
Definition lower_char (c : ascii) : ascii :=
  if in_range 65 90 c then ascii_of_N (code c + 32)
  else if in_range 192 222 c && negb (code c =? 215)%N then ascii_of_N (code c + 32)
  else c.

Fixpoint toLowerCase (s : string) : string :=
  match s with
  | EmptyString => EmptyString
  | String c r => String (lower_char c) (toLowerCase r)
  end.

(** [s.endsWith(suffix)]: some tail of [s] is [suffix]. *)
Fixpoint endsWith (s suffix : string) : bool :=
  if String.eqb s suffix then true
  else match s with
       | EmptyString => false
       | String _ r => endsWith r suffix
       end.

(** [s.startsWith(p)]. *)
Fixpoint startsWith (s p : string) {struct p} : bool :=
  match p, s with
  | EmptyString, _ => true
  | String a p', String b s' => bool_decide (a = b) && startsWith s' p'
  | String _ _, EmptyString => false
  end.

(** [s.lastIndexOf(c)] for a single character, counting from index [i] at
    the head of [s]; [-1] when [c] does not occur. *)
Fixpoint lastIndexOf_from (i : Z) (s : string) (c : ascii) : Z :=
  match s with
  | EmptyString => (-1)%Z
  | String a r =>
      let later := lastIndexOf_from (i + 1) r c in
      if bool_decide (later = (-1)%Z)
      then (if bool_decide (a = c) then i else (-1)%Z)
      else later
  end.

Definition lastIndexOf (s : string) (c : ascii) : Z := lastIndexOf_from 0 s c.

(** [s.slice(n)] for [0 <= n]. *)
Fixpoint slice (s : string) (n : nat) {struct n} : string :=
  match n, s with
  | O, _ => s
  | S k, String _ r => slice r k
  | S _, EmptyString => EmptyString
  end.

(** [s.split(sep)] for a one-character separator: never the empty list. *)
Fixpoint split (sep : ascii) (s : string) : list string :=
  match s with
  | EmptyString => [EmptyString]
  | String c r =>
      match split sep r with
      | l :: ls => if bool_decide (c = sep) then EmptyString :: l :: ls
                   else String c l :: ls
      | [] => []
      end
  end.

(** [parts.join(sep)]. *)
Fixpoint join (sep : string) (parts : list string) : string :=
  match parts with
  | [] => EmptyString
  | [p] => p
  | p :: ps => p +:+ sep +:+ join sep ps
  end.

(** [(text.match(/\n/g) || []).length]. *)
Fixpoint countNewlines (s : string) : nat :=
  match s with
  | EmptyString => 0
  | String c r => (if bool_decide (c = LF) then 1 else 0) + countNewlines r
  end.

(** The class [\s] on Latin-1 code units: TAB, LF, VT, FF, CR, space and
    the no-break space U+00A0. *)
Definition isSpace (c : ascii) : bool :=
  in_range 9 13 c || (code c =? 32)%N || (code c =? 160)%N.

(** [a-zA-Z] *)
Definition isLetter (c : ascii) : bool :=
  in_range 65 90 c || in_range 97 122 c.

(** [0-9] *)
Definition isDigit (c : ascii) : bool := in_range 48 57 c.

(** Equality of a pattern character and a character of the text under the
    [i] flag, on Latin-1 code units: the same character, or two ASCII
    letters that differ by case only. *)
Definition eq_nocase (pat c : ascii) : bool :=
  bool_decide (c = pat) || (isLetter pat && isLetter c && bool_decide (lower_char c = lower_char pat)).

(** A literal matched under the [i] flag at the head of [s]. *)
Fixpoint startsWith_nocase (s p : string) {struct p} : bool :=
  match p, s with
  | EmptyString, _ => true
  | String a p', String b s' => eq_nocase a b && startsWith_nocase s' p'
  | String _ _, EmptyString => false
  end.

(** The loop [for (let i = i0; i < text.length; i++) body], over the
    characters of [text] from index [i0] on. The body sees the index, the
    previous character [text[i - 1]], the current one and the next one
    [text[i + 1]], and may itself advance [i] by one (the [i++; continue]
    of the analyzers): it returns that request, the new state and what it
    emitted. *)
Section ForChars.
Context {St Out : Type}.
Variable body : nat -> option ascii -> ascii -> option ascii -> St -> bool * St * list Out.

Fixpoint forChars (i : nat) (prev : option ascii) (text : string) (st : St)
  : St * list Out :=
  match text with
  | EmptyString => (st, [])
  | String c rest =>
      let '(skip, st1, out) := body i prev c (head rest) st in
      let '(st2, out2) :=
        if skip
        then forChars (S (S i)) (head rest)
               (match rest with String _ r => r | EmptyString => rest end) st1
        else forChars (S i) (Some c) rest st1 in
      (st2, out ++ out2)
  end.
End ForChars.

(** The character at index [length s - 1] of a text [s] that continues one
    whose last character was [prev]. *)
Fixpoint lastChar (prev : option ascii) (s : string) : option ascii :=
  match s with
  | EmptyString => prev
  | String c r => lastChar (Some c) r
  end.

(** The index after one turn of [forChars]. *)
Definition advance (skip : bool) (i : nat) : nat := if skip then S (S i) else S i.

(** [all p s]: every character of [s] satisfies [p]. *)
Fixpoint all (p : ascii -> bool) (s : string) : bool :=
  match s with
  | EmptyString => true
  | String c r => p c && all p r
  end.

End Js.

(* ===================================================================== *)
(** * analyzers/CSSAnalyzer.ts *)
(* ===================================================================== *)

Module CSSAnalyzer.
Import Js.

Definition supportedExtensions : list string := [".css"].

(** The four variables of the scan. [stringChar] is [None] for the initial
    [''], which no character equals. *)
Record ScanState := {
  braceCount : Z;
  inString : bool;
  stringChar : option ascii;
  inComment : bool
}.

Definition initial : ScanState :=
  {| braceCount := 0; inString := false; stringChar := None; inComment := false |}.

Definition unexpectedBrace (path : string) (lineNum i : nat) : CodeIssue :=
  {| message := "Unexpected closing brace"; filePath := path;
     line := lineNum + 1; column := i; severity := error;
     ruleId := "CSS_UNEXPECTED_BRACE"; source := "css-analyzer" |}.

(** The count is written in decimal, as a template literal writes an
    integer. *)
Definition unclosedBrace (path : string) (count : Z) (nlines : nat) : CodeIssue :=
  {| message := "Unclosed brace: " +:+ pretty count
                +:+ " opening brace(s) without matching close";
     filePath := path; line := nlines; column := 0; severity := error;
     ruleId := "CSS_UNCLOSED_BRACE"; source := "css-analyzer" |}.

Definition unclosedComment (path : string) (nlines : nat) : CodeIssue :=
  {| message := "Unclosed comment"; filePath := path; line := nlines;
     column := 0; severity := error;
     ruleId := "CSS_UNCLOSED_COMMENT"; source := "css-analyzer" |}.

Definition unclosedString (path : string) (nlines : nat) : CodeIssue :=
  {| message := "Unclosed string"; filePath := path; line := nlines;
     column := 0; severity := error;
     ruleId := "CSS_UNCLOSED_STRING"; source := "css-analyzer" |}.

(** The body of the inner loop, for the character at column [i] of line
    [lineNum] (0-based). *)
Definition loopBody (path : string) (lineNum : nat)
    (i : nat) (prev : option ascii) (char : ascii) (nextChar : option ascii)
    (st : ScanState) : bool * ScanState * list CodeIssue :=
  (* Handle comments *)
  if negb (inString st) && negb (inComment st)
     && bool_decide (char = "/"%char) && is_char nextChar "*"
  then (true, {| braceCount := braceCount st; inString := inString st;
                 stringChar := stringChar st; inComment := true |}, [])
  else if inComment st && bool_decide (char = "*"%char) && is_char nextChar "/"
  then (true, {| braceCount := braceCount st; inString := inString st;
                 stringChar := stringChar st; inComment := false |}, [])
  else if inComment st then (false, st, [])
  (* Handle strings *)
  else if negb (inString st)
          && (bool_decide (char = dquote) || bool_decide (char = squote))
  then (false, {| braceCount := braceCount st; inString := true;
                  stringChar := Some char; inComment := inComment st |}, [])
  else if inString st && bool_decide (Some char = stringChar st)
          && negb (is_char prev backslash)
  then (false, {| braceCount := braceCount st; inString := false;
                  stringChar := stringChar st; inComment := inComment st |}, [])
  else if inString st then (false, st, [])
  else
    (* Count braces *)
    let count1 := if bool_decide (char = "{"%char)
                  then (braceCount st + 1)%Z else braceCount st in
    let count2 := if bool_decide (char = "}"%char)
                  then (count1 - 1)%Z else count1 in
    if bool_decide (count2 < 0)%Z
    then (false, {| braceCount := 0; inString := inString st;
                    stringChar := stringChar st; inComment := inComment st |},
          [unexpectedBrace path lineNum i])
    else (false, {| braceCount := count2; inString := inString st;
                    stringChar := stringChar st; inComment := inComment st |}, []).

(** The inner loop over one line. *)
Definition scanLine (path : string) (lineNum : nat) (text : string)
    (st : ScanState) : ScanState * list CodeIssue :=
  forChars (loopBody path lineNum) 0 None text st.

(** The outer loop over the lines, from line index [lineNum] on. *)
Fixpoint scanLines (path : string) (lineNum : nat) (lines : list string)
    (st : ScanState) : ScanState * list CodeIssue :=
  match lines with
  | [] => (st, [])
  | l :: ls =>
      let '(st1, out1) := scanLine path lineNum l st in
      let '(st2, out2) := scanLines path (S lineNum) ls st1 in
      (st2, out1 ++ out2)
  end.

(** The three checks after the loops. *)
Definition endOfFile (path : string) (nlines : nat) (st : ScanState) : list CodeIssue :=
  (if bool_decide (braceCount st > 0)%Z
   then [unclosedBrace path (braceCount st) nlines] else [])
  ++ (if inComment st then [unclosedComment path nlines] else [])
  ++ (if inString st then [unclosedString path nlines] else []).

Definition analyze (file : FileInput) : list CodeIssue :=
  let lines := split LF (content file) in
  let '(st, found) := scanLines (path file) 0 lines initial in
  found ++ endOfFile (path file) (length lines) st.

Definition analyzer : LanguageAnalyzer :=
  Build_LanguageAnalyzer supportedExtensions analyze.

End CSSAnalyzer.

(* ===================================================================== *)
(** * The external parsers *)
(* ===================================================================== *)

(** htmlparser2's [Parser], seen from its caller: [write] and [end] call the
    handlers back, in order, and may then throw. *)
Module HtmlParser2.

Inductive TagEvent :=
| OpenTag (name : string) (attribs : gmap string string)
| CloseTag (name : string)
| Text (text : string).

(** What a [catch] clause receives: an [Error] with its message, or any
    other value. *)
Inductive Thrown := ErrorObject (msg : string) | OtherValue.

Record Options := { lowerCaseTags : bool; lowerCaseAttributeNames : bool }.

Record Run := { events : list TagEvent; thrown : option Thrown }.

Definition Parser : Type := Options -> string -> Run.

End HtmlParser2.

(** acorn's [parse], seen from its caller: it returns a tree, which the
    analyzer drops, or throws. *)
Module Acorn.

Inductive Thrown :=
| SyntaxErrorObject (msg : string) (loc : option (nat * nat))
| ErrorObject (msg : string)
| OtherValue.

Definition Parse : Type := string -> option Thrown.

End Acorn.

(* ===================================================================== *)
(** * analyzers/HTMLAnalyzer.ts *)
(* ===================================================================== *)

Module HTMLAnalyzer.
Import Js HtmlParser2.

Definition supportedExtensions : list string := [".html"; ".htm"].

(** A frame of the stack; [openedAt] is its [line] (the name [line] is the
    issue's). *)
Record TagFrame := { name : string; openedAt : nat }.

(** The variables the handlers close over: [found] is the array [issues];
    [tagStack] grows at its end. *)
Record State := {
  found : list CodeIssue;
  tagStack : list TagFrame;
  currentLine : nat
}.

Definition initial : State :=
  {| found := []; tagStack := []; currentLine := 1 |}.

Definition selfClosingTags : gset string :=
  list_to_set ["area"; "base"; "br"; "col"; "embed"; "hr"; "img"; "input";
               "link"; "meta"; "param"; "source"; "track"; "wbr"].

Definition options : Options :=
  {| lowerCaseTags := false; lowerCaseAttributeNames := false |}.

Definition unexpectedClose (path tag : string) (ln : nat) : CodeIssue :=
  {| message := "Unexpected closing tag </" +:+ tag +:+ ">";
     filePath := path; line := ln; column := 0; severity := error;
     ruleId := "HTML_UNEXPECTED_CLOSE"; source := "htmlparser2" |}.

Definition tagMismatch (path expected tag : string) (ln : nat) : CodeIssue :=
  {| message := "Mismatched closing tag: expected </" +:+ expected
                +:+ ">, found </" +:+ tag +:+ ">";
     filePath := path; line := ln; column := 0; severity := error;
     ruleId := "HTML_TAG_MISMATCH"; source := "htmlparser2" |}.

Definition parseError (path msg : string) : CodeIssue :=
  {| message := msg; filePath := path; line := 1; column := 0;
     severity := error; ruleId := "HTML_PARSE_ERROR"; source := "htmlparser2" |}.

Definition unclosedTag (path : string) (tag : TagFrame) : CodeIssue :=
  {| message := "Unclosed tag <" +:+ name tag +:+ ">";
     filePath := path; line := openedAt tag; column := 0; severity := error;
     ruleId := "HTML_UNCLOSED_TAG"; source := "htmlparser2" |}.

Definition onopentag (tag : string) (st : State) : State :=
  if bool_decide (toLowerCase tag ∈ selfClosingTags) then st
  else {| found := found st;
          tagStack := tagStack st ++ [{| name := toLowerCase tag; openedAt := currentLine st |}];
          currentLine := currentLine st |}.

Definition onclosetag (path tag : string) (st : State) : State :=
  let lowerName := toLowerCase tag in
  if bool_decide (lowerName ∈ selfClosingTags) then st
  else match last (tagStack st) with
       | None => (* tagStack.length === 0 *)
           {| found := found st ++ [unexpectedClose path tag (currentLine st)];
              tagStack := tagStack st; currentLine := currentLine st |}
       | Some lastTag =>
           if bool_decide (name lastTag ≠ lowerName)
           then {| found := found st
                            ++ [tagMismatch path (name lastTag) tag (currentLine st)];
                   tagStack := tagStack st; currentLine := currentLine st |}
           else {| found := found st; tagStack := removelast (tagStack st);
                   currentLine := currentLine st |}
       end.

Definition ontext (text : string) (st : State) : State :=
  {| found := found st; tagStack := tagStack st;
     currentLine := currentLine st + countNewlines text |}.

Definition handle (path : string) (st : State) (ev : TagEvent) : State :=
  match ev with
  | OpenTag tag _ => onopentag tag st
  | CloseTag tag => onclosetag path tag st
  | Text text => ontext text st
  end.

(** The [catch] clause. *)
Definition caught (path : string) (t : option Thrown) : list CodeIssue :=
  match t with
  | Some (ErrorObject msg) => [parseError path msg]
  | Some OtherValue | None => []
  end.

Section WithParser.
Variable parser : Parser.

Definition analyze (file : FileInput) : list CodeIssue :=
  let run := parser options (content file) in
  let st := foldl (handle (path file)) initial (events run) in
  (found st ++ caught (path file) (thrown run))
  ++ map (unclosedTag (path file)) (tagStack st).

Definition analyzer : LanguageAnalyzer :=
  Build_LanguageAnalyzer supportedExtensions analyze.
End WithParser.

End HTMLAnalyzer.

(* ===================================================================== *)
(** * analyzers/JavaScriptAnalyzer.ts *)
(* ===================================================================== *)

Module JavaScriptAnalyzer.
Import Acorn.

Definition supportedExtensions : list string := [".js"; ".mjs"].

Definition syntaxError (path msg : string) (loc : option (nat * nat)) : CodeIssue :=
  {| message := msg; filePath := path;
     line := match loc with Some (l, _) => l | None => 1 end;
     column := match loc with Some (_, c) => c | None => 0 end;
     severity := error; ruleId := "JS_SYNTAX_ERROR"; source := "acorn" |}.

Definition parseError (path msg : string) : CodeIssue :=
  {| message := msg; filePath := path; line := 1; column := 0;
     severity := error; ruleId := "JS_PARSE_ERROR"; source := "acorn" |}.

Section WithAcorn.
Variable parse : Parse.

Definition analyze (file : FileInput) : list CodeIssue :=
  match parse (content file) with
  | None => []
  | Some (SyntaxErrorObject msg loc) => [syntaxError (path file) msg loc]
  | Some (ErrorObject msg) => [parseError (path file) msg]
  | Some OtherValue => []
  end.

Definition analyzer : LanguageAnalyzer :=
  Build_LanguageAnalyzer supportedExtensions analyze.
End WithAcorn.

End JavaScriptAnalyzer.

(* ===================================================================== *)
(** * The regular expressions of the validator *)
(* ===================================================================== *)

(** Each pattern of HTMLCSSCrossValidator.ts is written out as the function
    the regular-expression engine computes for it. None of them looks behind
    or can match the empty string, so one attempt at a position depends only
    on the text from that position on: a [Matcher] takes that text and
    returns the length of the match and its first capture group. *)
Module Regex.
Import Js.

Definition Matcher : Type := string -> option (nat * string).

(** [text.replace(re, '')] for a global pattern: attempts from left to
    right, resuming after each match. [skip] characters of the last match
    are still to be dropped. *)
Fixpoint removeAll_from (m : Matcher) (skip : nat) (text : string) : string :=
  match text with
  | EmptyString => EmptyString
  | String c r =>
      match skip with
      | S k => removeAll_from m k r
      | O => match m text with
             | Some (S k, _) => removeAll_from m k r
             | Some (O, _) | None => String c (removeAll_from m 0 r)
             end
      end
  end.

Definition removeAll (m : Matcher) (text : string) : string :=
  removeAll_from m 0 text.

(** The captures of [while ((match = re.exec(text)) !== null)] for a global
    pattern, in order. *)
Fixpoint execAll_from (m : Matcher) (skip : nat) (text : string) : list string :=
  match text with
  | EmptyString => []
  | String _ r =>
      match skip with
      | S k => execAll_from m k r
      | O => match m text with
             | Some (S k, group) => group :: execAll_from m k r
             | Some (O, _) | None => execAll_from m 0 r
             end
      end
  end.

Definition execAll (m : Matcher) (text : string) : list string :=
  execAll_from m 0 text.

(** The least [k] such that [p] holds of [text] without its first [k]
    characters. *)
Fixpoint find (p : string -> bool) (text : string) : option nat :=
  if p text then Some 0
  else match text with
       | EmptyString => None
       | String _ r => S <$> find p r
       end.

Fixpoint take (n : nat) (s : string) : string :=
  match n, s with
  | S k, String c r => String c (take k r)
  | _, _ => EmptyString
  end.

Fixpoint takeWhile (p : ascii -> bool) (s : string) : string :=
  match s with
  | String c r => if p c then String c (takeWhile p r) else EmptyString
  | EmptyString => EmptyString
  end.

(** [/\/\*[\s\S]*?\*\//]: an opening, then lazily up to the first closing. *)
Definition comment : Matcher := fun text =>
  if startsWith text "/*"
  then k ← find (fun t => startsWith t "*/") (slice text 2); Some (2 + k + 2, EmptyString)
  else None.

(** [/url\s*\([^)]*\)/i] *)
Definition url : Matcher := fun text =>
  if startsWith_nocase text "url"
  then let spaces := String.length (takeWhile isSpace (slice text 3)) in
       let after := slice text (3 + spaces) in
       if startsWith after "("
       then k ← find (fun t => startsWith t ")") (slice after 1);
            Some (3 + spaces + 1 + k + 1, EmptyString)
       else None
  else None.

(** [[a-zA-Z_]] *)
Definition nameStart (c : ascii) : bool :=
  isLetter c || bool_decide (c = "_"%char).

(** [[a-zA-Z0-9_-]] *)
Definition nameChar (c : ascii) : bool :=
  isLetter c || isDigit c || bool_decide (c = "_"%char) || bool_decide (c = "-"%char).

(** The sigil, then the capture group: one character of [[a-zA-Z_]]
    followed by the longest run of [[a-zA-Z0-9_-]]. *)
Definition selector (sigil : ascii) : Matcher := fun text =>
  match text with
  | String s (String c r) =>
      if bool_decide (s = sigil) && nameStart c
      then let group := String c (takeWhile nameChar r) in
           Some (1 + String.length group, group)
      else None
  | _ => None
  end.

(** [classRegex]: the sigil is a dot. *)
Definition classRegex : Matcher := selector "."%char.

(** [idRegex]: the sigil is a hash. *)
Definition idRegex : Matcher := selector "#"%char.

(** [/<style[^>]*>([\s\S]*?)<\/style>/i] *)
Definition styleRegex : Matcher := fun text =>
  if startsWith_nocase text "<style"
  then k ← find (fun t => startsWith t ">") (slice text 6);
       let inner := slice text (6 + k + 1) in
       j ← find (fun t => startsWith_nocase t "</style>") inner;
       Some (6 + k + 1 + j + 8, take j inner)
  else None.

(** [.] without the [s] flag: any character but a line terminator. *)
Definition notTerminator (c : ascii) : bool :=
  negb (bool_decide (c = LF) || bool_decide (c = "013"%char)).

(** [/^<opening>.*<closing>$/.test(s)] for literal delimiters. *)
Definition wrapped (opening closing s : string) : bool :=
  startsWith s opening
  && let inner := slice s (String.length opening) in
     endsWith inner closing && all notTerminator inner.

(** [/^(a1|a2|...)<tail>/.test(s)] for literal alternatives. *)
Definition oneOfThen (alternatives : list string) (tail s : string) : bool :=
  existsb (fun a => startsWith s (a +:+ tail)) alternatives.

Definition oneOfChars (chars : string) (c : ascii) : bool :=
  negb (all (fun d => negb (bool_decide (c = d))) chars).

(** [/^-?[mpwh][trblxy]?-/.test(s)] *)
Definition spacingShorthand (s : string) : bool :=
  let s1 := if startsWith s "-" then slice s 1 else s in
  match s1 with
  | String c1 r1 =>
      oneOfChars "mpwh" c1
      && (match r1 with
          | String c2 r2 => oneOfChars "trblxy" c2 && startsWith r2 "-"
          | EmptyString => false
          end
          || startsWith r1 "-")
  | EmptyString => false
  end.

(** [s.split(/\s+/)]: [current] is the piece being read, [inSpace] tells
    that the previous character belonged to a separator. *)
Fixpoint splitSpaces_from (current : string) (inSpace : bool) (s : string) : list string :=
  match s with
  | EmptyString => [current]
  | String c r =>
      if isSpace c
      then (if inSpace then splitSpaces_from EmptyString true r
            else current :: splitSpaces_from EmptyString true r)
      else splitSpaces_from (current +:+ String c EmptyString) false r
  end.

Definition splitSpaces (s : string) : list string :=
  splitSpaces_from EmptyString false s.

End Regex.

(* ===================================================================== *)
(** * validators/HTMLCSSCrossValidator.ts *)
(* ===================================================================== *)

Module HTMLCSSCrossValidator.
Import Js Regex HtmlParser2.

Inductive UsageType := class | id.

Global Instance UsageType_eq_dec : EqDecision UsageType.
Proof. solve_decision. Defined.

(** [CSSUsage]; [usedName], [usedIn] and [usedAt] are its [name],
    [filePath] and [line] (those names are the issue's and the frame's). *)
Record CSSUsage := {
  usedName : string;
  type : UsageType;
  usedIn : string;
  usedAt : nat
}.

Definition DYNAMIC_CLASS_PATTERNS : list (string -> bool) :=
  [ wrapped "{{" "}}";
    wrapped "<%" "%>";
    wrapped "${" "}";
    wrapped "[" "]";
    wrapped ":" EmptyString;
    fun s => startsWith s "v-";
    fun s => startsWith s "ng-";
    fun s => startsWith s "x-" ].

Definition UTILITY_FRAMEWORK_PATTERNS : list (string -> bool) :=
  [ spacingShorthand;
    oneOfThen ["flex"; "grid"; "block"; "inline"; "hidden"; "visible";
               "absolute"; "relative"; "fixed"; "sticky"] EmptyString;
    oneOfThen ["text"; "bg"; "border"; "rounded"; "shadow"; "opacity"; "z"] "-";
    oneOfThen ["sm"; "md"; "lg"; "xl"; "2xl"] ":";
    oneOfThen ["hover"; "focus"; "active"; "disabled"; "dark"] ":";
    oneOfThen ["justify"; "items"; "content"; "self"] "-";
    oneOfThen ["gap"; "space"] "-";
    oneOfThen ["font"; "leading"; "tracking"] "-";
    oneOfThen ["overflow"; "cursor"; "pointer"; "transition"; "duration"; "ease"] "-" ].

Definition isLikelyDynamicOrFrameworkClass (className : string) : bool :=
  existsb (fun pattern => pattern className) DYNAMIC_CLASS_PATTERNS
  || existsb (fun pattern => pattern className) UTILITY_FRAMEWORK_PATTERNS.

Definition classUndefined (u : CSSUsage) : CodeIssue :=
  {| message := "CSS class " +:+ quoted (usedName u)
                +:+ " is used but not defined in any CSS file";
     filePath := usedIn u; line := usedAt u; column := 0; severity := warning;
     ruleId := "CSS_CLASS_UNDEFINED"; source := "html-css-validator" |}.

Definition idUndefined (u : CSSUsage) : CodeIssue :=
  {| message := "CSS ID " +:+ quoted (usedName u)
                +:+ " is used but not defined in any CSS file";
     filePath := usedIn u; line := usedAt u; column := 0; severity := warning;
     ruleId := "CSS_ID_UNDEFINED"; source := "html-css-validator" |}.

(** The two definition sets, which the extraction methods add to. *)
Record Definitions := { classes : gset string; ids : gset string }.

Definition noDefinitions : Definitions := {| classes := ∅; ids := ∅ |}.

(** The variables of the loop that cuts the selector portions out. *)
Record Cutter := {
  selectorBlocks : list string;
  depth : Z;
  currentSelector : string
}.

Definition cut (st : Cutter) (char : ascii) : Cutter :=
  if bool_decide (char = "{"%char) then
    if bool_decide (depth st = 0%Z)
    then {| selectorBlocks := selectorBlocks st ++ [currentSelector st];
            depth := depth st + 1; currentSelector := EmptyString |}
    else {| selectorBlocks := selectorBlocks st;
            depth := depth st + 1; currentSelector := currentSelector st |}
  else if bool_decide (char = "}"%char) then
    {| selectorBlocks := selectorBlocks st;
       depth := depth st - 1; currentSelector := currentSelector st |}
  else if bool_decide (depth st = 0%Z) then
    {| selectorBlocks := selectorBlocks st; depth := depth st;
       currentSelector := currentSelector st +:+ String char EmptyString |}
  else st.

Fixpoint cutAll (st : Cutter) (cleaned : string) : Cutter :=
  match cleaned with
  | EmptyString => st
  | String char r => cutAll (cut st char) r
  end.

(** The text the two selector patterns run against. *)
Definition selectorTextOf (content : string) : string :=
  (* Strip comments *)
  let cleaned := removeAll comment content in
  (* Strip url(...) values *)
  let cleaned := removeAll url cleaned in
  (* Extract only selector portions (text before each opening brace) *)
  let st := cutAll {| selectorBlocks := []; depth := 0;
                      currentSelector := EmptyString |} cleaned in
  join " " (selectorBlocks st).

Definition add (names : gset string) (n : string) : gset string := names ∪ {[ n ]}.

Definition extractCSSDefinitions (content : string) (defs : Definitions) : Definitions :=
  let selectorText := selectorTextOf content in
  {| classes := foldl add (classes defs) (execAll classRegex selectorText);
     ids := foldl add (ids defs) (execAll idRegex selectorText) |}.

Definition extractInlineStyles (htmlContent : string) (defs : Definitions) : Definitions :=
  foldl (fun d inner => extractCSSDefinitions inner d) defs
        (execAll styleRegex htmlContent).

Definition options : Options :=
  {| lowerCaseTags := false; lowerCaseAttributeNames := true |}.

(** The variables the handlers of [extractHTMLUsage] close over. *)
Record UsageState := { usage : list CSSUsage; currentLine : nat }.

(** A string in a condition: the empty one is falsy. *)
Definition truthy (s : string) : bool := negb (String.eqb s EmptyString).

Definition classUsages (path : string) (ln : nat) (attribs : gmap string string)
  : list CSSUsage :=
  match attribs !! "class" with
  | Some value =>
      if truthy value
      then map (fun className => {| usedName := className; type := class;
                                    usedIn := path; usedAt := ln |})
               (filter (fun piece => truthy piece = true) (splitSpaces value))
      else []
  | None => []
  end.

Definition idUsages (path : string) (ln : nat) (attribs : gmap string string)
  : list CSSUsage :=
  match attribs !! "id" with
  | Some value =>
      if truthy value
      then [{| usedName := value; type := id; usedIn := path; usedAt := ln |}]
      else []
  | None => []
  end.

Definition onopentag (path : string) (attribs : gmap string string)
    (st : UsageState) : UsageState :=
  {| usage := (usage st ++ classUsages path (currentLine st) attribs)
              ++ idUsages path (currentLine st) attribs;
     currentLine := currentLine st |}.

Definition ontext (text : string) (st : UsageState) : UsageState :=
  {| usage := usage st; currentLine := currentLine st + countNewlines text |}.

Definition handle (path : string) (st : UsageState) (ev : TagEvent) : UsageState :=
  match ev with
  | OpenTag _ attribs => onopentag path attribs st
  | CloseTag _ => st
  | Text text => ontext text st
  end.

Definition isStylesheet (file : FileInput) : bool := endsWith (path file) ".css".

Definition isMarkup (file : FileInput) : bool :=
  endsWith (path file) ".html" || endsWith (path file) ".htm".

(** The body of the first loop of [validate]. *)
Definition collect (defs : Definitions) (file : FileInput) : Definitions :=
  let defs1 := if isStylesheet file
               then extractCSSDefinitions (content file) defs else defs in
  if isMarkup file then extractInlineStyles (content file) defs1 else defs1.

(** The body of the last loop of [validate]. *)
Definition report (defs : Definitions) (u : CSSUsage) : list CodeIssue :=
  let idCheck :=
    if bool_decide (type u = id) && negb (bool_decide (usedName u ∈ ids defs))
    then [idUndefined u] else [] in
  if bool_decide (type u = class) && negb (bool_decide (usedName u ∈ classes defs))
  then (if isLikelyDynamicOrFrameworkClass (usedName u) then []
        else classUndefined u :: idCheck)
  else idCheck.

Section WithParser.
Variable parser : Parser.

(** A throw of the parser is ignored: what was pushed stays. *)
Definition extractHTMLUsage (file : FileInput) : list CSSUsage :=
  let run := parser options (content file) in
  usage (foldl (handle (path file)) {| usage := []; currentLine := 1 |} (events run)).

(** The issues [validate] returns when its merge of the usages does not
    throw; [Spread.validate] is the call with that merge. *)
Definition validate (files : list FileInput) : list CodeIssue :=
  let defs := foldl collect noDefinitions files in
  let usedSelectors :=
    flat_map (fun file => if isMarkup file then extractHTMLUsage file else []) files in
  flat_map (report defs) usedSelectors.
End WithParser.

End HTMLCSSCrossValidator.

(* ===================================================================== *)
(** * InMemoryAnalyzer.ts *)
(* ===================================================================== *)

Module InMemoryAnalyzer.
Import Js.

Definition getExtension (filePath : string) : string :=
  let lastDot := lastIndexOf filePath "."%char in
  if bool_decide (lastDot = (-1)%Z) then EmptyString
  else toLowerCase (slice filePath (Z.to_nat lastDot)).

Definition count (s : LintSeverity) (found : list CodeIssue) : nat :=
  length (filter (fun i => severity i = s) found).

Definition buildResponse (found : list CodeIssue) : StaticAnalysisResponse :=
  {| success := true;
     lint := {| issues := found;
                summary := {| errorCount := count error found;
                              warningCount := count warning found;
                              infoCount := count info found |} |};
     typecheck := {| issues := [];
                     summary := {| errorCount := 0; warningCount := 0;
                                   infoCount := 0 |} |} |}.

Section WithParsers.
Variable acorn : Acorn.Parse.
Variable htmlparser2 : HtmlParser2.Parser.

Definition analyzers : list LanguageAnalyzer :=
  [ JavaScriptAnalyzer.analyzer acorn;
    HTMLAnalyzer.analyzer htmlparser2;
    CSSAnalyzer.analyzer ].

Definition crossValidators : list (list FileInput -> list CodeIssue) :=
  [ HTMLCSSCrossValidator.validate htmlparser2 ].

Definition getAnalyzerForFile (filePath : string) : option LanguageAnalyzer :=
  let ext := getExtension filePath in
  List.find (fun a => bool_decide (ext ∈ supportedExtensions a)) analyzers.

(** The body of the first loop of [analyze]. *)
Definition analyzeOne (file : FileInput) : list CodeIssue :=
  match getAnalyzerForFile (path file) with
  | Some a => analyzeFile a file
  | None => []
  end.

(** The response [analyze] resolves to when none of its merges throws;
    [Spread.analyze] is the call with those merges. *)
Definition analyze (files : list FileInput) : StaticAnalysisResponse :=
  let allIssues :=
    flat_map analyzeOne files
    ++ flat_map (fun validator => validator files) crossValidators in
  buildResponse allIssues.
End WithParsers.

End InMemoryAnalyzer.

(* ===================================================================== *)
(** * The merges by push with a spread argument *)
(* ===================================================================== *)

(** [InMemoryAnalyzer.analyze] and [HTMLCSSCrossValidator.validate] merge
    lists by [target.push(...items)], outside any [try]. The spread passes
    one argument per item, and an engine accepts only so many arguments in
    one call: past that number the call throws a [RangeError], which
    nothing catches, so [validate] throws and the promise of [analyze] is
    rejected. This module writes the two functions with those calls; the
    number of arguments the engine accepts is a parameter. *)
Module Spread.

Inductive Exception := RangeError.

(** How a call ends. *)
Inductive Completion (A : Type) : Type :=
| Returned (a : A)
| Threw (e : Exception).
Arguments Returned {A} a.
Arguments Threw {A} e.

Definition bind {A B} (c : Completion A) (k : A -> Completion B) : Completion B :=
  match c with
  | Returned a => k a
  | Threw e => Threw e
  end.

(** [for (const x of l) body], with a body that may throw. *)
Fixpoint forOf {A S} (body : S -> A -> Completion S) (st : S) (l : list A)
  : Completion S :=
  match l with
  | [] => Returned st
  | x :: rest => bind (body st x) (fun st1 => forOf body st1 rest)
  end.

(** [n] closing braces: ['}'.repeat(n)]. *)
Fixpoint strayBraces (n : nat) : string :=
  match n with
  | O => EmptyString
  | S k => String "}" (strayBraces k)
  end.

Section WithLimit.
(** The most arguments one call may take. *)
Variable limit : nat.

(** [target.push(...items)]. *)
Definition push {A} (target items : list A) : Completion (list A) :=
  if bool_decide (length items <= limit) then Returned (target ++ items)
  else Threw RangeError.

Section WithParsers.
Variable acorn : Acorn.Parse.
Variable htmlparser2 : HtmlParser2.Parser.

(** [HTMLCSSCrossValidator.validate]. *)
Definition validate (files : list FileInput) : Completion (list CodeIssue) :=
  let defs := foldl HTMLCSSCrossValidator.collect
                HTMLCSSCrossValidator.noDefinitions files in
  bind (forOf (fun usedSelectors file =>
                 if HTMLCSSCrossValidator.isMarkup file
                 then push usedSelectors
                        (HTMLCSSCrossValidator.extractHTMLUsage htmlparser2 file)
                 else Returned usedSelectors)
              [] files)
       (fun usedSelectors =>
          Returned (flat_map (HTMLCSSCrossValidator.report defs) usedSelectors)).

Definition crossValidators : list (list FileInput -> Completion (list CodeIssue)) :=
  [ validate ].

(** [InMemoryAnalyzer.analyze]. *)
Definition analyze (files : list FileInput) : Completion StaticAnalysisResponse :=
  (* Single-file analysis *)
  bind (forOf (fun allIssues file =>
                 match InMemoryAnalyzer.getAnalyzerForFile acorn htmlparser2 (path file) with
                 | Some analyzer => push allIssues (analyzeFile analyzer file)
                 | None => Returned allIssues
                 end)
              [] files)
       (fun allIssues =>
          (* Cross-file validation *)
          bind (forOf (fun allIssues validator =>
                         bind (validator files) (fun found => push allIssues found))
                      allIssues crossValidators)
               (fun allIssues => Returned (InMemoryAnalyzer.buildResponse allIssues))).

(** No merge of a batch is past the limit: neither the issues of one file,
    nor the usages of one markup file, nor the issues of the validator. *)
Definition fits (files : list FileInput) : bool :=
  forallb (fun file =>
             bool_decide
               (length (InMemoryAnalyzer.analyzeOne acorn htmlparser2 file) <= limit))
          files
  && forallb (fun file =>
                negb (HTMLCSSCrossValidator.isMarkup file)
                || bool_decide
                     (length (HTMLCSSCrossValidator.extractHTMLUsage htmlparser2 file)
                      <= limit))
             files
  && bool_decide (length (HTMLCSSCrossValidator.validate htmlparser2 files) <= limit).
End WithParsers.
End WithLimit.

End Spread.

(* ===================================================================== *)
(** * The stylesheet scan as the specification words it *)
(* ===================================================================== *)

(** The specification describes the scan of the stylesheet analyzer over the
    whole text, by seven rules in priority order. This module follows those
    words, for comparison with [CSSAnalyzer]: the braces outside strings and
    comments, and the nesting depth they leave. *)
Module StylesheetSpec.
Import Js.

Inductive Mode := Code | Comment | Quoted (quote : ascii).

Inductive Brace := Opening | Closing.

Global Instance Brace_eq_dec : EqDecision Brace.
Proof. solve_decision. Defined.

Definition isQuote (c : ascii) : bool :=
  bool_decide (c = dquote) || bool_decide (c = squote).

(** Rules 1 to 7 for one character; the result tells whether the next
    character is skipped too, the new mode, and the brace found. *)
Definition rule (_ : nat) (prev : option ascii) (char : ascii)
    (nextChar : option ascii) (m : Mode) : bool * Mode * list Brace :=
  match m with
  | Code =>
      if bool_decide (char = "/"%char) && is_char nextChar "*" then (true, Comment, [])
      else if isQuote char then (false, Quoted char, [])
      else if bool_decide (char = "{"%char) then (false, Code, [Opening])
      else if bool_decide (char = "}"%char) then (false, Code, [Closing])
      else (false, Code, [])
  | Comment =>
      if bool_decide (char = "*"%char) && is_char nextChar "/" then (true, Code, [])
      else (false, Comment, [])
  | Quoted q =>
      if bool_decide (char = q) && negb (is_char prev backslash) then (false, Code, [])
      else (false, Quoted q, [])
  end.

(** The mode at the end of the text, and the braces outside strings and
    comments, in order. *)
Definition lex (text : string) : Mode * list Brace :=
  forChars rule 0 None text Code.

Definition braces (text : string) : list Brace := (lex text).2.

Definition finalMode (text : string) : Mode := (lex text).1.

Definition isComment (m : Mode) : bool :=
  match m with Comment => true | _ => false end.

Definition isQuoted (m : Mode) : bool :=
  match m with Quoted _ => true | _ => false end.

Definition opened (bs : list Brace) : Z :=
  Z.of_nat (length (filter (fun b => b = Opening) bs)).

Definition closed (bs : list Brace) : Z :=
  Z.of_nat (length (filter (fun b => b = Closing) bs)).

(** Rule 7: the depth, and the number of closing braces met at depth 0
    (each reported, the depth staying 0). *)
Definition nest (st : Z * nat) (b : Brace) : Z * nat :=
  match b with
  | Opening => (st.1 + 1, st.2)%Z
  | Closing => if bool_decide (st.1 = 0%Z) then (0%Z, S st.2) else ((st.1 - 1)%Z, st.2)
  end.

Definition depthAfter (bs : list Brace) : Z := (foldl nest (0%Z, 0) bs).1.

Definition unexpectedIn (bs : list Brace) : nat := (foldl nest (0%Z, 0) bs).2.

(** A text whose braces outside strings and comments are balanced: no
    closing brace is met at depth 0, the depth is 0 at the end, and the text
    ends outside strings and comments. *)
Definition wellNested (text : string) : Prop :=
  finalMode text = Code
  /\ depthAfter (braces text) = 0%Z
  /\ unexpectedIn (braces text) = 0.

End StylesheetSpec.

(* ===================================================================== *)
(** * The scan of CSSAnalyzer as one loop over the text *)
(* ===================================================================== *)

(** [CSSAnalyzer.analyze] cuts the text into lines and scans each. The same
    scan, written as a single loop over the text that keeps the line index
    and the column in its state, is what the proofs reason on
    ([CSSFacts.analyze_scanText] relates the two). *)
Module CSSText.
Import Js CSSAnalyzer.

Record Cursor := { scan : ScanState; lineNum : nat; col : nat }.

Definition start : Cursor := {| scan := initial; lineNum := 0; col := 0 |}.

Definition textBody (path : string) (_ : nat) (prev : option ascii) (char : ascii)
    (nextChar : option ascii) (cur : Cursor) : bool * Cursor * list CodeIssue :=
  if bool_decide (char = LF)
  then (false, {| scan := scan cur; lineNum := S (lineNum cur); col := 0 |}, [])
  else let '(skip, st, out) :=
         loopBody path (lineNum cur) (col cur) prev char nextChar (scan cur) in
       (skip, {| scan := st; lineNum := lineNum cur; col := advance skip (col cur) |}, out).

Definition scanText (path : string) (text : string) : Cursor * list CodeIssue :=
  forChars (textBody path) 0 None text start.

(** The last of the lines of a text. *)
Definition lastLine (text : string) : string :=
  default EmptyString (last (split LF text)).

(** The column reached after [text], from column [c]. *)
Fixpoint columnAfter (c : nat) (text : string) : nat :=
  match text with
  | EmptyString => c
  | String x r => columnAfter (if bool_decide (x = LF) then 0 else S c) r
  end.

Definition notLF (c : ascii) : bool := negb (bool_decide (c = LF)).

(** [stringChar] matters only inside a string. *)
Definition alike (s1 s2 : ScanState) : Prop :=
  braceCount s1 = braceCount s2 /\ inString s1 = inString s2
  /\ inComment s1 = inComment s2
  /\ (inString s1 = true -> stringChar s1 = stringChar s2).

Import StylesheetSpec.

(** The two flags of the analyzer, read as a mode of the specification. *)
Definition inMode (st : ScanState) (m : Mode) : Prop :=
  match m with
  | Code => inString st = false /\ inComment st = false
  | Comment => inString st = false /\ inComment st = true
  | Quoted q => inString st = true /\ inComment st = false
                /\ stringChar st = Some q /\ isQuote q = true
  end.

(** The analyzer's state and the number of issues it found, against the
    specification's mode and braces: same mode, and the depth and the
    number of reports that rule 7 gives for the braces read so far. *)
Definition refines (st : ScanState) (reports : nat) (m : Mode) (bs : list Brace) : Prop :=
  inMode st m
  /\ (0 <= braceCount st)%Z
  /\ foldl nest (0%Z, 0) bs = (braceCount st, reports).

End CSSText.

(* ===================================================================== *)
(** * Runs of the handlers of HTMLAnalyzer *)
(* ===================================================================== *)

Module HTMLRun.
Import Js HtmlParser2 HTMLAnalyzer.

(** Every frame of the stack holds a lowercased name. *)
Definition lowered (st : State) : Prop :=
  Forall (fun f => toLowerCase (name f) = name f) (tagStack st).

(** The rule ids of the issues the handlers push. *)
Definition handlerRule (i : CodeIssue) : Prop :=
  ruleId i = "HTML_UNEXPECTED_CLOSE" \/ ruleId i = "HTML_TAG_MISMATCH".

(** An event sequence without close-tag events. *)
Definition noClose (evs : list TagEvent) : Prop :=
  Forall (fun ev => forall tag, ev <> CloseTag tag) evs.

End HTMLRun.

(* ===================================================================== *)
(** * The response and the rule ids as the specification words them *)
(* ===================================================================== *)

Module ResponseSpec.

(** The tally of one severity over a list of issues. *)
Fixpoint tally (s : LintSeverity) (found : list CodeIssue) : nat :=
  match found with
  | [] => 0
  | i :: rest => (if decide (severity i = s) then 1 else 0) + tally s rest
  end.

(** The rule-id taxonomy of the specification, in its order. *)
Definition specifiedRuleIds : list string :=
  [ "unbalanced-brace-unexpected"; "unbalanced-brace-unclosed";
    "comment-unclosed"; "string-unclosed";
    "tag-unexpected-close"; "tag-mismatch"; "tag-unclosed";
    "markup-parse-error"; "script-syntax-error"; "script-parse-error";
    "class-undefined"; "id-undefined" ].

(** The rule ids the sources write, in the same order. *)
Definition producedRuleIds : list string :=
  [ "CSS_UNEXPECTED_BRACE"; "CSS_UNCLOSED_BRACE";
    "CSS_UNCLOSED_COMMENT"; "CSS_UNCLOSED_STRING";
    "HTML_UNEXPECTED_CLOSE"; "HTML_TAG_MISMATCH"; "HTML_UNCLOSED_TAG";
    "HTML_PARSE_ERROR"; "JS_SYNTAX_ERROR"; "JS_PARSE_ERROR";
    "CSS_CLASS_UNDEFINED"; "CSS_ID_UNDEFINED" ].

End ResponseSpec.

(* ===================================================================== *)
(** * Sample inputs *)
(* ===================================================================== *)

(** Two concrete runs of the external parsers, on which the statements
    below are exercised. *)
Module Samples.
Import HtmlParser2.

Definition styled : string := "<style>.card{}</style>".
Definition user : string := "<div class=card id=main>".
Definition broken : string := "<ul><li>".

Definition htmlparser2 : Parser := fun _ text =>
  if String.eqb text styled then
    {| events := [OpenTag "style" ∅; Text ".card{}"; CloseTag "style"];
       thrown := None |}
  else if String.eqb text user then
    {| events := [OpenTag "div" {[ "class" := "card"; "id" := "main" ]}];
       thrown := None |}
  else if String.eqb text broken then
    {| events := [OpenTag "ul" ∅; OpenTag "li" ∅];
       thrown := Some (ErrorObject "parser failed") |}
  else {| events := []; thrown := None |}.

Definition acorn : Acorn.Parse := fun text =>
  if String.eqb text "let" then Some (Acorn.SyntaxErrorObject "Unexpected token" (Some (1, 3)))
  else None.

Definition batch : list FileInput :=
  [ {| path := "a.html"; content := user |};
    {| path := "b.html"; content := styled |};
    {| path := "c.css"; content := "}" |};
    {| path := "d.js"; content := "let" |};
    {| path := "e.htm"; content := broken |} ].
End Samples.


(* ===================================================================== *)
(** * Notions used to state further properties of the sources *)
(* ===================================================================== *)

Module Shapes.
Import Js Regex HtmlParser2.

(** [text[k]], or [None] past the end. *)
Fixpoint charAt (k : nat) (text : string) : option ascii :=
  match text, k with
  | EmptyString, _ => None
  | String c _, O => Some c
  | String _ r, S j => charAt j r
  end.

(** A name of the shape the two selector patterns capture: one character of
    [[a-zA-Z_]] followed by characters of [[a-zA-Z0-9_-]]. *)
Definition isName (s : string) : bool :=
  match s with
  | String c r => nameStart c && all nameChar r
  | EmptyString => false
  end.

(** The position of an issue comes before the position of another one:
    an earlier line, or the same line and an earlier column. *)
Definition before (i j : CodeIssue) : Prop :=
  line i < line j \/ (line i = line j /\ column i < column j).

(** An open-tag or close-tag event of a void element. *)
Definition isVoidEvent (ev : TagEvent) : bool :=
  match ev with
  | OpenTag tag _ | CloseTag tag =>
      bool_decide (toLowerCase tag ∈ HTMLAnalyzer.selfClosingTags)
  | Text _ => false
  end.

(** The line feeds of the text events of a run. *)
Fixpoint newlinesOf (evs : list TagEvent) : nat :=
  match evs with
  | [] => 0
  | Text text :: rest => countNewlines text + newlinesOf rest
  | _ :: rest => newlinesOf rest
  end.

(** Event sequences in which every non-void open tag is closed by a close
    tag of the same name up to case, in proper nesting order; text and the
    tags of void elements may stand anywhere. *)
Inductive Nested : list TagEvent -> Prop :=
| Nested_nil : Nested []
| Nested_text text evs : Nested evs -> Nested (Text text :: evs)
| Nested_void ev evs : isVoidEvent ev = true -> Nested evs -> Nested (ev :: evs)
| Nested_element tag attribs inner closing evs :
    toLowerCase tag ∉ HTMLAnalyzer.selfClosingTags ->
    toLowerCase closing = toLowerCase tag ->
    Nested inner -> Nested evs ->
    Nested (OpenTag tag attribs :: inner ++ CloseTag closing :: evs).

(** A state of the markup analyzer in which lines are in order: the line
    counter is at least 1, the frames of the stack were opened at lines that
    do not decrease from the bottom up, the issues found so far stand at
    lines that do not decrease, and neither a frame nor an issue lies
    outside lines 1 to the current one. *)
Definition orderly (st : HTMLAnalyzer.State) : Prop :=
  1 <= HTMLAnalyzer.currentLine st
  /\ StronglySorted (fun f g => HTMLAnalyzer.openedAt f <= HTMLAnalyzer.openedAt g)
       (HTMLAnalyzer.tagStack st)
  /\ Forall (fun f => 1 <= HTMLAnalyzer.openedAt f <= HTMLAnalyzer.currentLine st)
       (HTMLAnalyzer.tagStack st)
  /\ Forall (fun i => 1 <= line i <= HTMLAnalyzer.currentLine st)
       (HTMLAnalyzer.found st)
  /\ StronglySorted (fun i j => line i <= line j) (HTMLAnalyzer.found st).

(** The rule ids of the issues the handlers of the markup analyzer push. *)
Definition handlerRules : list string :=
  ["HTML_UNEXPECTED_CLOSE"; "HTML_TAG_MISMATCH"].

(** The fields every issue of the markup analyzer shares. *)
Definition markupFields (name : string) (i : CodeIssue) : Prop :=
  filePath i = name /\ severity i = error /\ source i = "htmlparser2" /\ column i = 0.

(** The definition set a kind of usage is looked up in. *)
Definition names (t : HTMLCSSCrossValidator.UsageType)
    (d : HTMLCSSCrossValidator.Definitions) : gset string :=
  match t with
  | HTMLCSSCrossValidator.class => HTMLCSSCrossValidator.classes d
  | HTMLCSSCrossValidator.id => HTMLCSSCrossValidator.ids d
  end.

(** The selector pattern that fills the set of a kind of usage. *)
Definition regexOf (t : HTMLCSSCrossValidator.UsageType) : Matcher :=
  match t with
  | HTMLCSSCrossValidator.class => classRegex
  | HTMLCSSCrossValidator.id => idRegex
  end.

(** The character that introduces a selector of a kind. *)
Definition sigil (t : HTMLCSSCrossValidator.UsageType) : ascii :=
  match t with
  | HTMLCSSCrossValidator.class => "."%char
  | HTMLCSSCrossValidator.id => "#"%char
  end.

(** The issue pushed for an undefined usage of a kind. *)
Definition undefinedIssue (u : HTMLCSSCrossValidator.CSSUsage) : CodeIssue :=
  match HTMLCSSCrossValidator.type u with
  | HTMLCSSCrossValidator.class => HTMLCSSCrossValidator.classUndefined u
  | HTMLCSSCrossValidator.id => HTMLCSSCrossValidator.idUndefined u
  end.

(** A token of a class attribute: not empty and free of white space. *)
Definition isToken (s : string) : bool :=
  HTMLCSSCrossValidator.truthy s && all (fun c => negb (isSpace c)) s.

(** The alternatives of the second utility pattern, which has no hyphen
    after them. *)
Definition layoutKeywords : list string :=
  ["flex"; "grid"; "block"; "inline"; "hidden"; "visible";
   "absolute"; "relative"; "fixed"; "sticky"].

(** The fields every issue of the cross validator shares. *)
Definition validatorFields (i : CodeIssue) : Prop :=
  severity i = warning /\ source i = "html-css-validator" /\ column i = 0.

(** A text without braces, slashes and opening parentheses: it holds no
    block, no comment and no url value. *)
Definition plain (s : string) : bool :=
  all (fun c => negb (oneOfChars "{}/(" c)) s.

(** A rule: its selector text, then its body between braces. *)
Definition ruleText (r : string * string) : string :=
  r.1 +:+ "{" +:+ r.2 +:+ "}".

(** A stylesheet made of rules, with some text after the last one. *)
Fixpoint sheetText (rules : list (string * string)) (trailing : string) : string :=
  match rules with
  | [] => trailing
  | r :: rest => ruleText r +:+ sheetText rest trailing
  end.

(** A character of a name, or a sigil. *)
Definition nameish (c : ascii) : bool :=
  nameChar c || bool_decide (c = "."%char) || bool_decide (c = "#"%char).

(** A text without braces. *)
Definition braceFree (s : string) : bool :=
  all (fun c => negb (bool_decide (c = "{"%char)) && negb (bool_decide (c = "}"%char))) s.

(** What a usage of a run looks like. *)
Definition usageOk (name : string) (upTo : nat) (u : HTMLCSSCrossValidator.CSSUsage) : Prop :=
  HTMLCSSCrossValidator.usedIn u = name /\ 1 <= HTMLCSSCrossValidator.usedAt u <= upTo
  /\ (HTMLCSSCrossValidator.type u = HTMLCSSCrossValidator.class ->
      isToken (HTMLCSSCrossValidator.usedName u) = true).

End Shapes.
(* ===================================================================== *)
(** * Facts about the string primitives *)
(* ===================================================================== *)

Module JsFacts.
Import Js.

(** Induction that follows [forChars]: the tail, and the tail's tail. *)
Lemma string_skip_ind (P : string -> Prop) :
  P EmptyString ->
  (forall c, P (String c EmptyString)) ->
  (forall c d r, P (String d r) -> P r -> P (String c (String d r))) ->
  forall s, P s.
Proof.
  intros Hnil Hone Hstep s.
  assert (H : P s /\ forall c, P (String c s)).
  { induction s as [|d r [IH1 IH2]]; split; auto. }
  apply H.
Qed.

Lemma append_nil_r (s : string) : s +:+ EmptyString = s.
Proof. induction s; simpl; congruence. Qed.

Lemma append_assoc (a b c : string) : (a +:+ b) +:+ c = a +:+ (b +:+ c).
Proof. induction a; simpl; congruence. Qed.

Lemma length_append (a b : string) :
  String.length (a +:+ b) = String.length a + String.length b.
Proof. induction a; simpl; auto. Qed.

Lemma append_inj_r (a b c : string) : a +:+ b = a +:+ c -> b = c.
Proof. induction a; simpl; intros H; [assumption|]. injection H; auto. Qed.

Lemma append_inj_l (a b c : string) : a +:+ c = b +:+ c -> a = b.
Proof.
  revert b. induction a as [|x a IH]; intros [|y b] H; simpl in H.
  - reflexivity.
  - apply (f_equal String.length) in H. simpl in H.
    rewrite length_append in H. lia.
  - apply (f_equal String.length) in H. simpl in H.
    rewrite length_append in H. lia.
  - injection H as -> H. f_equal. auto.
Qed.

Lemma eqb_true (a b : string) : String.eqb a b = true <-> a = b.
Proof. apply String.eqb_eq. Qed.

Lemma eqb_false (a b : string) : String.eqb a b = false <-> a <> b.
Proof. apply String.eqb_neq. Qed.

Lemma endsWith_unfold (s suffix : string) :
  endsWith s suffix =
  if String.eqb s suffix then true
  else match s with
       | EmptyString => false
       | String _ r => endsWith r suffix
       end.
Proof. destruct s; reflexivity. Qed.

(** [endsWith] is the existence of a prefix. *)
Lemma endsWith_spec (s suffix : string) :
  endsWith s suffix = true <-> exists p, s = p +:+ suffix.
Proof.
  induction s as [|c r IH]; rewrite endsWith_unfold.
  - destruct (String.eqb EmptyString suffix) eqn:E.
    + apply eqb_true in E. subst. split; [exists EmptyString; reflexivity | auto].
    + apply eqb_false in E. split; [discriminate|].
      intros [[|x p] Hp]; simpl in Hp; congruence.
  - destruct (String.eqb (String c r) suffix) eqn:E.
    + apply eqb_true in E. subst. split; [exists EmptyString; reflexivity | auto].
    + apply eqb_false in E. rewrite IH. split.
      * intros [p ->]. exists (String c p). reflexivity.
      * intros [[|x p] Hp]; simpl in Hp; [congruence|].
        injection Hp as -> ->. eauto.
Qed.

Lemma endsWith_same_length (base ext suffix : string) :
  String.length ext = String.length suffix ->
  endsWith (base +:+ ext) suffix = bool_decide (ext = suffix).
Proof.
  intros Hlen. apply eq_true_iff_eq. rewrite endsWith_spec, bool_decide_eq_true.
  split.
  - intros [p Hp].
    assert (String.length base = String.length p) as Hl.
    { apply (f_equal String.length) in Hp. rewrite !length_append in Hp. lia. }
    clear Hlen. revert p Hp Hl.
    induction base as [|x b IH]; intros [|y p] Hp Hl; simpl in *; try lia; auto.
    injection Hp as -> Hp. eauto.
  - intros ->. exists base. reflexivity.
Qed.

(** [toLowerCase] is idempotent: frames pushed lowercased stay comparable. *)
Lemma lower_char_idemp (c : ascii) : lower_char (lower_char c) = lower_char c.
Proof. destruct c as [[] [] [] [] [] [] [] []]; vm_compute; reflexivity. Qed.

Lemma toLowerCase_idemp (s : string) : toLowerCase (toLowerCase s) = toLowerCase s.
Proof. induction s; simpl; [|rewrite lower_char_idemp]; congruence. Qed.

Lemma toLowerCase_length (s : string) : String.length (toLowerCase s) = String.length s.
Proof. induction s; simpl; auto. Qed.

(** ** Filters *)

Lemma filter_all {A} (P : A -> Prop) `{!forall x, Decision (P x)} (l : list A) :
  Forall P l -> filter P l = l.
Proof.
  induction 1 as [|x l Hx _ IH]; [reflexivity|].
  rewrite filter_cons_True by assumption. congruence.
Qed.

Lemma filter_none {A} (P : A -> Prop) `{!forall x, Decision (P x)} (l : list A) :
  Forall (fun x => ~ P x) l -> filter P l = [].
Proof.
  induction 1 as [|x l Hx _ IH]; [reflexivity|].
  rewrite filter_cons_False by assumption. assumption.
Qed.

(** ** Lines *)

Lemma split_nonempty sep s : split sep s <> [].
Proof.
  induction s as [|c r IH]; simpl; [discriminate|].
  destruct (split sep r); [congruence|]. case_bool_decide; discriminate.
Qed.

Lemma split_cons sep c r :
  split sep (String c r) =
  match split sep r with
  | l :: ls => if bool_decide (c = sep) then EmptyString :: l :: ls else String c l :: ls
  | [] => []
  end.
Proof. reflexivity. Qed.

Lemma join_cons2 sep l l' ls :
  join sep (l :: l' :: ls) = l +:+ sep +:+ join sep (l' :: ls).
Proof. reflexivity. Qed.

(** Joining the lines gives the text back. *)
Lemma join_split sep s : join (String sep EmptyString) (split sep s) = s.
Proof.
  induction s as [|c r IH]; [reflexivity|].
  rewrite split_cons. pose proof (split_nonempty sep r) as Hne.
  destruct (split sep r) as [|l ls]; [congruence|].
  case_bool_decide.
  - subst c. rewrite join_cons2, IH. reflexivity.
  - destruct ls as [|l' ls].
    + simpl in *. congruence.
    + rewrite join_cons2 in *. rewrite <- IH. reflexivity.
Qed.

Lemma length_split s : length (split LF s) = countNewlines s + 1.
Proof.
  induction s as [|c r IH]; [reflexivity|].
  rewrite split_cons. pose proof (split_nonempty LF r) as Hne.
  destruct (split LF r) as [|l ls]; [congruence|].
  simpl countNewlines. case_bool_decide; simpl in *; lia.
Qed.

(** No line holds a line feed. *)
Lemma split_no_sep sep s :
  Forall (fun l => all (fun c => negb (bool_decide (c = sep))) l = true) (split sep s).
Proof.
  induction s as [|c r IH]; [repeat constructor|].
  rewrite split_cons. destruct (split sep r) as [|l ls]; [constructor|].
  inversion IH as [|? ? Hl Hls]; subst.
  case_bool_decide.
  - repeat constructor; assumption.
  - constructor; [|assumption]. simpl. rewrite Hl.
    rewrite bool_decide_eq_false_2 by assumption. reflexivity.
Qed.

(** ** The loop over the characters *)
Section ForChars.
Context {St Out : Type}.
Implicit Types body : nat -> option ascii -> ascii -> option ascii -> St -> bool * St * list Out.

Lemma forChars_nil body i prev st :
  forChars body i prev EmptyString st = (st, []).
Proof. reflexivity. Qed.

(** One turn of the loop. *)
Lemma forChars_cons body i prev c rest st :
  forChars body i prev (String c rest) st =
  let '(skip, st1, out) := body i prev c (head rest) st in
  let '(st2, out2) :=
    if skip
    then forChars body (S (S i)) (head rest)
           (match rest with String _ r => r | EmptyString => rest end) st1
    else forChars body (S i) (Some c) rest st1 in
  (st2, out ++ out2).
Proof. reflexivity. Qed.

(** Everything the loop emits was emitted by its body. *)
Lemma forChars_Forall body (P : Out -> Prop) :
  (forall i prev c next st, Forall P (body i prev c next st).2) ->
  forall text i prev st, Forall P (forChars body i prev text st).2.
Proof.
  intros Hbody text.
  induction text as [|c|c d r IH1 IH2] using string_skip_ind; intros i prev st.
  - constructor.
  - rewrite forChars_cons. simpl.
    specialize (Hbody i prev c None st).
    destruct (body i prev c None st) as [[skip st1] out]. simpl in *.
    destruct skip; simpl; rewrite app_nil_r; assumption.
  - rewrite forChars_cons.
    specialize (Hbody i prev c (head (String d r)) st).
    destruct (body i prev c (head (String d r)) st) as [[skip st1] out].
    simpl in Hbody. destruct skip.
    + specialize (IH2 (S (S i)) (head (String d r)) st1).
      destruct (forChars body (S (S i)) (head (String d r)) r st1) as [st2 out2].
      simpl in *. apply Forall_app; auto.
    + specialize (IH1 (S i) (Some c) st1).
      destruct (forChars body (S i) (Some c) (String d r) st1) as [st2 out2].
      simpl in *. apply Forall_app; auto.
Qed.

(** The loop over [l1 +:+ l2] is the loop over [l1] followed by the loop
    over [l2], when the body cannot tell the first character of [l2] from
    the end of the text and does not ask to skip past the end. *)
Lemma forChars_app body l2 :
  (forall j p c s, body j p c (head l2) s = body j p c None s) ->
  (forall j p c s, (body j p c None s).1.1 = false) ->
  forall l1 i prev st,
    forChars body i prev (l1 +:+ l2) st =
    let '(st1, out1) := forChars body i prev l1 st in
    let '(st2, out2) := forChars body (i + String.length l1) (lastChar prev l1) l2 st1 in
    (st2, out1 ++ out2).
Proof.
  intros Hedge Hstay l1.
  induction l1 as [|c|c d r IH1 IH2] using string_skip_ind; intros i prev st.
  - simpl. rewrite Nat.add_0_r.
    destruct (forChars body i prev l2 st); reflexivity.
  - simpl String.append. rewrite !forChars_cons. cbn [head].
    rewrite Hedge. specialize (Hstay i prev c st).
    destruct (body i prev c None st) as [[skip st1] out]. simpl in Hstay. subst skip.
    rewrite forChars_nil. simpl lastChar. simpl String.length.
    replace (i + 1) with (S i) by lia.
    destruct (forChars body (S i) (Some c) l2 st1) as [st2 out2].
    rewrite app_nil_r. reflexivity.
  - change (String c (String d r) +:+ l2) with (String c (String d (r +:+ l2))).
    rewrite (forChars_cons body i prev c (String d (r +:+ l2))).
    rewrite (forChars_cons body i prev c (String d r)). cbn [head].
    destruct (body i prev c (Some d) st) as [[skip st1] out]. destruct skip.
    + rewrite (IH2 (S (S i)) (Some d) st1).
      simpl lastChar. simpl String.length.
      destruct (forChars body (S (S i)) (Some d) r st1) as [st2 out2].
      replace (i + S (S (String.length r))) with (S (S i) + String.length r) by lia.
      destruct (forChars body _ _ l2 st2) as [st3 out3].
      rewrite app_assoc. reflexivity.
    + change (String d (r +:+ l2)) with (String d r +:+ l2).
      rewrite (IH1 (S i) (Some c) st1).
      simpl lastChar. simpl String.length.
      destruct (forChars body (S i) (Some c) (String d r) st1) as [st2 out2].
      replace (i + S (S (String.length r))) with (S i + S (String.length r)) by lia.
      destruct (forChars body _ _ l2 st2) as [st3 out3].
      rewrite app_assoc. reflexivity.
Qed.
End ForChars.

(** Two loops over the same text stay related when their bodies keep them
    related: [R] relates the indices, the states and what was emitted so
    far; [Q] relates the previous characters the two loops start with;
    [ok] holds of every character of the text. *)
Section Simulation.
Context {St1 Out1 St2 Out2 : Type}.
Variable body1 : nat -> option ascii -> ascii -> option ascii -> St1 -> bool * St1 * list Out1.
Variable body2 : nat -> option ascii -> ascii -> option ascii -> St2 -> bool * St2 * list Out2.
Variable ok : ascii -> bool.
Variable Q : option ascii -> option ascii -> Prop.
Variable R : nat -> St1 -> list Out1 -> nat -> St2 -> list Out2 -> Prop.

Hypothesis Q_refl : forall c, Q (Some c) (Some c).
Hypothesis step :
  forall i1 i2 p1 p2 c n s1 o1 s2 o2,
    ok c = true -> Q p1 p2 -> R i1 s1 o1 i2 s2 o2 ->
    (body1 i1 p1 c n s1).1.1 = (body2 i2 p2 c n s2).1.1 /\
    R (advance (body1 i1 p1 c n s1).1.1 i1)
      (body1 i1 p1 c n s1).1.2 (o1 ++ (body1 i1 p1 c n s1).2)
      (advance (body1 i1 p1 c n s1).1.1 i2)
      (body2 i2 p2 c n s2).1.2 (o2 ++ (body2 i2 p2 c n s2).2).

Lemma forChars_sim text :
  all ok text = true ->
  forall i1 i2 p1 p2 s1 o1 s2 o2,
    Q p1 p2 -> R i1 s1 o1 i2 s2 o2 ->
    exists j1 j2,
      R j1 (forChars body1 i1 p1 text s1).1 (o1 ++ (forChars body1 i1 p1 text s1).2)
        j2 (forChars body2 i2 p2 text s2).1 (o2 ++ (forChars body2 i2 p2 text s2).2).
Proof.
  induction text as [|c|c d r IH1 IH2] using string_skip_ind;
    intros Hok i1 i2 p1 p2 s1 o1 s2 o2 HQ HR.
  - exists i1, i2. simpl. rewrite !app_nil_r. assumption.
  - simpl in Hok. apply andb_true_iff in Hok as [Hc _].
    destruct (step i1 i2 p1 p2 c None s1 o1 s2 o2 Hc HQ HR) as [Hk HR'].
    rewrite !forChars_cons. cbn [head].
    destruct (body1 i1 p1 c None s1) as [[k1 s1'] e1].
    destruct (body2 i2 p2 c None s2) as [[k2 s2'] e2].
    simpl in Hk, HR'. subst k2.
    exists (advance k1 i1), (advance k1 i2).
    destruct k1; rewrite !forChars_nil; simpl; rewrite !app_nil_r; assumption.
  - simpl in Hok. apply andb_true_iff in Hok as [Hc Hok].
    pose proof Hok as Hok'. apply andb_true_iff in Hok' as [_ Hr].
    destruct (step i1 i2 p1 p2 c (Some d) s1 o1 s2 o2 Hc HQ HR) as [Hk HR'].
    rewrite !forChars_cons. cbn [head].
    destruct (body1 i1 p1 c (Some d) s1) as [[k1 s1'] e1].
    destruct (body2 i2 p2 c (Some d) s2) as [[k2 s2'] e2].
    simpl in Hk, HR'. subst k2. destruct k1; simpl in HR'.
    + destruct (IH2 Hr _ _ _ _ _ _ _ _ (Q_refl d) HR') as (j1 & j2 & HJ).
      exists j1, j2.
      destruct (forChars body1 (S (S i1)) (Some d) r s1') as [s1'' e1'].
      destruct (forChars body2 (S (S i2)) (Some d) r s2') as [s2'' e2'].
      simpl in *. rewrite !app_assoc. assumption.
    + destruct (IH1 Hok _ _ _ _ _ _ _ _ (Q_refl c) HR') as (j1 & j2 & HJ).
      exists j1, j2.
      destruct (forChars body1 (S i1) (Some c) (String d r) s1') as [s1'' e1'].
      destruct (forChars body2 (S i2) (Some c) (String d r) s2') as [s2'' e2'].
      simpl in *. rewrite !app_assoc. assumption.
Qed.
End Simulation.

End JsFacts.

(* ===================================================================== *)
(** * Facts about CSSAnalyzer *)
(* ===================================================================== *)

Module CSSFacts.
Import Js JsFacts CSSAnalyzer CSSText StylesheetSpec.

(** ** The body of the loop *)

(** The body looks at the next character only to compare it with the two
    characters of the comment delimiters. *)
Lemma loopBody_next path ln i prev c n n' st :
  is_char n "*" = is_char n' "*" ->
  is_char n "/" = is_char n' "/" ->
  loopBody path ln i prev c n st = loopBody path ln i prev c n' st.
Proof. intros H1 H2. unfold loopBody. rewrite H1, H2. reflexivity. Qed.

(** It looks at the previous character only to compare it with the
    backslash. *)
Lemma loopBody_prev path ln i p p' c n st :
  is_char p backslash = is_char p' backslash ->
  loopBody path ln i p c n st = loopBody path ln i p' c n st.
Proof. intros H. unfold loopBody. rewrite H. reflexivity. Qed.

(** It skips a character only when that character is there. *)
Lemma loopBody_skip path ln i prev c n st :
  (loopBody path ln i prev c n st).1.1 = true ->
  is_char n "*" = true \/ is_char n "/" = true.
Proof.
  unfold loopBody.
  destruct (is_char n "*") eqn:E1; [auto|].
  destruct (is_char n "/") eqn:E2; [auto|].
  rewrite !andb_false_r. simpl.
  repeat case_match; simpl; intros; discriminate.
Qed.

Lemma loopBody_no_skip_at_end path ln i prev c st :
  (loopBody path ln i prev c None st).1.1 = false.
Proof.
  apply not_true_is_false. intros H.
  apply loopBody_skip in H as [H|H]; discriminate.
Qed.

(** The body emits nothing but unexpected closing braces, at its own
    position. *)
Lemma loopBody_emits path ln i prev c n st :
  (loopBody path ln i prev c n st).2 = []
  \/ (loopBody path ln i prev c n st).2 = [unexpectedBrace path ln i].
Proof. unfold loopBody. repeat case_match; simpl; auto. Qed.

(** ** The single loop over the text *)

Lemma textBody_next path j p c n st :
  n = None \/ n = Some LF \/ n = Some "}"%char ->
  textBody path j p c n st = textBody path j p c None st.
Proof.
  intros Hn. unfold textBody. case_bool_decide; [reflexivity|].
  rewrite (loopBody_next path (lineNum st) (col st) p c n None); [reflexivity| |];
    destruct Hn as [->|[->| ->]]; reflexivity.
Qed.

Lemma textBody_no_skip_at_end path j p c st :
  (textBody path j p c None st).1.1 = false.
Proof.
  unfold textBody. case_bool_decide; [reflexivity|].
  pose proof (loopBody_no_skip_at_end path (lineNum st) (col st) p c (scan st)) as Hs.
  destruct (loopBody path (lineNum st) (col st) p c None (scan st)) as [[k s] o].
  exact Hs.
Qed.

Lemma textBody_LF path j p n cur :
  textBody path j p LF n cur
  = (false, {| scan := scan cur; lineNum := S (lineNum cur); col := 0 |}, []).
Proof. reflexivity. Qed.

(** One line scanned on its own and as a stretch of the text. *)
Lemma scanLine_textBody path ln l :
  all notLF l = true ->
  forall st i p cur,
    is_char p backslash = false ->
    scan cur = st -> lineNum cur = ln -> col cur = 0 ->
    (scanLine path ln l st).1 = scan (forChars (textBody path) i p l cur).1
    /\ (scanLine path ln l st).2 = (forChars (textBody path) i p l cur).2
    /\ lineNum (forChars (textBody path) i p l cur).1 = ln.
Proof.
  intros Hl st i p cur Hp Hst Hln Hcol.
  pose (Q := fun p1 p2 : option ascii => is_char p1 backslash = is_char p2 backslash).
  pose (R := fun (i1 : nat) (s1 : ScanState) (o1 : list CodeIssue)
                 (i2 : nat) (c2 : Cursor) (o2 : list CodeIssue) =>
               s1 = scan c2 /\ o1 = o2 /\ lineNum c2 = ln /\ col c2 = i1).
  destruct (forChars_sim (loopBody path ln) (textBody path) notLF Q R) with
    (text := l) (i1 := 0) (i2 := i) (p1 := @None ascii) (p2 := p)
    (s1 := st) (o1 := @nil CodeIssue) (s2 := cur) (o2 := @nil CodeIssue)
    as (j1 & j2 & H1 & H2 & H3 & _).
  - intros c. reflexivity.
  - clear. intros i1 i2 p1 p2 c n s1 o1 c2 o2 Hc HQ (-> & -> & Hln & Hcol).
    unfold textBody. unfold notLF in Hc. apply negb_true_iff in Hc. rewrite Hc.
    rewrite Hln, Hcol. rewrite (loopBody_prev path ln i1 p2 p1) by (symmetry; exact HQ).
    destruct (loopBody path ln i1 p1 c n (scan c2)) as [[k s'] o'].
    simpl. unfold R. simpl. auto.
  - exact Hl.
  - unfold Q. rewrite Hp. reflexivity.
  - unfold R. auto.
  - unfold scanLine. simpl in H2. auto.
Qed.

Lemma scanLines_cons path ln l ls st :
  scanLines path ln (l :: ls) st =
  let '(st1, out1) := scanLine path ln l st in
  let '(st2, out2) := scanLines path (S ln) ls st1 in
  (st2, out1 ++ out2).
Proof. reflexivity. Qed.

(** The loops of [analyze] over the lines and the single loop over the
    text they were cut from find the same issues and end in the same
    state. *)
Lemma scanLines_textBody path lines :
  Forall (fun l => all notLF l = true) lines -> lines <> [] ->
  forall ln st i p cur,
    is_char p backslash = false ->
    scan cur = st -> lineNum cur = ln -> col cur = 0 ->
    (scanLines path ln lines st).1
      = scan (forChars (textBody path) i p (join (String LF EmptyString) lines) cur).1
    /\ (scanLines path ln lines st).2
      = (forChars (textBody path) i p (join (String LF EmptyString) lines) cur).2.
Proof.
  induction lines as [|l ls IH]; [congruence|].
  intros Hall _ ln st i p cur Hp Hst Hln Hcol.
  inversion Hall as [|? ? Hl Hls]; subst.
  destruct (scanLine_textBody path (lineNum cur) l Hl (scan cur) i p cur Hp
              eq_refl eq_refl Hcol) as (E1 & E2 & E3).
  rewrite scanLines_cons.
  destruct (scanLine path (lineNum cur) l (scan cur)) as [st1 out1].
  destruct ls as [|l' ls'].
  - simpl join. simpl scanLines. simpl in E1, E2. simpl. rewrite app_nil_r. auto.
  - rewrite join_cons2.
    change (String LF EmptyString +:+ join (String LF EmptyString) (l' :: ls'))
      with (String LF (join (String LF EmptyString) (l' :: ls'))).
    rewrite forChars_app;
      [| intros; apply textBody_next; simpl; auto
       | intros; apply textBody_no_skip_at_end ].
    destruct (forChars (textBody path) i p l cur) as [cur1 o1].
    simpl in E1, E2, E3. subst st1 out1.
    rewrite forChars_cons, textBody_LF.
    set (cur2 := {| scan := scan cur1; lineNum := S (lineNum cur1); col := 0 |}).
    destruct (IH Hls ltac:(discriminate) (S (lineNum cur)) (scan cur1)
                (S (i + String.length l)) (Some LF) cur2 eq_refl eq_refl
                ltac:(simpl; congruence) eq_refl) as [F1 F2].
    destruct (scanLines path (S (lineNum cur)) (l' :: ls') (scan cur1)) as [st2 out2].
    destruct (forChars (textBody path) (S (i + String.length l)) (Some LF)
                (join (String LF EmptyString) (l' :: ls')) cur2) as [cur3 o3].
    simpl in F1, F2. subst. simpl. auto.
Qed.

(** [analyze], as one loop over the text followed by the three checks. *)
Lemma analyze_scanText file :
  analyze file =
  (scanText (path file) (content file)).2
  ++ endOfFile (path file) (length (split LF (content file)))
       (scan (scanText (path file) (content file)).1).
Proof.
  unfold analyze, scanText.
  destruct (scanLines_textBody (path file) (split LF (content file))
              (split_no_sep LF (content file)) (split_nonempty LF (content file))
              0 initial 0 None start eq_refl eq_refl eq_refl eq_refl) as [E1 E2].
  rewrite join_split in E1, E2.
  destruct (scanLines (path file) 0 (split LF (content file)) initial) as [st found].
  simpl in E1, E2. subst. reflexivity.
Qed.

(** Where one turn of the single loop leaves the cursor. *)
Lemma textBody_step_position path i p c n cur :
  lineNum (textBody path i p c n cur).1.2
    = lineNum cur + (if bool_decide (c = LF) then 1 else 0)
  /\ col (textBody path i p c n cur).1.2
    = (if bool_decide (c = LF) then 0
       else advance (textBody path i p c n cur).1.1 (col cur))
  /\ ((textBody path i p c n cur).1.1 = true ->
      exists d, n = Some d /\ bool_decide (d = LF) = false
                /\ bool_decide (c = LF) = false).
Proof.
  unfold textBody. case_bool_decide.
  - simpl. repeat split; [lia | discriminate].
  - pose proof (loopBody_skip path (lineNum cur) (col cur) p c n (scan cur)) as Hk.
    destruct (loopBody path (lineNum cur) (col cur) p c n (scan cur)) as [[k s] o].
    simpl in *. repeat split; [lia|]. intros ->.
    destruct n as [d|]; [|destruct Hk as [Hk|Hk]; [reflexivity| |]; discriminate].
    exists d. repeat split.
    destruct Hk as [Hk|Hk]; [reflexivity| |]; simpl in Hk;
      apply bool_decide_eq_true in Hk; subst d; reflexivity.
Qed.

(** Where the single loop stands after a text. *)
Lemma textBody_position path text :
  forall i p cur,
    lineNum (forChars (textBody path) i p text cur).1 = lineNum cur + countNewlines text
    /\ col (forChars (textBody path) i p text cur).1 = columnAfter (col cur) text.
Proof.
  induction text as [|c|c d r IH1 IH2] using string_skip_ind; intros i p cur.
  - simpl. auto.
  - rewrite forChars_cons. cbn [head].
    pose proof (textBody_no_skip_at_end path i p c cur) as Hk.
    destruct (textBody_step_position path i p c None cur) as (E1 & E2 & _).
    destruct (textBody path i p c None cur) as [[k cur1] o].
    simpl in Hk, E1, E2. subst k. simpl. rewrite E1, E2.
    case_bool_decide; split; reflexivity || lia.
  - rewrite forChars_cons. cbn [head].
    change (countNewlines (String c (String d r)))
      with ((if bool_decide (c = LF) then 1 else 0) + countNewlines (String d r)).
    change (columnAfter (col cur) (String c (String d r)))
      with (columnAfter (if bool_decide (c = LF) then 0 else S (col cur)) (String d r)).
    destruct (textBody_step_position path i p c (Some d) cur) as (E1 & E2 & E3).
    destruct (textBody path i p c (Some d) cur) as [[k cur1] o].
    simpl in E1, E2, E3. destruct k.
    + destruct (E3 eq_refl) as (d' & Hd' & Hd & Hc). injection Hd' as <-.
      rewrite Hc in *.
      specialize (IH2 (S (S i)) (Some d) cur1).
      destruct (forChars (textBody path) (S (S i)) (Some d) r cur1) as [cur' o'].
      simpl in *. rewrite Hd. destruct IH2 as [-> ->]. rewrite E1, E2.
      split; [lia | reflexivity].
    + specialize (IH1 (S i) (Some c) cur1).
      destruct (forChars (textBody path) (S i) (Some c) (String d r) cur1) as [cur' o'].
      cbn [fst snd] in *. destruct IH1 as [-> ->]. rewrite E1, E2.
      split; [lia | reflexivity].
Qed.

(** The column after a text is the length of its last line. *)
Lemma columnAfter_lines text :
  forall c,
    columnAfter c text
    = match split LF text with
      | [l] => c + String.length l
      | ls => String.length (default EmptyString (last ls))
      end.
Proof.
  induction text as [|x r IH]; intros c; [simpl; lia|].
  rewrite split_cons. simpl columnAfter.
  pose proof (split_nonempty LF r) as Hne.
  destruct (split LF r) as [|l ls] eqn:E; [congruence|].
  case_bool_decide.
  - rewrite IH. rewrite last_cons_cons. destruct ls; simpl; reflexivity.
  - rewrite IH. destruct ls as [|l' ls]; simpl; [lia|reflexivity].
Qed.

Lemma columnAfter_lastLine text : columnAfter 0 text = String.length (lastLine text).
Proof.
  rewrite columnAfter_lines. unfold lastLine.
  destruct (split LF text) as [|l [|l' ls]]; reflexivity.
Qed.

(** ** States that scan alike *)

Lemma loopBody_alike path ln1 ln2 i1 i2 p1 p2 c n s1 s2 :
  alike s1 s2 ->
  is_char p1 backslash = is_char p2 backslash ->
  (loopBody path ln1 i1 p1 c n s1).1.1 = (loopBody path ln2 i2 p2 c n s2).1.1
  /\ alike (loopBody path ln1 i1 p1 c n s1).1.2 (loopBody path ln2 i2 p2 c n s2).1.2
  /\ length (loopBody path ln1 i1 p1 c n s1).2 = length (loopBody path ln2 i2 p2 c n s2).2.
Proof.
  destruct s1 as [b1 q1 c1 m1], s2 as [b2 q2 c2 m2].
  unfold alike. simpl. intros (-> & -> & -> & Hq) Hp.
  unfold loopBody. simpl. rewrite Hp.
  destruct q2; [rewrite (Hq eq_refl)|]; destruct m2; simpl;
    repeat case_match; simpl; repeat split; auto; discriminate.
Qed.

(** A text scanned from two places, in states that scan alike. *)
Lemma textBody_alike path text :
  forall i1 i2 p1 p2 cur1 cur2,
    is_char p1 backslash = is_char p2 backslash ->
    alike (scan cur1) (scan cur2) ->
    alike (scan (forChars (textBody path) i1 p1 text cur1).1)
          (scan (forChars (textBody path) i2 p2 text cur2).1)
    /\ length (forChars (textBody path) i1 p1 text cur1).2
       = length (forChars (textBody path) i2 p2 text cur2).2.
Proof.
  intros i1 i2 p1 p2 cur1 cur2 Hp Hs.
  pose (Q := fun p1 p2 : option ascii => is_char p1 backslash = is_char p2 backslash).
  pose (R := fun (_ : nat) (c1 : Cursor) (o1 : list CodeIssue)
                 (_ : nat) (c2 : Cursor) (o2 : list CodeIssue) =>
               alike (scan c1) (scan c2) /\ length o1 = length o2).
  destruct (forChars_sim (textBody path) (textBody path) (fun _ => true) Q R) with
    (text := text) (i1 := i1) (i2 := i2) (p1 := p1) (p2 := p2)
    (s1 := cur1) (o1 := @nil CodeIssue) (s2 := cur2) (o2 := @nil CodeIssue)
    as (j1 & j2 & H1 & H2).
  - intros c. reflexivity.
  - clear. intros i1 i2 p1 p2 c n c1 o1 c2 o2 _ HQ [Ha Hl].
    unfold textBody. case_bool_decide.
    + simpl. unfold R. simpl. rewrite !app_nil_r. auto.
    + destruct (loopBody_alike path (lineNum c1) (lineNum c2) (col c1) (col c2)
                  p1 p2 c n (scan c1) (scan c2) Ha HQ) as (E1 & E2 & E3).
      destruct (loopBody path (lineNum c1) (col c1) p1 c n (scan c1)) as [[k1 s1'] e1].
      destruct (loopBody path (lineNum c2) (col c2) p2 c n (scan c2)) as [[k2 s2'] e2].
      simpl in *. unfold R. simpl. rewrite !length_app. auto.
  - clear. induction text; simpl; auto.
  - exact Hp.
  - unfold R. auto.
  - simpl in H2. auto.
Qed.

(** ** The checks at the end of the file *)

Lemma endOfFile_nil path n st :
  endOfFile path n st = [] <->
  (braceCount st <= 0)%Z /\ inComment st = false /\ inString st = false.
Proof.
  unfold endOfFile. split.
  - case_bool_decide; [discriminate|].
    destruct (inComment st); [discriminate|].
    destruct (inString st); [discriminate|]. intros _. repeat split. lia.
  - intros (H1 & -> & ->). rewrite bool_decide_eq_false_2 by lia. reflexivity.
Qed.

Lemma analyze_nil file :
  analyze file = [] <->
  (scanText (path file) (content file)).2 = []
  /\ (braceCount (scan (scanText (path file) (content file)).1) <= 0)%Z
  /\ inComment (scan (scanText (path file) (content file)).1) = false
  /\ inString (scan (scanText (path file) (content file)).1) = false.
Proof.
  rewrite analyze_scanText. rewrite <- endOfFile_nil. split.
  - intros H. apply app_eq_nil in H. exact H.
  - intros [-> ->]. reflexivity.
Qed.

(** A closing brace met at depth 0, outside strings and comments. *)
Lemma loopBody_unexpected path ln i prev next st :
  (braceCount st <= 0)%Z -> inString st = false -> inComment st = false ->
  loopBody path ln i prev "}" next st =
  (false,
   {| braceCount := 0; inString := false; stringChar := stringChar st;
      inComment := false |},
   [unexpectedBrace path ln i]).
Proof.
  intros Hb Hs Hc. unfold loopBody. rewrite Hs, Hc. simpl.
  rewrite bool_decide_eq_true_2 by lia. reflexivity.
Qed.

(** A stray closing brace between two texts the analyzer accepts. *)
Lemma analyze_stray_close name a b :
  analyze {| path := name; content := a |} = [] ->
  analyze {| path := name; content := b |} = [] ->
  analyze {| path := name; content := a +:+ String "}" b |}
  = [unexpectedBrace name (length (split LF a) - 1) (String.length (lastLine a))].
Proof.
  intros Ha Hb. apply analyze_nil in Ha as (Ha1 & Ha2 & Ha3 & Ha4).
  apply analyze_nil in Hb as (Hb1 & Hb2 & Hb3 & Hb4).
  rewrite analyze_scanText. simpl path in *. simpl content in *.
  unfold scanText in *.
  rewrite forChars_app;
    [| intros; apply textBody_next; simpl; auto
     | intros; apply textBody_no_skip_at_end ].
  destruct (textBody_position name a 0 None start) as [P1 P2].
  destruct (forChars (textBody name) 0 None a start) as [curA oA].
  simpl in Ha1, Ha2, Ha3, Ha4, P1, P2. subst oA.
  set (cur1 := {| scan := {| braceCount := 0; inString := false;
                             stringChar := stringChar (scan curA);
                             inComment := false |};
                  lineNum := lineNum curA; col := S (col curA) |}).
  assert (forall j p n, textBody name j p "}" n curA
                        = (false, cur1, [unexpectedBrace name (lineNum curA) (col curA)]))
    as Hstep.
  { intros j p n. unfold textBody. rewrite bool_decide_eq_false_2 by discriminate.
    rewrite (loopBody_unexpected name (lineNum curA) (col curA) p n (scan curA)
               Ha2 Ha4 Ha3). reflexivity. }
  rewrite forChars_cons, Hstep.
  destruct (textBody_alike name b (S (0 + String.length a)) 0
              (Some "}"%char) None cur1 start eq_refl) as [A1 A2].
  { unfold alike. simpl. repeat split; auto. discriminate. }
  destruct (forChars (textBody name) (S (0 + String.length a)) (Some "}"%char) b cur1)
    as [cur2 o2].
  destruct (forChars (textBody name) 0 None b start) as [curB oB].
  simpl in Hb1, Hb2, Hb3, Hb4, A1, A2. subst oB.
  apply length_zero_iff_nil in A2. subst o2.
  destruct A1 as (B1 & B2 & B3 & _).
  cbn [fst snd]. rewrite (proj2 (endOfFile_nil name _ (scan cur2)));
    [| rewrite B1, B2, B3; auto ].
  rewrite P1, P2, columnAfter_lastLine, length_split.
  replace (countNewlines a + 1 - 1) with (countNewlines a) by lia. reflexivity.
Qed.

(** ** The scan of the analyzer and the scan of the specification *)

Lemma loopBody_rule name ln i1 i2 p c n st reports m bs :
  refines st reports m bs ->
  (loopBody name ln i1 p c n st).1.1 = (rule i2 p c n m).1.1
  /\ refines (loopBody name ln i1 p c n st).1.2
             (reports + length (loopBody name ln i1 p c n st).2)
             (rule i2 p c n m).1.2 (bs ++ (rule i2 p c n m).2).
Proof.
  destruct st as [b q sc k]. unfold refines. simpl.
  intros (Hm & Hb & Hf). unfold loopBody, rule. simpl.
  destruct m; simpl in Hm.
  - destruct Hm as [-> ->]. simpl. unfold isQuote.
    destruct (bool_decide (c = "/"%char) && is_char n "*"); simpl;
      [rewrite app_nil_r, Nat.add_0_r; auto|].
    destruct (bool_decide (c = dquote) || bool_decide (c = squote)) eqn:Hquote; simpl;
      [rewrite app_nil_r, Nat.add_0_r; repeat split; auto|].
    destruct (bool_decide (c = "{"%char)) eqn:Ho;
      destruct (bool_decide (c = "}"%char)) eqn:Hc; simpl.
    + apply bool_decide_eq_true in Ho, Hc. congruence.
    + rewrite bool_decide_eq_false_2 by lia. simpl.
      rewrite foldl_app, Hf. simpl. rewrite Nat.add_0_r.
      repeat split; auto. lia.
    + rewrite foldl_app, Hf. simpl. destruct (decide (b = 0%Z)) as [Hz|Hz].
      * rewrite (bool_decide_eq_true_2 (b - 1 < 0)%Z) by lia.
        rewrite (bool_decide_eq_true_2 (b = 0%Z)) by lia. simpl.
        repeat split; auto; try lia. f_equal. lia.
      * rewrite (bool_decide_eq_false_2 (b - 1 < 0)%Z) by lia.
        rewrite (bool_decide_eq_false_2 (b = 0%Z)) by lia. simpl.
        rewrite Nat.add_0_r. repeat split; auto. lia.
    + rewrite bool_decide_eq_false_2 by lia. simpl.
      rewrite app_nil_r, Nat.add_0_r. auto.
  - destruct Hm as [-> ->]. simpl.
    destruct (bool_decide (c = "*"%char) && is_char n "/"); simpl;
      rewrite app_nil_r, Nat.add_0_r; auto.
  - destruct Hm as (-> & -> & -> & Hq). simpl.
    assert (bool_decide (Some c = Some quote) = bool_decide (c = quote)) as ->.
    { apply bool_decide_ext. split; congruence. }
    destruct (bool_decide (c = quote) && negb (is_char p backslash)); simpl;
      rewrite app_nil_r, Nat.add_0_r; repeat split; auto.
Qed.

Lemma rule_LF i p n m :
  match m with Quoted q => isQuote q = true | _ => True end ->
  rule i p LF n m = (false, m, []).
Proof.
  destruct m; simpl; auto. intros Hq.
  assert (bool_decide (LF = quote) = false) as ->; [|reflexivity].
  apply bool_decide_eq_false. intros <-. discriminate.
Qed.

(** The single loop of the analyzer refines the scan of the
    specification. *)
Lemma scanText_lex name text :
  refines (scan (scanText name text).1) (length (scanText name text).2)
          (finalMode text) (braces text).
Proof.
  pose (R := fun (_ : nat) (cur : Cursor) (found : list CodeIssue)
                 (_ : nat) (m : Mode) (bs : list Brace) =>
               refines (scan cur) (length found) m bs).
  destruct (forChars_sim (textBody name) rule (fun _ => true) eq R) with
    (text := text) (i1 := 0) (i2 := 0) (p1 := @None ascii) (p2 := @None ascii)
    (s1 := start) (o1 := @nil CodeIssue) (s2 := Code) (o2 := @nil Brace)
    as (j1 & j2 & H).
  - reflexivity.
  - clear. intros i1 i2 p1 p2 c n cur found m bs _ <- HR. unfold R in *.
    unfold textBody. case_bool_decide as Hlf.
    + subst c. rewrite rule_LF.
      * simpl. rewrite !app_nil_r. auto.
      * destruct HR as (Hm & _). destruct m; simpl in *; tauto.
    + destruct (loopBody_rule name (lineNum cur) (col cur) i2 p1 c n (scan cur)
                  (length found) m bs HR) as [E1 E2].
      destruct (loopBody name (lineNum cur) (col cur) p1 c n (scan cur)) as [[k s] o].
      simpl in *. rewrite length_app. auto.
  - clear. induction text; simpl; auto.
  - reflexivity.
  - unfold R, refines, start. simpl. repeat split; auto; lia.
  - exact H.
Qed.

(** Rule 7 on a list of braces. *)
Lemma nest_arith bs :
  (0 <= depthAfter bs)%Z
  /\ depthAfter bs = (opened bs - closed bs + Z.of_nat (unexpectedIn bs))%Z.
Proof.
  unfold depthAfter, unexpectedIn, opened, closed.
  induction bs as [|b bs IH] using rev_ind; [simpl; lia|].
  rewrite foldl_app, !filter_app, !length_app. simpl foldl.
  destruct (foldl nest (0%Z, 0) bs) as [d k]. simpl in IH.
  destruct b; simpl.
  - lia.
  - case_bool_decide; simpl; lia.
Qed.

(** ** The issues of [analyze], by rule id *)

Lemma textBody_emits name i p c n cur :
  Forall (fun x => ruleId x = "CSS_UNEXPECTED_BRACE") (textBody name i p c n cur).2.
Proof.
  unfold textBody. case_bool_decide; [constructor|].
  pose proof (loopBody_emits name (lineNum cur) (col cur) p c n (scan cur)) as He.
  destruct (loopBody name (lineNum cur) (col cur) p c n (scan cur)) as [[k s] o].
  simpl in *. destruct He as [-> | ->]; repeat constructor.
Qed.

Lemma scanText_emits name text :
  Forall (fun x => ruleId x = "CSS_UNEXPECTED_BRACE") (scanText name text).2.
Proof. apply forChars_Forall. intros. apply textBody_emits. Qed.

Lemma endOfFile_rules name n st x :
  x ∈ endOfFile name n st ->
  ruleId x = "CSS_UNCLOSED_BRACE" \/ ruleId x = "CSS_UNCLOSED_COMMENT"
  \/ ruleId x = "CSS_UNCLOSED_STRING".
Proof.
  unfold endOfFile. rewrite !elem_of_app.
  intros [H|[H|H]]; repeat case_match;
    try (apply not_elem_of_nil in H; contradiction);
    apply list_elem_of_singleton in H; subst x; auto.
Qed.

Lemma withRule_unexpected file :
  withRule "CSS_UNEXPECTED_BRACE" (analyze file)
  = (scanText (path file) (content file)).2.
Proof.
  rewrite analyze_scanText. unfold withRule. rewrite filter_app.
  rewrite filter_all by apply scanText_emits.
  rewrite filter_none; [apply app_nil_r|].
  apply Forall_forall. intros x Hx Hr. apply endOfFile_rules in Hx.
  rewrite Hr in Hx. destruct Hx as [?|[?|?]]; discriminate.
Qed.

Lemma withRule_unclosed file :
  withRule "CSS_UNCLOSED_BRACE" (analyze file)
  = let st := scan (scanText (path file) (content file)).1 in
    if bool_decide (0 < braceCount st)%Z
    then [unclosedBrace (path file) (braceCount st) (length (split LF (content file)))]
    else [].
Proof.
  rewrite analyze_scanText. unfold withRule. rewrite filter_app.
  rewrite filter_none.
  2:{ eapply Forall_impl; [apply scanText_emits|]. simpl. intros x -> ?. discriminate. }
  unfold endOfFile. rewrite !filter_app. cbv zeta.
  destruct (decide (0 < braceCount (scan (scanText (path file) (content file)).1))%Z).
  - rewrite bool_decide_eq_true_2 by lia. rewrite bool_decide_eq_true_2 by lia.
    repeat case_match; reflexivity.
  - rewrite bool_decide_eq_false_2 by lia. rewrite bool_decide_eq_false_2 by lia.
    repeat case_match; reflexivity.
Qed.

Lemma withRule_comment file :
  withRule "CSS_UNCLOSED_COMMENT" (analyze file)
  = if inComment (scan (scanText (path file) (content file)).1)
    then [unclosedComment (path file) (length (split LF (content file)))]
    else [].
Proof.
  rewrite analyze_scanText. unfold withRule. rewrite filter_app.
  rewrite filter_none.
  2:{ eapply Forall_impl; [apply scanText_emits|]. simpl. intros x -> ?. discriminate. }
  unfold endOfFile. rewrite !filter_app.
  repeat case_match; reflexivity.
Qed.

Lemma withRule_string file :
  withRule "CSS_UNCLOSED_STRING" (analyze file)
  = if inString (scan (scanText (path file) (content file)).1)
    then [unclosedString (path file) (length (split LF (content file)))]
    else [].
Proof.
  rewrite analyze_scanText. unfold withRule. rewrite filter_app.
  rewrite filter_none.
  2:{ eapply Forall_impl; [apply scanText_emits|]. simpl. intros x -> ?. discriminate. }
  unfold endOfFile. rewrite !filter_app.
  repeat case_match; reflexivity.
Qed.

(** The flags at the end of the scan, read off the specification's mode. *)
Lemma final_flags name text :
  inComment (scan (scanText name text).1) = isComment (finalMode text)
  /\ inString (scan (scanText name text).1) = isQuoted (finalMode text).
Proof.
  destruct (scanText_lex name text) as (Hm & _).
  destruct (finalMode text); simpl in *; intuition congruence.
Qed.

(** The analyzer is never inside a comment and a string at once. *)
Lemma not_comment_and_string name text :
  ~ (inComment (scan (scanText name text).1) = true
     /\ inString (scan (scanText name text).1) = true).
Proof.
  destruct (scanText_lex name text) as (Hm & _).
  intros [Hc Hs]. destruct (finalMode text); simpl in Hm; intuition congruence.
Qed.

(** The analyzer reports nothing exactly on the texts the specification
    calls balanced. *)
Lemma analyze_nil_wellNested name text :
  analyze {| path := name; content := text |} = [] <-> wellNested text.
Proof.
  rewrite analyze_nil. simpl.
  destruct (scanText_lex name text) as (Hm & Hb & Hf).
  destruct (final_flags name text) as [Hc Hs].
  unfold wellNested, depthAfter, unexpectedIn. rewrite Hf, Hc, Hs. simpl.
  rewrite <- length_zero_iff_nil.
  destruct (finalMode text); simpl; split; intros H;
    repeat split; try tauto; try lia; try (destruct H as (? & ? & ?); discriminate);
    try (destruct H as (? & ? & ? & ?); discriminate).
Qed.

End CSSFacts.

(* ===================================================================== *)
(** * Facts about HTMLAnalyzer *)
(* ===================================================================== *)

Module HTMLFacts.
Import Js JsFacts HtmlParser2 HTMLAnalyzer HTMLRun.

Lemma Forall_removelast {A} (P : A -> Prop) (l : list A) :
  Forall P l -> Forall P (removelast l).
Proof.
  destruct (last l) as [x|] eqn:E.
  - apply last_Some in E as [l' ->]. rewrite removelast_last.
    intros H. apply Forall_app in H. tauto.
  - apply last_None in E as ->. auto.
Qed.

Lemma handle_lowered name st ev : lowered st -> lowered (handle name st ev).
Proof.
  unfold lowered. intros H. destruct ev as [tag attribs|tag|text]; simpl.
  - unfold onopentag. case_bool_decide; [assumption|]. simpl.
    apply Forall_app. split; [assumption|]. constructor; [|constructor].
    simpl. apply toLowerCase_idemp.
  - unfold onclosetag. case_bool_decide; [assumption|].
    destruct (last (tagStack st)); [|assumption].
    case_bool_decide; simpl; [assumption|]. apply Forall_removelast. assumption.
  - assumption.
Qed.

Lemma run_lowered name evs st :
  lowered st -> lowered (foldl (handle name) st evs).
Proof.
  revert st. induction evs as [|ev evs IH]; intros st H; [assumption|].
  simpl. apply IH, handle_lowered, H.
Qed.

Lemma initial_lowered : lowered initial.
Proof. constructor. Qed.

(** The handlers report nothing but unexpected and mismatched closing
    tags. *)
Lemma handle_found name st ev :
  Forall handlerRule (found st) -> Forall handlerRule (found (handle name st ev)).
Proof.
  intros H. destruct ev as [tag attribs|tag|text]; simpl.
  - unfold onopentag. case_bool_decide; assumption.
  - unfold onclosetag. case_bool_decide; [assumption|].
    destruct (last (tagStack st)); [case_bool_decide|]; simpl; try assumption;
      apply Forall_app; split; try assumption;
      (constructor; [|constructor]); unfold handlerRule; simpl; auto.
  - assumption.
Qed.

Lemma run_found name evs st :
  Forall handlerRule (found st) ->
  Forall handlerRule (found (foldl (handle name) st evs)).
Proof.
  revert st. induction evs as [|ev evs IH]; intros st H; [assumption|].
  simpl. apply IH, handle_found, H.
Qed.

(** Without closing tags the stack only grows. *)
Lemma run_grows name evs st :
  noClose evs ->
  exists more, tagStack (foldl (handle name) st evs) = tagStack st ++ more.
Proof.
  revert st. induction evs as [|ev evs IH]; intros st H.
  - exists []. simpl. rewrite app_nil_r. reflexivity.
  - inversion H as [|? ? Hev Hevs]; subst. simpl.
    destruct (IH (handle name st ev) Hevs) as [more ->].
    destruct ev as [tag attribs|tag|text]; simpl.
    + unfold onopentag. case_bool_decide; simpl; [eauto|].
      rewrite <- app_assoc. eauto.
    + exfalso. eapply Hev. reflexivity.
    + eauto.
Qed.

(** A closing tag that does not match the top of the stack. *)
Lemma onclosetag_mismatch name tag st top :
  toLowerCase tag ∉ selfClosingTags ->
  last (tagStack st) = Some top ->
  HTMLAnalyzer.name top <> toLowerCase tag ->
  onclosetag name tag st =
  {| found := found st ++ [tagMismatch name (HTMLAnalyzer.name top) tag (currentLine st)];
     tagStack := tagStack st; currentLine := currentLine st |}.
Proof.
  intros Hvoid Htop Hne. unfold onclosetag.
  rewrite bool_decide_eq_false_2 by assumption. rewrite Htop.
  rewrite bool_decide_eq_true_2 by assumption. reflexivity.
Qed.

Section WithParser.
Variable parser : Parser.

Lemma analyze_caught file msg :
  thrown (parser options (content file)) = Some (ErrorObject msg) ->
  analyze parser file =
  found (foldl (handle (path file)) initial (events (parser options (content file))))
  ++ [parseError (path file) msg]
  ++ map (unclosedTag (path file))
       (tagStack (foldl (handle (path file)) initial
                    (events (parser options (content file))))).
Proof.
  intros H. unfold analyze. rewrite H. simpl. rewrite <- app_assoc. reflexivity.
Qed.

(** The rule ids of the markup analyzer. *)
Lemma analyze_rules file i :
  i ∈ analyze parser file ->
  ruleId i = "HTML_UNEXPECTED_CLOSE" \/ ruleId i = "HTML_TAG_MISMATCH"
  \/ ruleId i = "HTML_PARSE_ERROR" \/ ruleId i = "HTML_UNCLOSED_TAG".
Proof.
  unfold analyze. rewrite !elem_of_app. intros [[H|H]|H].
  - pose proof (run_found (path file) (events (parser options (content file)))
                  initial ltac:(constructor)) as Hf.
    rewrite Forall_forall in Hf. destruct (Hf i H); auto.
  - unfold caught in H. repeat case_match;
      try (apply not_elem_of_nil in H; contradiction).
    apply list_elem_of_singleton in H. subst i. auto.
  - apply list_elem_of_fmap in H as (f & -> & _). auto.
Qed.
End WithParser.

End HTMLFacts.

(* ===================================================================== *)
(** * Facts about HTMLCSSCrossValidator *)
(* ===================================================================== *)

Module ValidatorFacts.
Import Js JsFacts Regex HtmlParser2 HTMLCSSCrossValidator.

(** ** Definition collection *)

Lemma foldl_add names l x : x ∈ foldl add names l <-> x ∈ names \/ x ∈ l.
Proof.
  revert names. induction l as [|y l IH]; intros names; simpl.
  - rewrite elem_of_nil. tauto.
  - rewrite IH, elem_of_cons. unfold add. rewrite elem_of_union, elem_of_singleton.
    tauto.
Qed.

(** Every capture of a global scan is the capture of one attempt. *)
Lemma execAll_from_capture m text :
  forall skip x, x ∈ execAll_from m skip text -> exists t n, m t = Some (n, x).
Proof.
  induction text as [|c r IH]; intros skip x H; simpl in H.
  - apply not_elem_of_nil in H. contradiction.
  - destruct skip as [|k]; [|eauto].
    destruct (m (String c r)) as [[[|n] g]|] eqn:E; [eauto| |eauto].
    apply elem_of_cons in H as [->|H]; eauto.
Qed.

(** A selector name starts with a letter or an underscore. *)
Lemma selector_capture sigil t n x :
  selector sigil t = Some (n, x) ->
  exists c r, x = String c r /\ nameStart c = true.
Proof.
  unfold selector. destruct t as [|s [|c r]]; try discriminate.
  destruct (bool_decide (s = sigil) && nameStart c) eqn:E; [|discriminate].
  apply andb_true_iff in E as [_ E]. intros [= _ <-]. eauto.
Qed.

Lemma extractCSSDefinitions_classes text defs n :
  n ∈ classes (extractCSSDefinitions text defs)
  <-> n ∈ classes defs \/ n ∈ execAll classRegex (selectorTextOf text).
Proof. unfold extractCSSDefinitions. simpl. apply foldl_add. Qed.

(** No pattern of the validator lets a class name start with a hyphen. *)
Lemma class_names_start text defs n :
  n ∈ classes (extractCSSDefinitions text defs) ->
  n ∈ classes defs \/ exists c r, n = String c r /\ nameStart c = true.
Proof.
  rewrite extractCSSDefinitions_classes. intros [H|H]; [auto|right].
  apply execAll_from_capture in H as (t & k & H).
  eapply selector_capture, H.
Qed.







(** ** A style block at the head of a markup text *)

Definition isNot (c : ascii) : ascii -> bool := fun d => negb (bool_decide (d = c)).








(** ** Reporting *)

Lemma report_cases defs u i :
  i ∈ report defs u ->
  (i = classUndefined u /\ type u = class /\ usedName u ∉ classes defs)
  \/ (i = idUndefined u /\ type u = id /\ usedName u ∉ ids defs).
Proof.
  unfold report.
  assert (forall j, j ∈ (if bool_decide (type u = id)
                              && negb (bool_decide (usedName u ∈ ids defs))
                         then [idUndefined u] else []) ->
                    j = idUndefined u /\ type u = id /\ usedName u ∉ ids defs) as Hid.
  { intros j Hj.
    destruct (bool_decide (type u = id) && negb (bool_decide (usedName u ∈ ids defs)))
      eqn:E.
    - apply andb_true_iff in E as [E1 E2]. apply bool_decide_eq_true in E1.
      apply negb_true_iff, bool_decide_eq_false in E2.
      apply list_elem_of_singleton in Hj. auto.
    - apply not_elem_of_nil in Hj. contradiction. }
  destruct (bool_decide (type u = class)
            && negb (bool_decide (usedName u ∈ classes defs))) eqn:E.
  - apply andb_true_iff in E as [E1 E2]. apply bool_decide_eq_true in E1.
    apply negb_true_iff, bool_decide_eq_false in E2.
    destruct (isLikelyDynamicOrFrameworkClass (usedName u)).
    + intros H. apply not_elem_of_nil in H. contradiction.
    + intros H. apply elem_of_cons in H as [->|H]; [auto|]. right. auto.
  - intros H. right. auto.
Qed.

Lemma in_flat_map_elem {A B} (f : A -> list B) (l : list A) (y : B) :
  y ∈ flat_map f l <-> exists x, x ∈ l /\ y ∈ f x.
Proof.
  induction l as [|a l IH]; simpl.
  - split; [intros H | intros (x & H & _)]; apply not_elem_of_nil in H; contradiction.
  - rewrite elem_of_app, IH. split.
    + intros [H|(x & H1 & H2)].
      * exists a. split; [left|assumption].
      * exists x. split; [right; assumption|assumption].
    + intros (x & H1 & H2). apply elem_of_cons in H1 as [->|H1]; [auto|right; eauto].
Qed.

(** The message of a class warning tells the name. *)
Lemma classUndefined_name u u' :
  classUndefined u = classUndefined u' -> usedName u = usedName u'.
Proof.
  intros H. apply (f_equal message) in H. unfold classUndefined, message in H.
  apply append_inj_r in H. apply append_inj_l in H.
  unfold quoted in H. injection H as H. apply append_inj_l in H. exact H.
Qed.

(** ** Usage collection *)

Lemma splitSpaces_blank s :
  all isSpace s = true ->
  forall current inSpace,
    Forall (fun piece => piece = current \/ piece = EmptyString)
           (splitSpaces_from current inSpace s).
Proof.
  induction s as [|c r IH]; intros Hs current inSpace; simpl.
  - repeat constructor.
  - simpl in Hs. apply andb_true_iff in Hs as [Hc Hr]. rewrite Hc.
    assert (Forall (fun piece => piece = current \/ piece = EmptyString)
                   (splitSpaces_from EmptyString true r)) as H.
    { eapply Forall_impl; [apply (IH Hr)|]. simpl. tauto. }
    destruct inSpace; [assumption|]. constructor; auto.
Qed.

Lemma classUsages_blank_filter value :
  all isSpace value = true ->
  filter (fun piece => truthy piece = true) (splitSpaces value) = [].
Proof.
  intros Hs. apply filter_none.
  eapply Forall_impl; [apply (splitSpaces_blank value Hs EmptyString false)|].
  simpl. intros piece [->| ->]; discriminate.
Qed.

Lemma classUsages_blank name ln (attribs : gmap string string) value :
  attribs !! "class" = Some value -> all isSpace value = true ->
  classUsages name ln attribs = [].
Proof.
  intros H Hs. unfold classUsages. rewrite H.
  destruct (truthy value); [|reflexivity].
  rewrite (classUsages_blank_filter value Hs). reflexivity.
Qed.

Lemma idUsages_empty name ln (attribs : gmap string string) :
  attribs !! "id" = Some EmptyString -> idUsages name ln attribs = [].
Proof. intros H. unfold idUsages. rewrite H. reflexivity. Qed.

(** What a class usage and an id usage tell about the attribute. *)
Lemma classUsages_elem name ln (attribs : gmap string string) u :
  u ∈ classUsages name ln attribs ->
  type u = class
  /\ exists value, attribs !! "class" = Some value /\ all isSpace value = false.
Proof.
  unfold classUsages. destruct (attribs !! "class") as [value|] eqn:E;
    [|intros H; apply not_elem_of_nil in H; contradiction].
  destruct (truthy value); [|intros H; apply not_elem_of_nil in H; contradiction].
  intros H. apply list_elem_of_fmap in H as (piece & -> & H). split; [reflexivity|].
  exists value. split; [reflexivity|].
  destruct (all isSpace value) eqn:Hs; [|reflexivity].
  rewrite (classUsages_blank_filter value Hs) in H.
  apply not_elem_of_nil in H. contradiction.
Qed.

Lemma idUsages_elem name ln (attribs : gmap string string) u :
  u ∈ idUsages name ln attribs ->
  type u = id
  /\ exists value, attribs !! "id" = Some value /\ value <> EmptyString.
Proof.
  unfold idUsages. destruct (attribs !! "id") as [value|] eqn:E;
    [|intros H; apply not_elem_of_nil in H; contradiction].
  destruct (truthy value) eqn:Ht;
    [|intros H; apply not_elem_of_nil in H; contradiction].
  intros H. apply list_elem_of_singleton in H. subst u. split; [reflexivity|].
  exists value. split; [reflexivity|]. intros ->. discriminate.
Qed.

(** Every usage was pushed by the handler of an open tag. *)
Lemma run_usage name evs :
  forall st u,
    u ∈ usage (foldl (handle name) st evs) ->
    u ∈ usage st
    \/ exists tag attribs ln,
         OpenTag tag attribs ∈ evs
         /\ (u ∈ classUsages name ln attribs \/ u ∈ idUsages name ln attribs).
Proof.
  induction evs as [|ev evs IH]; intros st u H; [auto|].
  simpl in H. apply IH in H as [H|(tag & attribs & ln & H1 & H2)].
  - destruct ev as [tag attribs|tag|text]; simpl in H; [|auto..].
    rewrite !elem_of_app in H. destruct H as [[H|H]|H]; [auto| |];
      right; exists tag, attribs, (currentLine st); split; auto; left.
  - right. exists tag, attribs, ln. split; [right; assumption|assumption].
Qed.

Section WithParser.
Variable parser : Parser.

Lemma validate_elem files i :
  i ∈ validate parser files ->
  exists file u,
    file ∈ files /\ isMarkup file = true
    /\ u ∈ extractHTMLUsage parser file
    /\ i ∈ report (foldl collect noDefinitions files) u.
Proof.
  unfold validate. intros H.
  apply in_flat_map_elem in H as (u & Hu & Hi).
  apply in_flat_map_elem in Hu as (file & Hf & Hu).
  destruct (isMarkup file) eqn:Hm; [eauto 10|].
  apply not_elem_of_nil in Hu. contradiction.
Qed.

(** The rule ids of the validator. *)
Lemma validate_rules files i :
  i ∈ validate parser files ->
  ruleId i = "CSS_CLASS_UNDEFINED" \/ ruleId i = "CSS_ID_UNDEFINED".
Proof.
  intros H. apply validate_elem in H as (file & u & _ & _ & _ & H).
  apply report_cases in H as [(-> & _)|(-> & _)]; auto.
Qed.

(** A file that is neither a stylesheet nor markup for the validator
    leaves its result unchanged. *)
Lemma validate_skip before file after :
  isStylesheet file = false -> isMarkup file = false ->
  validate parser (before ++ file :: after) = validate parser (before ++ after).
Proof.
  intros Hs Hm. unfold validate.
  assert (forall defs, collect defs file = defs) as Hc.
  { intros defs. unfold collect. rewrite Hs, Hm. reflexivity. }
  rewrite !foldl_app, !flat_map_app. simpl. rewrite Hm, !Hc. reflexivity.
Qed.
End WithParser.

End ValidatorFacts.

(* ===================================================================== *)
(** * Facts about InMemoryAnalyzer *)
(* ===================================================================== *)

Module OrchestratorFacts.
Import Js JsFacts InMemoryAnalyzer ResponseSpec.

(** ** Extensions *)

Lemma lower_char_dot d : lower_char d = "."%char -> d = "."%char.
Proof.
  destruct d as [[] [] [] [] [] [] [] []]; vm_compute; intros H;
    try discriminate; reflexivity.
Qed.

Lemma lastIndexOf_absent i s c :
  all (fun d => negb (bool_decide (d = c))) s = true ->
  lastIndexOf_from i s c = (-1)%Z.
Proof.
  revert i. induction s as [|a r IH]; intros i H; [reflexivity|].
  simpl in H. apply andb_true_iff in H as [Ha Hr].
  simpl. rewrite (IH _ Hr). simpl.
  apply negb_true_iff in Ha. rewrite Ha. reflexivity.
Qed.

Lemma lastIndexOf_last i base t c :
  (0 <= i)%Z ->
  all (fun d => negb (bool_decide (d = c))) t = true ->
  lastIndexOf_from i (base +:+ String c t) c = (i + Z.of_nat (String.length base))%Z.
Proof.
  revert i. induction base as [|x b IH]; intros i Hi Ht.
  - simpl. rewrite (lastIndexOf_absent _ _ _ Ht). simpl.
    rewrite bool_decide_eq_true_2 by reflexivity. lia.
  - simpl String.append. simpl lastIndexOf_from.
    rewrite (IH (i + 1)%Z) by (lia || assumption).
    rewrite bool_decide_eq_false_2 by lia. simpl String.length. lia.
Qed.

Lemma slice_app base s : slice (base +:+ s) (String.length base) = s.
Proof. induction base; simpl; [destruct s|]; auto. Qed.

Lemma lastChar_app prev p c r :
  lastChar prev (p +:+ String c r) = lastChar (Some c) r.
Proof. revert prev. induction p; intros prev; simpl; auto. Qed.

(** A text that ends with a suffix ends with the suffix's last character. *)
Lemma endsWith_lastChar s c r :
  endsWith s (String c r) = true -> lastChar None s = lastChar (Some c) r.
Proof.
  intros H. apply endsWith_spec in H as [p ->]. apply lastChar_app.
Qed.

(** The four characters of an extension that lowercases to [.css]. *)
Lemma css_extension ext :
  toLowerCase ext = ".css" ->
  exists d2 d3 d4,
    ext = String "." (String d2 (String d3 (String d4 EmptyString)))
    /\ lower_char d2 = "c"%char /\ lower_char d3 = "s"%char
    /\ lower_char d4 = "s"%char.
Proof.
  destruct ext as [|d1 [|d2 [|d3 [|d4 [|]]]]]; simpl; intros H; try discriminate.
  injection H as H1 H2 H3 H4. apply lower_char_dot in H1. subst d1. eauto 10.
Qed.

Lemma getExtension_css base ext :
  toLowerCase ext = ".css" -> getExtension (base +:+ ext) = ".css".
Proof.
  intros H. destruct (css_extension ext H) as (d2 & d3 & d4 & -> & H2 & H3 & H4).
  unfold getExtension, lastIndexOf.
  rewrite lastIndexOf_last; [|lia|].
  - rewrite bool_decide_eq_false_2 by lia.
    replace (Z.to_nat (0 + Z.of_nat (String.length base))) with (String.length base) by lia.
    rewrite slice_app. exact H.
  - simpl. rewrite !andb_true_r.
    repeat (apply andb_true_iff; split); apply negb_true_iff, bool_decide_eq_false;
      intros ->; discriminate.
Qed.

Lemma not_stylesheet_suffix base ext :
  toLowerCase ext = ".css" -> ext <> ".css" -> endsWith (base +:+ ext) ".css" = false.
Proof.
  intros H Hne. rewrite endsWith_same_length.
  - apply bool_decide_eq_false. assumption.
  - rewrite <- (toLowerCase_length ext), H. reflexivity.
Qed.

Lemma not_markup_suffix base ext :
  toLowerCase ext = ".css" ->
  endsWith (base +:+ ext) ".html" = false /\ endsWith (base +:+ ext) ".htm" = false.
Proof.
  intros H. destruct (css_extension ext H) as (d2 & d3 & d4 & -> & H2 & H3 & H4).
  split; apply not_true_is_false; intros E; apply endsWith_lastChar in E;
    rewrite lastChar_app in E; simpl in E; injection E as ->; discriminate.
Qed.

(** ** The response *)

Lemma count_tally s found : count s found = tally s found.
Proof.
  unfold count. induction found as [|i rest IH]; [reflexivity|].
  rewrite filter_cons. simpl tally. destruct (decide (severity i = s)); simpl; lia.
Qed.

Lemma tally_total found :
  tally error found + tally warning found + tally info found = length found.
Proof.
  induction found as [|i rest IH]; [reflexivity|].
  simpl. destruct (severity i); simpl; lia.
Qed.

(** ** Rule ids *)

Lemma css_rules file i :
  i ∈ CSSAnalyzer.analyze file -> ruleId i ∈ producedRuleIds.
Proof.
  rewrite CSSFacts.analyze_scanText, elem_of_app. intros [H|H].
  - pose proof (CSSFacts.scanText_emits (path file) (content file)) as He.
    rewrite Forall_forall in He. rewrite (He i H).
    apply (bool_decide_eq_true_1 _). reflexivity.
  - apply CSSFacts.endOfFile_rules in H as [->|[->| ->]];
      apply (bool_decide_eq_true_1 _); reflexivity.
Qed.

Lemma js_rules acorn file i :
  i ∈ JavaScriptAnalyzer.analyze acorn file -> ruleId i ∈ producedRuleIds.
Proof.
  unfold JavaScriptAnalyzer.analyze. intros H.
  destruct (acorn (content file)) as [[msg loc|msg|]|];
    try (apply not_elem_of_nil in H; contradiction);
    apply list_elem_of_singleton in H; subst i;
    apply (bool_decide_eq_true_1 _); reflexivity.
Qed.

Lemma html_rules parser file i :
  i ∈ HTMLAnalyzer.analyze parser file -> ruleId i ∈ producedRuleIds.
Proof.
  intros H. apply HTMLFacts.analyze_rules in H as [->|[->|[->| ->]]];
    apply (bool_decide_eq_true_1 _); reflexivity.
Qed.

Lemma validate_produced parser files i :
  i ∈ HTMLCSSCrossValidator.validate parser files -> ruleId i ∈ producedRuleIds.
Proof.
  intros H. apply ValidatorFacts.validate_rules in H as [->| ->];
    apply (bool_decide_eq_true_1 _); reflexivity.
Qed.

End OrchestratorFacts.

(* ===================================================================== *)
(** * The definitions on concrete inputs *)
(* ===================================================================== *)

Module Examples.
Import Js Regex.

Definition css (text : string) : FileInput := {| path := "a.css"; content := text |}.

Example balanced_blocks : CSSAnalyzer.analyze (css "a{b{c:d}} e{}") = [].
Proof. vm_compute. reflexivity. Qed.

Example missing_close :
  CSSAnalyzer.analyze (css "a{color:red") = [CSSAnalyzer.unclosedBrace "a.css" 1 1].
Proof. vm_compute. reflexivity. Qed.

Example brace_in_string_and_comment :
  CSSAnalyzer.analyze (css "a{content:'}'} /* } */") = [].
Proof. vm_compute. reflexivity. Qed.

Example escaped_quote_stays_in_string :
  CSSAnalyzer.analyze (css "a{content:'\'}'}") = [].
Proof. vm_compute. reflexivity. Qed.

Example two_stray_closes :
  CSSAnalyzer.analyze (css ("}" +:+ String LF " }a{}"))
  = [CSSAnalyzer.unexpectedBrace "a.css" 0 0; CSSAnalyzer.unexpectedBrace "a.css" 1 1].
Proof. vm_compute. reflexivity. Qed.

Example unclosed_brace_and_comment :
  CSSAnalyzer.analyze (css "a{ /* x")
  = [CSSAnalyzer.unclosedBrace "a.css" 1 1; CSSAnalyzer.unclosedComment "a.css" 1].
Proof. vm_compute. reflexivity. Qed.

Example unclosed_brace_and_string :
  CSSAnalyzer.analyze (css ("a{" +:+ String LF "b:'x"))
  = [CSSAnalyzer.unclosedBrace "a.css" 1 2; CSSAnalyzer.unclosedString "a.css" 2].
Proof. vm_compute. reflexivity. Qed.

Example comment_delimiter_not_split_by_lines :
  CSSAnalyzer.analyze (css ("/" +:+ String LF "* }")) = [CSSAnalyzer.unexpectedBrace "a.css" 1 2].
Proof. vm_compute. reflexivity. Qed.

Example spec_braces : StylesheetSpec.braces "}{ '{' /* } */ {"
  = [StylesheetSpec.Closing; StylesheetSpec.Opening; StylesheetSpec.Opening].
Proof. vm_compute. reflexivity. Qed.

Example strip_comments : removeAll comment "a/* x */b/*/c/* y" = "ab/*/c/* y".
Proof. vm_compute. reflexivity. Qed.

Example strip_urls :
  removeAll url "a URL  (x.y) b url(abc url (d)e) ur(l) url(" = "a  b e) ur(l) url(".
Proof. vm_compute. reflexivity. Qed.

Example class_names :
  execAll classRegex ".a.b-c ..d .-foo .9x ._y.z9-" = ["a"; "b-c"; "d"; "_y"; "z9-"].
Proof. vm_compute. reflexivity. Qed.

Example style_blocks :
  execAll styleRegex "<style>.a{}</style><p><STYLE type=x>.b{}</Style><style>zz"
  = [".a{}"; ".b{}"].
Proof. vm_compute. reflexivity. Qed.

Example selector_text :
  HTMLCSSCrossValidator.selectorTextOf
    "@media x{.in{a:b}} .card, #main{background:url(a.png)} .tail"
  = "@media x  .card, #main".
Proof. vm_compute. reflexivity. Qed.

Example split_on_spaces : splitSpaces " a  b " = [EmptyString; "a"; "b"; EmptyString].
Proof. vm_compute. reflexivity. Qed.

Example utility_and_dynamic_names :
  map HTMLCSSCrossValidator.isLikelyDynamicOrFrameworkClass
      ["flex"; "primary-button"; "-mt-4"; "mt4"; "{{x}}"; ":x"; "hover:a"; "z-10"; "v-if"]
  = [true; false; true; false; true; true; true; true; true].
Proof. vm_compute. reflexivity. Qed.

Example extensions :
  map InMemoryAnalyzer.getExtension ["a.b.CSS"; "Makefile"; "x.Html"; ".js"; "a."]
  = [".css"; EmptyString; ".html"; ".js"; "."].
Proof. vm_compute. reflexivity. Qed.

Example sample_batch :
  map (fun i => (filePath i, ruleId i))
      (issues (lint (InMemoryAnalyzer.analyze Samples.acorn Samples.htmlparser2 Samples.batch)))
  = [ ("a.html", "HTML_UNCLOSED_TAG"); ("c.css", "CSS_UNEXPECTED_BRACE");
      ("d.js", "JS_SYNTAX_ERROR"); ("e.htm", "HTML_PARSE_ERROR");
      ("e.htm", "HTML_UNCLOSED_TAG"); ("e.htm", "HTML_UNCLOSED_TAG");
      ("a.html", "CSS_ID_UNDEFINED") ].
Proof. vm_compute. reflexivity. Qed.

Example merge_within_the_limit :
  Spread.analyze 3 Samples.acorn Samples.htmlparser2 Samples.batch
  = Spread.Returned
      (InMemoryAnalyzer.analyze Samples.acorn Samples.htmlparser2 Samples.batch).
Proof. vm_compute. reflexivity. Qed.

Example merge_past_the_limit :
  Spread.analyze 3 Samples.acorn Samples.htmlparser2
    [ {| path := "c.css"; content := "}}}}" |} ]
  = Spread.Threw Spread.RangeError.
Proof. vm_compute. reflexivity. Qed.

Example usages_past_the_limit :
  Spread.validate 1
    (fun _ _ =>
       {| HtmlParser2.events := [HtmlParser2.OpenTag "div" {[ "class" := "a b" ]}];
          HtmlParser2.thrown := None |})
    [ {| path := "a.html"; content := "<div class='a b'>" |} ]
  = Spread.Threw Spread.RangeError.
Proof. vm_compute. reflexivity. Qed.

End Examples.

(* ===================================================================== *)
(** * Further properties of CSSAnalyzer *)
(* ===================================================================== *)

Module CSSMore.
Import Js JsFacts CSSAnalyzer CSSText StylesheetSpec Shapes.

(** What the loop emits, with the position and the character it was
    emitted at, under an invariant of the state. *)
Section Emitted.
Context {St Out : Type}.
Variable body : nat -> option ascii -> ascii -> option ascii -> St -> bool * St * list Out.
Variable Inv : St -> Prop.
Variable P : nat -> ascii -> Out -> Prop.
Hypothesis step :
  forall i prev c next st,
    Inv st -> Inv (body i prev c next st).1.2 /\ Forall (P i c) (body i prev c next st).2.

Lemma forChars_emitted text :
  forall i0 prev st,
    Inv st ->
    Inv (forChars body i0 prev text st).1
    /\ Forall (fun o => exists k c, charAt k text = Some c /\ P (i0 + k) c o)
              (forChars body i0 prev text st).2.
Proof.
  induction text as [|c|c d r IH1 IH2] using string_skip_ind; intros i0 prev st Hst.
  - simpl. auto.
  - rewrite forChars_cons. cbn [head].
    destruct (step i0 prev c None st Hst) as [Hi Ho].
    destruct (body i0 prev c None st) as [[k st1] out]. simpl in Hi, Ho.
    assert (Forall (fun o => exists k c0, charAt k (String c EmptyString) = Some c0
                                          /\ P (i0 + k) c0 o) out) as Hout.
    { eapply Forall_impl; [exact Ho|]. simpl. intros o Hp. exists 0, c.
      rewrite Nat.add_0_r. auto. }
    destruct k; rewrite forChars_nil; simpl; rewrite app_nil_r; auto.
  - rewrite forChars_cons. cbn [head].
    destruct (step i0 prev c (Some d) st Hst) as [Hi Ho].
    destruct (body i0 prev c (Some d) st) as [[k st1] out]. simpl in Hi, Ho.
    assert (Forall (fun o => exists k c0, charAt k (String c (String d r)) = Some c0
                                          /\ P (i0 + k) c0 o) out) as Hout.
    { eapply Forall_impl; [exact Ho|]. simpl. intros o Hp. exists 0, c.
      rewrite Nat.add_0_r. auto. }
    destruct k.
    + destruct (IH2 (S (S i0)) (Some d) st1 Hi) as [Hi2 Ho2].
      destruct (forChars body (S (S i0)) (Some d) r st1) as [st2 out2].
      simpl in *. split; [assumption|]. apply Forall_app. split; [assumption|].
      eapply Forall_impl; [exact Ho2|]. simpl. intros o (k & c0 & Hk & Hp).
      exists (S (S k)), c0. split; [exact Hk|].
      replace (i0 + S (S k)) with (S (S (i0 + k))) by lia. exact Hp.
    + destruct (IH1 (S i0) (Some c) st1 Hi) as [Hi2 Ho2].
      destruct (forChars body (S i0) (Some c) (String d r) st1) as [st2 out2].
      cbn [fst snd] in *. split; [assumption|]. apply Forall_app. split; [assumption|].
      eapply Forall_impl; [exact Ho2|]. cbv beta. intros o (k & c0 & Hk & Hp).
      exists (S k), c0. split; [exact Hk|].
      replace (i0 + S k) with (S i0 + k) by lia. exact Hp.
Qed.
End Emitted.

(** The body reports only closing braces, as long as the depth is not
    negative, which it keeps. *)
Lemma loopBody_reports_close name ln i prev c next st :
  (0 <= braceCount st)%Z ->
  (0 <= braceCount (loopBody name ln i prev c next st).1.2)%Z
  /\ Forall (fun o => o = unexpectedBrace name ln i /\ c = "}"%char)
            (loopBody name ln i prev c next st).2.
Proof.
  destruct st as [b q sc k]. simpl. intros Hb. unfold loopBody. simpl.
  destruct (negb q && negb k && bool_decide (c = "/"%char) && is_char next "*");
    [simpl; split; [assumption|constructor]|].
  destruct (k && bool_decide (c = "*"%char) && is_char next "/");
    [simpl; split; [assumption|constructor]|].
  destruct k; [simpl; split; [assumption|constructor]|].
  destruct (negb q && (bool_decide (c = dquote) || bool_decide (c = squote)));
    [simpl; split; [assumption|constructor]|].
  destruct (q && bool_decide (Some c = sc) && negb (is_char prev backslash));
    [simpl; split; [assumption|constructor]|].
  destruct q; [simpl; split; [assumption|constructor]|].
  destruct (decide (c = "{"%char)) as [Ho|Ho]; destruct (decide (c = "}"%char)) as [Hc|Hc].
  - congruence.
  - rewrite (bool_decide_eq_true_2 _ Ho), (bool_decide_eq_false_2 _ Hc).
    rewrite bool_decide_eq_false_2 by lia. simpl. split; [lia|constructor].
  - rewrite (bool_decide_eq_false_2 _ Ho), (bool_decide_eq_true_2 _ Hc).
    destruct (decide (b - 1 < 0)%Z).
    + rewrite bool_decide_eq_true_2 by assumption. simpl.
      split; [lia|]. constructor; [auto|constructor].
    + rewrite bool_decide_eq_false_2 by assumption. simpl. split; [lia|constructor].
  - rewrite (bool_decide_eq_false_2 _ Ho), (bool_decide_eq_false_2 _ Hc).
    rewrite bool_decide_eq_false_2 by lia. simpl. split; [lia|constructor].
Qed.

(** The issues the loops over the lines find: each stands on a line of the
    list, at the column of a closing brace of that line. *)
Lemma scanLines_emitted name lines :
  forall ln st,
    (0 <= braceCount st)%Z ->
    (0 <= braceCount (scanLines name ln lines st).1)%Z
    /\ Forall (fun o => exists j l k,
                   lines !! j = Some l /\ charAt k l = Some "}"%char
                   /\ o = unexpectedBrace name (ln + j) k)
              (scanLines name ln lines st).2.
Proof.
  induction lines as [|l ls IH]; intros ln st Hst; [simpl; auto|].
  rewrite CSSFacts.scanLines_cons. unfold scanLine.
  destruct (forChars_emitted (loopBody name ln) (fun s => (0 <= braceCount s)%Z)
              (fun i c o => o = unexpectedBrace name ln i /\ c = "}"%char)
              ltac:(intros; apply loopBody_reports_close; assumption)
              l 0 None st Hst) as [H1 H2].
  destruct (forChars (loopBody name ln) 0 None l st) as [st1 out1].
  destruct (IH (S ln) st1 H1) as [H3 H4].
  destruct (scanLines name (S ln) ls st1) as [st2 out2].
  simpl in *. split; [assumption|]. apply Forall_app. split.
  - eapply Forall_impl; [exact H2|]. simpl. intros o (k & c & Hk & -> & ->).
    exists 0, l, k. rewrite Nat.add_0_r. auto.
  - eapply Forall_impl; [exact H4|]. simpl. intros o (j & l' & k & Hj & Hk & ->).
    exists (S j), l', k. replace (ln + S j) with (S (ln + j)) by lia. auto.
Qed.

Lemma analyze_parts file :
  exists st found,
    scanLines (path file) 0 (split LF (content file)) initial = (st, found)
    /\ analyze file
       = found ++ endOfFile (path file) (length (split LF (content file))) st.
Proof.
  unfold analyze.
  destruct (scanLines (path file) 0 (split LF (content file)) initial) as [st found].
  eauto.
Qed.

(** The fields and the line of every issue. *)
Lemma stylesheet_fields (file : FileInput) (i : CodeIssue) :
  i ∈ analyze file ->
  filePath i = path file /\ severity i = error /\ source i = "css-analyzer"
  /\ 1 <= line i <= length (split LF (content file)).
Proof.
  intros Hin.
  destruct (analyze_parts file) as (st & found & Hscan & Han).
  rewrite Han in Hin. apply elem_of_app in Hin as [Hin|Hin].
  - destruct (scanLines_emitted (path file) (split LF (content file))
                0 initial ltac:(simpl; lia)) as [_ Hall].
    rewrite Hscan in Hall. simpl in Hall. rewrite Forall_forall in Hall.
    destruct (Hall i Hin) as (j & l & k & Hj & Hk & ->). simpl.
    apply lookup_lt_Some in Hj. repeat split; lia.
  - pose proof (split_nonempty LF (content file)) as Hne.
    assert (1 <= length (split LF (content file))) as Hlen.
    { destruct (split LF (content file)); [congruence|simpl; lia]. }
    unfold endOfFile in Hin. rewrite !elem_of_app in Hin.
    destruct Hin as [Hin|[Hin|Hin]]; repeat case_match;
      try (apply not_elem_of_nil in Hin; contradiction);
      apply list_elem_of_singleton in Hin; subst i; simpl; repeat split; lia.
Qed.

(** What the loop emits comes in the order of the indices, when each turn
    emits at most one output, keyed by its index. *)
Section Increasing.
Context {St Out : Type}.
Variable body : nat -> option ascii -> ascii -> option ascii -> St -> bool * St * list Out.
Variable key : Out -> nat.
Hypothesis step :
  forall i prev c next st,
    (body i prev c next st).2 = []
    \/ exists o, (body i prev c next st).2 = [o] /\ key o = i.

Lemma emitted_first (i0 : nat) (out out2 : list Out) (j : nat) :
  (out = [] \/ exists o, out = [o] /\ key o = i0) ->
  i0 < j ->
  StronglySorted (fun a b => key a < key b) out2 ->
  Forall (fun o => j <= key o) out2 ->
  StronglySorted (fun a b => key a < key b) (out ++ out2)
  /\ Forall (fun o => i0 <= key o) (out ++ out2).
Proof.
  intros Hout Hj Hs Hf.
  assert (Forall (fun o => i0 <= key o) out2) as Hf'.
  { eapply Forall_impl; [exact Hf|]. simpl. intros; lia. }
  destruct Hout as [->|(o & -> & Ho)]; simpl; [auto|]. split.
  - constructor; [assumption|].
    eapply Forall_impl; [exact Hf|]. simpl. intros; lia.
  - constructor; [lia|assumption].
Qed.

Lemma forChars_increasing text :
  forall i0 prev st,
    StronglySorted (fun a b => key a < key b) (forChars body i0 prev text st).2
    /\ Forall (fun o => i0 <= key o) (forChars body i0 prev text st).2.
Proof.
  induction text as [|c|c d r IH1 IH2] using string_skip_ind; intros i0 prev st.
  - simpl. split; constructor.
  - rewrite forChars_cons. cbn [head].
    pose proof (step i0 prev c None st) as Ho.
    destruct (body i0 prev c None st) as [[k st1] out]. simpl in Ho.
    destruct k; rewrite forChars_nil; cbn [fst snd];
      apply (emitted_first i0 out [] (S i0) Ho); auto; constructor.
  - rewrite forChars_cons. cbn [head].
    pose proof (step i0 prev c (Some d) st) as Ho.
    destruct (body i0 prev c (Some d) st) as [[k st1] out]. simpl in Ho.
    destruct k.
    + destruct (IH2 (S (S i0)) (Some d) st1) as [Hs Hf].
      destruct (forChars body (S (S i0)) (Some d) r st1) as [st2 out2].
      cbn [fst snd] in *. apply (emitted_first i0 out out2 (S (S i0)) Ho); auto.
    + destruct (IH1 (S i0) (Some c) st1) as [Hs Hf].
      destruct (forChars body (S i0) (Some c) (String d r) st1) as [st2 out2].
      cbn [fst snd] in *. apply (emitted_first i0 out out2 (S i0) Ho); auto.
Qed.
End Increasing.

Lemma sorted_weaken {A} (R S : relation A) (l : list A) :
  (forall x y, R x y -> S x y) -> StronglySorted R l -> StronglySorted S l.
Proof.
  intros HRS Hs. induction Hs as [|x l _ IH Hx]; constructor; [exact IH|].
  eapply Forall_impl; [exact Hx|]. apply HRS.
Qed.

(** The issues of one line come in the order of their columns. *)
Lemma scanLine_ordered name ln l st :
  StronglySorted before (scanLine name ln l st).2
  /\ Forall (fun o => line o = ln + 1 /\ ruleId o = "CSS_UNEXPECTED_BRACE")
            (scanLine name ln l st).2.
Proof.
  unfold scanLine. split.
  - assert (Forall (fun o => line o = ln + 1) (forChars (loopBody name ln) 0 None l st).2)
      as Hl.
    { apply forChars_Forall. intros i prev c next s.
      destruct (CSSFacts.loopBody_emits name ln i prev c next s) as [-> | ->];
        repeat constructor. }
    destruct (forChars_increasing (loopBody name ln) column
                ltac:(intros i prev c next s;
                      destruct (CSSFacts.loopBody_emits name ln i prev c next s)
                        as [-> | ->]; eauto)
                l 0 None st) as [Hs _].
    induction Hs as [|o out Hs IH Ho]; [constructor|].
    apply Forall_cons in Hl as [Hlo Hl].
    constructor; [apply IH, Hl|].
    rewrite Forall_forall in Ho, Hl. apply Forall_forall. intros x Hx.
    right. split; [rewrite Hlo, (Hl x Hx); reflexivity|apply Ho, Hx].
  - apply forChars_Forall. intros i prev c next s.
    destruct (CSSFacts.loopBody_emits name ln i prev c next s) as [-> | ->];
      repeat constructor.
Qed.

(** The issues of the lines come in the order of the text. *)
Lemma scanLines_ordered name lines :
  forall ln st,
    StronglySorted before (scanLines name ln lines st).2
    /\ Forall (fun o => ln + 1 <= line o <= ln + length lines
                        /\ ruleId o = "CSS_UNEXPECTED_BRACE")
              (scanLines name ln lines st).2.
Proof.
  induction lines as [|l ls IH]; intros ln st; [simpl; split; constructor|].
  rewrite CSSFacts.scanLines_cons.
  destruct (scanLine_ordered name ln l st) as [Hs1 Hf1].
  destruct (scanLine name ln l st) as [st1 out1].
  destruct (IH (S ln) st1) as [Hs2 Hf2].
  destruct (scanLines name (S ln) ls st1) as [st2 out2].
  cbn [fst snd length] in *. split.
  - apply StronglySorted_app_2; [|assumption..].
    rewrite Forall_forall in Hf1, Hf2. intros x1 x2 H1 H2.
    destruct (Hf1 x1 H1) as [Hx1 _]. destruct (Hf2 x2 H2) as [Hx2 _].
    left. lia.
  - apply Forall_app. split.
    + eapply Forall_impl; [exact Hf1|]. simpl. intros o [-> ?]. split; [lia|assumption].
    + eapply Forall_impl; [exact Hf2|]. simpl. intros o [? ?]. split; [lia|assumption].
Qed.

End CSSMore.

(* ===================================================================== *)
(** * Further properties of HTMLAnalyzer *)
(* ===================================================================== *)

Module HTMLMore.
Import Js JsFacts HtmlParser2 HTMLAnalyzer HTMLRun Shapes.

Lemma handle_void name st ev : isVoidEvent ev = true -> handle name st ev = st.
Proof.
  destruct ev as [tag attribs|tag|text]; simpl; intros H; [| |discriminate].
  - unfold onopentag. rewrite H. reflexivity.
  - unfold onclosetag. rewrite H. reflexivity.
Qed.

Lemma foldl_handle_app name st evs1 evs2 :
  foldl (handle name) st (evs1 ++ evs2)
  = foldl (handle name) (foldl (handle name) st evs1) evs2.
Proof. apply foldl_app. Qed.

Lemma newlinesOf_app evs1 evs2 :
  newlinesOf (evs1 ++ evs2) = newlinesOf evs1 + newlinesOf evs2.
Proof.
  induction evs1 as [|ev evs1 IH]; [reflexivity|].
  destruct ev; simpl; rewrite IH; lia.
Qed.

(** The line counter after a run. *)
Lemma run_line name evs :
  forall st, currentLine (foldl (handle name) st evs) = currentLine st + newlinesOf evs.
Proof.
  induction evs as [|ev evs IH]; intros st; [simpl; lia|].
  simpl foldl. rewrite IH. destruct ev as [tag attribs|tag|text]; simpl.
  - unfold onopentag. case_bool_decide; reflexivity.
  - unfold onclosetag. case_bool_decide; [reflexivity|].
    destruct (last (tagStack st)); [case_bool_decide|]; reflexivity.
  - lia.
Qed.

(** A properly nested run leaves the issues and the stack as they were. *)
Lemma run_nested name evs :
  Nested evs ->
  forall st,
    foldl (handle name) st evs
    = {| found := found st; tagStack := tagStack st;
         currentLine := currentLine st + newlinesOf evs |}.
Proof.
  induction 1 as [|text evs _ IH|ev evs Hv _ IH
                  |tag attribs inner closing evs Hvoid Hsame _ IHin _ IH];
    intros st.
  - simpl. rewrite Nat.add_0_r. destruct st; reflexivity.
  - simpl foldl. rewrite IH. simpl. f_equal. lia.
  - simpl foldl. rewrite (handle_void name st ev Hv), IH.
    destruct ev; simpl in *; try discriminate; reflexivity.
  - change (OpenTag tag attribs :: inner ++ CloseTag closing :: evs)
      with ([OpenTag tag attribs] ++ inner ++ [CloseTag closing] ++ evs).
    rewrite !foldl_handle_app. simpl foldl at 4.
    unfold onopentag at 1. rewrite bool_decide_eq_false_2 by assumption.
    rewrite IHin. simpl foldl at 2. unfold onclosetag. simpl.
    rewrite Hsame. rewrite bool_decide_eq_false_2 by assumption.
    rewrite last_snoc. simpl.
    rewrite bool_decide_eq_false_2 by (intros Hne; apply Hne; reflexivity).
    rewrite removelast_last. rewrite IH. simpl.
    rewrite !newlinesOf_app. simpl. f_equal. lia.
Qed.

(** An issue pushed at the current line keeps the issues in order. *)
Lemma push_sorted (found : list CodeIssue) (i : CodeIssue) (upTo : nat) :
  Forall (fun j => 1 <= line j <= upTo) found ->
  StronglySorted (fun i j => line i <= line j) found ->
  line i = upTo ->
  StronglySorted (fun i j => line i <= line j) (found ++ [i]).
Proof.
  intros Hf Hs Hi. apply StronglySorted_app_2; [|assumption|repeat constructor].
  intros x y Hx Hy. apply list_elem_of_singleton in Hy. subst y.
  rewrite Forall_forall in Hf. apply Hf in Hx. lia.
Qed.

(** The handlers keep the lines in order. *)
Lemma handle_orderly name st ev : orderly st -> orderly (handle name st ev).
Proof.
  intros (H1 & Hs & Hf & Hi & Ho). destruct ev as [tag attribs|tag|text]; simpl.
  - unfold onopentag. case_bool_decide; [repeat split; assumption|].
    unfold orderly. simpl. repeat split; try assumption.
    + apply StronglySorted_app_2; [|assumption|repeat constructor].
      intros f g Hf1 Hg. apply list_elem_of_singleton in Hg. subst g. simpl.
      rewrite Forall_forall in Hf. apply Hf in Hf1. lia.
    + apply Forall_app. split; [assumption|]. constructor; [simpl; lia|constructor].
  - unfold onclosetag. case_bool_decide; [repeat split; assumption|].
    destruct (last (tagStack st)) as [top|] eqn:Hlast.
    + case_bool_decide; unfold orderly; simpl; repeat split; try assumption.
      * apply Forall_app. split; [assumption|]. constructor; [simpl; lia|constructor].
      * apply (push_sorted _ _ (currentLine st)); auto.
      * apply last_Some in Hlast as [l' Hl']. rewrite Hl' in *.
        rewrite removelast_last. eapply StronglySorted_app_1_l, Hs.
      * apply HTMLFacts.Forall_removelast. assumption.
    + unfold orderly; simpl; repeat split; try assumption.
      * apply Forall_app. split; [assumption|]. constructor; [simpl; lia|constructor].
      * apply (push_sorted _ _ (currentLine st)); auto.
  - unfold ontext, orderly. simpl. repeat split; try assumption; try lia.
    + eapply Forall_impl; [exact Hf|]. simpl. intros; lia.
    + eapply Forall_impl; [exact Hi|]. simpl. intros; lia.
Qed.

Lemma run_orderly name evs :
  forall st, orderly st -> orderly (foldl (handle name) st evs).
Proof.
  induction evs as [|ev evs IH]; intros st H; [assumption|].
  simpl. apply IH, handle_orderly, H.
Qed.

Lemma initial_orderly : orderly initial.
Proof. unfold orderly. simpl. repeat split; try constructor. Qed.

(** Every frame of the stack was pushed by an open-tag event of the run, at
    the line that the text events before it reach. *)
Lemma run_frames p evs :
  Forall (fun f => exists before tag attribs after,
              evs = before ++ OpenTag tag attribs :: after
              /\ HTMLAnalyzer.name f = toLowerCase tag
              /\ (toLowerCase tag ∉ selfClosingTags)
              /\ openedAt f = 1 + newlinesOf before)
         (tagStack (foldl (handle p) initial evs)).
Proof.
  induction evs as [|ev evs IH] using rev_ind; [constructor|].
  rewrite foldl_app. cbn [foldl].
  assert (Forall (fun f => exists before tag attribs after,
                      evs ++ [ev] = before ++ OpenTag tag attribs :: after
                      /\ HTMLAnalyzer.name f = toLowerCase tag
                      /\ (toLowerCase tag ∉ selfClosingTags)
                      /\ openedAt f = 1 + newlinesOf before)
                 (tagStack (foldl (handle p) initial evs))) as Hold.
  { eapply Forall_impl; [exact IH|]. cbv beta.
    intros f (before & tag & attribs & after & -> & Hn & Hv & Hl).
    exists before, tag, attribs, (after ++ [ev]).
    rewrite <- app_assoc. auto. }
  clear IH. destruct ev as [tag attribs|tag|text]; cbn [handle].
  - unfold onopentag. case_bool_decide as Hv; [exact Hold|]. cbn [tagStack].
    apply Forall_app. split; [exact Hold|].
    constructor; [|constructor].
    exists evs, tag, attribs, []. cbn [HTMLAnalyzer.name openedAt].
    rewrite run_line. auto.
  - unfold onclosetag. case_bool_decide; [exact Hold|].
    destruct (last (tagStack (foldl (handle p) initial evs)));
      [case_bool_decide|]; cbn [tagStack]; try exact Hold.
    apply HTMLFacts.Forall_removelast, Hold.
  - exact Hold.
Qed.

(** The handlers fill the fields of their issues alike. *)
Lemma handle_fields name st ev :
  Forall (markupFields name) (found st) ->
  Forall (markupFields name) (found (handle name st ev)).
Proof.
  intros H. destruct ev as [tag attribs|tag|text]; simpl.
  - unfold onopentag. case_bool_decide; assumption.
  - unfold onclosetag. case_bool_decide; [assumption|].
    destruct (last (tagStack st)); [case_bool_decide|]; simpl; try assumption;
      apply Forall_app; split; try assumption;
      (constructor; [|constructor]); unfold markupFields; simpl; auto.
  - assumption.
Qed.

Lemma run_fields name evs :
  forall st,
    Forall (markupFields name) (found st) ->
    Forall (markupFields name) (found (foldl (handle name) st evs)).
Proof.
  induction evs as [|ev evs IH]; intros st H; [assumption|].
  simpl. apply IH, handle_fields, H.
Qed.

Section WithParser.
Variable parser : Parser.

(** The unclosed-tag issues are those of the frames left on the stack. *)
Lemma unclosed_issues file :
  withRule "HTML_UNCLOSED_TAG" (analyze parser file)
  = map (unclosedTag (path file))
        (tagStack (foldl (handle (path file)) initial
                     (events (parser options (content file))))).
Proof.
  unfold analyze, withRule. cbv zeta. rewrite !filter_app.
  rewrite filter_none.
  2:{ eapply Forall_impl;
        [apply (HTMLFacts.run_found (path file)); constructor|].
      simpl. intros x [Hx|Hx] E; rewrite E in Hx; discriminate. }
  rewrite filter_none.
  2:{ unfold caught. repeat case_match; repeat constructor. simpl. discriminate. }
  rewrite filter_all; [reflexivity|].
  apply Forall_forall. intros x Hx. apply list_elem_of_fmap in Hx as (f & -> & _).
  reflexivity.
Qed.

(** The issues of the two handler rules are those pushed during the run. *)
Lemma handler_issues file :
  filter (fun i => ruleId i ∈ handlerRules) (analyze parser file)
  = found (foldl (handle (path file)) initial
             (events (parser options (content file)))).
Proof.
  unfold analyze. cbv zeta. rewrite !filter_app.
  rewrite filter_all.
  2:{ eapply Forall_impl;
        [apply (HTMLFacts.run_found (path file)); constructor|].
      simpl. unfold handlerRules. intros x [-> | ->]; rewrite !elem_of_cons; auto. }
  rewrite filter_none.
  2:{ unfold caught. repeat case_match; repeat constructor. simpl.
      unfold handlerRules. rewrite !elem_of_cons, elem_of_nil.
      intros [E|[E|[]]]; discriminate. }
  rewrite filter_none; [rewrite !app_nil_r; reflexivity|].
  apply Forall_forall. intros x Hx. apply list_elem_of_fmap in Hx as (f & -> & _).
  simpl. unfold handlerRules. rewrite !elem_of_cons, elem_of_nil.
  intros [E|[E|[]]]; discriminate.
Qed.
End WithParser.

Section Fields.
Variable parser : Parser.

(** The fields and the line of every issue. *)
Lemma markup_fields (file : FileInput) (i : CodeIssue) :
  i ∈ analyze parser file ->
  markupFields (path file) i
  /\ 1 <= line i <= 1 + newlinesOf (events (parser options (content file))).
Proof.
  unfold analyze. cbv zeta.
  set (evs := events (parser options (content file))).
  pose proof (run_orderly (path file) evs initial
                initial_orderly) as (_ & _ & Hf & Hi & _).
  pose proof (run_fields (path file) evs initial
                ltac:(constructor)) as Hfields.
  rewrite (run_line (path file) evs) in Hf, Hi.
  change (currentLine initial) with 1 in Hf, Hi.
  rewrite Forall_forall in Hf. rewrite Forall_forall in Hi.
  rewrite Forall_forall in Hfields.
  rewrite !elem_of_app. intros [[Hin|Hin]|Hin].
  - split; [apply Hfields, Hin|apply Hi, Hin].
  - unfold caught in Hin.
    destruct (thrown _) as [[msg|]|];
      try (apply not_elem_of_nil in Hin; contradiction).
    apply list_elem_of_singleton in Hin. subst i.
    unfold markupFields. simpl. repeat split; lia.
  - apply list_elem_of_fmap in Hin as (f & -> & Hin).
    unfold markupFields. simpl. repeat split; apply Hf, Hin.
Qed.
End Fields.

End HTMLMore.

(* ===================================================================== *)
(** * Further properties of HTMLCSSCrossValidator *)
(* ===================================================================== *)

Module ValidatorMore.
Import Js JsFacts Regex HtmlParser2 HTMLCSSCrossValidator ValidatorFacts Shapes.

Lemma all_app p a b : all p (a +:+ b) = all p a && all p b.
Proof.
  induction a as [|c a IH]; simpl; [reflexivity|].
  rewrite IH. apply andb_assoc.
Qed.

Lemma all_slice p s : forall n, all p s = true -> all p (slice s n) = true.
Proof.
  induction s as [|c r IH]; intros [|n] H; simpl in *; try assumption; try reflexivity.
  apply andb_true_iff in H as [_ H]. apply IH, H.
Qed.

Lemma all_takeWhile p s : all p (takeWhile p s) = true.
Proof.
  induction s as [|c r IH]; simpl; [reflexivity|].
  destruct (p c) eqn:E; simpl; [rewrite E, IH|]; reflexivity.
Qed.

(** What the two selector patterns capture is a name. *)
Lemma selector_isName sigil t n x : selector sigil t = Some (n, x) -> isName x = true.
Proof.
  unfold selector. destruct t as [|s [|c r]]; try discriminate.
  destruct (bool_decide (s = sigil) && nameStart c) eqn:E; [|discriminate].
  intros [= _ <-]. apply andb_true_iff in E as [_ E]. simpl.
  rewrite E, all_takeWhile. reflexivity.
Qed.

Lemma regexOf_selector t :
  regexOf t = selector (match t with class => "."%char | id => "#"%char end).
Proof. destruct t; reflexivity. Qed.

Lemma names_empty t : names t noDefinitions = ∅.
Proof. destruct t; reflexivity. Qed.

Lemma extractCSSDefinitions_names t text defs n :
  n ∈ names t (extractCSSDefinitions text defs)
  <-> n ∈ names t defs \/ n ∈ execAll (regexOf t) (selectorTextOf text).
Proof. destruct t; simpl; apply foldl_add. Qed.

Lemma extract_blocks_names t blocks :
  forall defs n,
    n ∈ names t (foldl (fun d inner => extractCSSDefinitions inner d) defs blocks)
    <-> n ∈ names t defs
        \/ exists inner, inner ∈ blocks /\ n ∈ execAll (regexOf t) (selectorTextOf inner).
Proof.
  induction blocks as [|b blocks IH]; intros defs n; simpl.
  - split; [auto|]. intros [H|(inner & H & _)]; [assumption|].
    apply not_elem_of_nil in H. contradiction.
  - rewrite IH, extractCSSDefinitions_names. split.
    + intros [[H|H]|(inner & Hin & H)]; auto.
      * right. exists b. split; [left|assumption].
      * right. exists inner. split; [right; assumption|assumption].
    + intros [H|(inner & Hin & H)]; auto.
      apply elem_of_cons in Hin as [->|Hin]; auto.
      right. exists inner. auto.
Qed.

(** One turn of the first loop adds what the file defines by itself. *)
Lemma collect_names t defs file n :
  n ∈ names t (collect defs file)
  <-> n ∈ names t defs \/ n ∈ names t (collect noDefinitions file).
Proof.
  unfold collect, extractInlineStyles.
  destruct (isStylesheet file), (isMarkup file);
    rewrite ?extract_blocks_names, ?extractCSSDefinitions_names, ?names_empty;
    pose proof (not_elem_of_empty (C:=gset string) n); tauto.
Qed.

(** The sets after the first loop are the unions of what the files
    define. *)
Lemma collected_names t files :
  forall defs n,
    n ∈ names t (foldl collect defs files)
    <-> n ∈ names t defs
        \/ exists file, file ∈ files /\ n ∈ names t (collect noDefinitions file).
Proof.
  induction files as [|f files IH]; intros defs n; simpl.
  - split; [auto|]. intros [H|(file & H & _)]; [assumption|].
    apply not_elem_of_nil in H. contradiction.
  - rewrite IH, collect_names. split.
    + intros [[H|H]|(file & Hin & H)]; auto.
      * right. exists f. split; [left|assumption].
      * right. exists file. split; [right; assumption|assumption].
    + intros [H|(file & Hin & H)]; auto.
      apply elem_of_cons in Hin as [->|Hin]; auto.
      right. exists file. auto.
Qed.

Lemma names_eq d1 d2 :
  (forall t n, n ∈ names t d1 <-> n ∈ names t d2) -> d1 = d2.
Proof.
  intros H. destruct d1 as [c1 i1], d2 as [c2 i2].
  assert (c1 = c2) as -> by (apply set_eq; intros n; apply (H class n)).
  assert (i1 = i2) as -> by (apply set_eq; intros n; apply (H id n)).
  reflexivity.
Qed.

(** The first loop does not depend on the order of the files. *)
Lemma collected_permutation files files' defs :
  files ≡ₚ files' -> foldl collect defs files = foldl collect defs files'.
Proof.
  intros Hp. apply names_eq. intros t n. rewrite !collected_names.
  split; intros [H|(file & Hin & H)]; auto; right; exists file; split; auto.
  - rewrite <- Hp. assumption.
  - rewrite Hp. assumption.
Qed.

(** Every collected name is a name. *)
Lemma collect_isName t file n :
  n ∈ names t (collect noDefinitions file) -> isName n = true.
Proof.
  assert (forall text, n ∈ execAll (regexOf t) (selectorTextOf text) -> isName n = true)
    as Hsel.
  { intros text H. apply execAll_from_capture in H as (s & k & H).
    rewrite regexOf_selector in H. eapply selector_isName, H. }
  unfold collect, extractInlineStyles.
  destruct (isStylesheet file), (isMarkup file);
    rewrite ?extract_blocks_names, ?extractCSSDefinitions_names, ?names_empty.
  - intros [[H|H]|(inner & _ & H)]; eauto. set_solver.
  - intros [H|H]; eauto. set_solver.
  - intros [H|(inner & _ & H)]; eauto. set_solver.
  - set_solver.
Qed.

Lemma collected_isName t files n :
  n ∈ names t (foldl collect noDefinitions files) -> isName n = true.
Proof.
  rewrite collected_names, names_empty. intros [H|(file & _ & H)]; [set_solver|].
  eapply collect_isName, H.
Qed.

(** The issues of one usage, exactly. *)
Lemma report_elem defs u i :
  i ∈ report defs u
  <-> i = undefinedIssue u
      /\ (usedName u ∉ names (type u) defs)
      /\ (type u = class -> isLikelyDynamicOrFrameworkClass (usedName u) = false).
Proof.
  unfold report, undefinedIssue. destruct (type u) eqn:Ht; simpl.
  - destruct (decide (usedName u ∈ classes defs)) as [Hd|Hd].
    + rewrite (bool_decide_eq_true_2 _ Hd). simpl. split; [set_solver|tauto].
    + rewrite (bool_decide_eq_false_2 _ Hd). simpl.
      destruct (isLikelyDynamicOrFrameworkClass (usedName u)).
      * split; [set_solver|]. intros (_ & _ & H). specialize (H eq_refl). discriminate.
      * rewrite list_elem_of_singleton. tauto.
  - destruct (decide (usedName u ∈ ids defs)) as [Hd|Hd].
    + rewrite (bool_decide_eq_true_2 _ Hd). simpl. split; [set_solver|tauto].
    + rewrite (bool_decide_eq_false_2 _ Hd). simpl.
      rewrite list_elem_of_singleton. split; [intros ->; repeat split; auto|tauto].
      discriminate.
Qed.

Lemma undefinedIssue_fields u :
  validatorFields (undefinedIssue u)
  /\ filePath (undefinedIssue u) = usedIn u /\ line (undefinedIssue u) = usedAt u.
Proof. unfold undefinedIssue, validatorFields. destruct (type u); simpl; auto. Qed.

Lemma idUndefined_name u u' :
  idUndefined u = idUndefined u' -> usedName u = usedName u'.
Proof.
  intros H. apply (f_equal message) in H. unfold idUndefined, message in H.
  apply append_inj_r in H. apply append_inj_l in H.
  unfold quoted in H. injection H as H. apply append_inj_l in H. exact H.
Qed.

Lemma undefinedIssue_inj u u' :
  undefinedIssue u = undefinedIssue u' -> type u = type u' /\ usedName u = usedName u'.
Proof.
  unfold undefinedIssue. destruct (type u), (type u'); intros H.
  - split; [reflexivity|]. apply classUndefined_name, H.
  - apply (f_equal ruleId) in H. discriminate.
  - apply (f_equal ruleId) in H. discriminate.
  - split; [reflexivity|]. apply idUndefined_name, H.
Qed.

Lemma undefinedIssue_class u u' :
  classUndefined u = undefinedIssue u' -> type u' = class /\ usedName u = usedName u'.
Proof.
  unfold undefinedIssue. destruct (type u'); intros H.
  - split; [reflexivity|]. apply classUndefined_name, H.
  - apply (f_equal ruleId) in H. discriminate.
Qed.

Lemma undefinedIssue_id u u' :
  idUndefined u = undefinedIssue u' -> type u' = id /\ usedName u = usedName u'.
Proof.
  unfold undefinedIssue. destruct (type u'); intros H.
  - apply (f_equal ruleId) in H. discriminate.
  - split; [reflexivity|]. apply idUndefined_name, H.
Qed.

(** What is defined stays so through the inline style blocks and the
    optional step of the first loop. *)
Lemma inline_keeps t defs file n :
  n ∈ names t defs ->
  n ∈ names t (if isMarkup file then extractInlineStyles (content file) defs else defs).
Proof.
  intros H. destruct (isMarkup file); [|exact H].
  unfold extractInlineStyles. apply extract_blocks_names. left. exact H.
Qed.

Lemma stylesheet_defines t file n :
  isStylesheet file = true ->
  n ∈ names t (extractCSSDefinitions (content file) noDefinitions) ->
  n ∈ names t (collect noDefinitions file).
Proof.
  intros Hs H. unfold collect. rewrite Hs. apply inline_keeps, H.
Qed.

(** The pieces of a class attribute. *)
Lemma splitSpaces_pieces s :
  forall current inSpace,
    all (fun c => negb (isSpace c)) current = true ->
    Forall (fun piece => all (fun c => negb (isSpace c)) piece = true)
           (splitSpaces_from current inSpace s).
Proof.
  induction s as [|c r IH]; intros current inSpace Hc; simpl.
  - constructor; [assumption|constructor].
  - destruct (isSpace c) eqn:E.
    + destruct inSpace; [apply IH; reflexivity|].
      constructor; [assumption|apply IH; reflexivity].
    + apply IH. rewrite all_app, Hc. simpl. rewrite E. reflexivity.
Qed.

Lemma classUsages_token name ln (attribs : gmap string string) u :
  u ∈ classUsages name ln attribs ->
  type u = class /\ usedIn u = name /\ usedAt u = ln /\ isToken (usedName u) = true.
Proof.
  unfold classUsages. destruct (attribs !! "class") as [value|]; [|set_solver].
  destruct (truthy value); [|set_solver].
  intros H. apply list_elem_of_fmap in H as (piece & -> & H). simpl.
  apply list_elem_of_filter in H as [Ht H]. repeat split.
  unfold isToken. rewrite Ht. simpl.
  pose proof (splitSpaces_pieces value EmptyString false eq_refl) as Hall.
  rewrite Forall_forall in Hall. apply Hall, H.
Qed.

Lemma idUsages_fields name ln (attribs : gmap string string) u :
  u ∈ idUsages name ln attribs ->
  type u = id /\ usedIn u = name /\ usedAt u = ln.
Proof.
  unfold idUsages. destruct (attribs !! "id") as [value|]; [|set_solver].
  destruct (truthy value); [|set_solver].
  intros H. apply list_elem_of_singleton in H. subst u. auto.
Qed.

Lemma handle_usage name st ev :
  1 <= currentLine st ->
  Forall (usageOk name (currentLine st)) (usage st) ->
  1 <= currentLine (handle name st ev)
  /\ Forall (usageOk name (currentLine (handle name st ev))) (usage (handle name st ev)).
Proof.
  intros H1 H. destruct ev as [tag attribs|tag|text]; simpl; auto.
  - split; [assumption|]. rewrite !Forall_app. repeat split; [assumption| |].
    + apply Forall_forall. intros u Hu.
      apply classUsages_token in Hu as (_ & ? & ? & ?).
      unfold usageOk. repeat split; auto; lia.
    + apply Forall_forall. intros u Hu.
      apply idUsages_fields in Hu as (Ht & ? & ?).
      unfold usageOk. repeat split; auto; try lia.
      rewrite Ht. discriminate.
  - split; [lia|]. eapply Forall_impl; [exact H|].
    unfold usageOk. intros u (? & ? & ?). repeat split; auto; lia.
Qed.

Lemma run_usageOk name evs :
  forall st,
    1 <= currentLine st ->
    Forall (usageOk name (currentLine st)) (usage st) ->
    Forall (usageOk name (currentLine (foldl (handle name) st evs)))
           (usage (foldl (handle name) st evs)).
Proof.
  induction evs as [|ev evs IH]; intros st H1 H; [assumption|].
  simpl. destruct (handle_usage name st ev H1 H). apply IH; assumption.
Qed.

Lemma run_usage_line name evs :
  forall st, currentLine (foldl (handle name) st evs) = currentLine st + newlinesOf evs.
Proof.
  induction evs as [|ev evs IH]; intros st; [simpl; lia|].
  simpl foldl. rewrite IH. destruct ev; simpl; lia.
Qed.

(** A name that begins with a layout keyword matches the second utility
    pattern. *)
Lemma layout_prefix_likely name keyword :
  keyword ∈ layoutKeywords -> startsWith name keyword = true ->
  isLikelyDynamicOrFrameworkClass name = true.
Proof.
  intros Hk Hs. unfold isLikelyDynamicOrFrameworkClass.
  apply orb_true_iff. right.
  change UTILITY_FRAMEWORK_PATTERNS
    with (spacingShorthand :: oneOfThen layoutKeywords EmptyString
          :: tl (tl UTILITY_FRAMEWORK_PATTERNS)).
  cbn [existsb]. apply orb_true_iff. right. apply orb_true_iff. left.
  unfold oneOfThen. apply existsb_exists. exists keyword. split.
  - apply list_elem_of_In, Hk.
  - rewrite append_nil_r. exact Hs.
Qed.

Section WithParser.
Variable parser : Parser.

Lemma extractHTMLUsage_ok file u :
  u ∈ extractHTMLUsage parser file ->
  usageOk (path file) (1 + newlinesOf (events (parser options (content file)))) u.
Proof.
  unfold extractHTMLUsage. cbv zeta. intros Hu.
  pose proof (run_usageOk (path file) (events (parser options (content file)))
                {| usage := []; currentLine := 1 |} (le_n 1)
                ltac:(simpl; constructor)) as H.
  rewrite run_usage_line in H. simpl in H.
  rewrite Forall_forall in H. apply H, Hu.
Qed.

(** The issues of the validator, exactly. *)
Lemma validate_iff files i :
  i ∈ validate parser files
  <-> exists file u,
        file ∈ files /\ isMarkup file = true
        /\ u ∈ extractHTMLUsage parser file
        /\ i ∈ report (foldl collect noDefinitions files) u.
Proof.
  split; [apply validate_elem|].
  intros (file & u & Hf & Hm & Hu & Hi).
  unfold validate. cbv zeta. apply in_flat_map_elem. exists u. split; [|exact Hi].
  apply in_flat_map_elem. exists file. rewrite Hm. auto.
Qed.

End WithParser.

Section Fields.
Variable parser : Parser.

(** The fields, the file and the line of every issue. *)
Lemma validate_fields (files : list FileInput) (i : CodeIssue) :
  i ∈ validate parser files ->
  validatorFields i
  /\ exists file,
       file ∈ files /\ isMarkup file = true /\ filePath i = path file
       /\ 1 <= line i <= 1 + newlinesOf (events (parser options (content file))).
Proof.
  intros Hi. apply validate_iff in Hi as (file & u & Hf & Hm & Hu & Hi).
  apply report_elem in Hi as (-> & _ & _).
  destruct (undefinedIssue_fields u) as (Hfields & -> & ->).
  apply extractHTMLUsage_ok in Hu as (Hin & Hline & _).
  split; [exact Hfields|]. exists file. auto.
Qed.
End Fields.

End ValidatorMore.

(* ===================================================================== *)
(** * The selector text of a stylesheet *)
(* ===================================================================== *)

Module SelectorMore.
Import Js JsFacts Regex HTMLCSSCrossValidator ValidatorFacts Shapes ValidatorMore.

(** ** Characters *)

Lemma nameish_not c :
  nameish c = true ->
  isSpace c = false /\ c <> "{"%char /\ c <> "}"%char /\ c <> "/"%char /\ c <> "("%char.
Proof.
  destruct c as [[] [] [] [] [] [] [] []]; vm_compute; intros H;
    try discriminate H; repeat split; discriminate.
Qed.

Lemma space_not c :
  isSpace c = true ->
  nameChar c = false /\ isLetter c = false
  /\ c <> "{"%char /\ c <> "}"%char /\ c <> "/"%char /\ c <> "("%char.
Proof.
  destruct c as [[] [] [] [] [] [] [] []]; vm_compute; intros H;
    try discriminate H; repeat split; discriminate.
Qed.

Lemma nameChar_nameish c : nameChar c = true -> nameish c = true.
Proof. unfold nameish. intros ->. reflexivity. Qed.

Lemma nameStart_nameChar c : nameStart c = true -> nameChar c = true.
Proof.
  unfold nameStart, nameChar. intros H. apply orb_true_iff in H as [->| ->].
  - reflexivity.
  - rewrite !orb_true_r. reflexivity.
Qed.

Lemma eq_nocase_letter pat c :
  isLetter pat = true -> eq_nocase pat c = true -> isLetter c = true.
Proof.
  unfold eq_nocase. intros Hp H. apply orb_true_iff in H as [H|H].
  - apply bool_decide_eq_true_1 in H. subst c. exact Hp.
  - apply andb_true_iff in H as [H _]. apply andb_true_iff in H as [_ H]. exact H.
Qed.

Lemma all_impl (p q : ascii -> bool) s :
  (forall c, p c = true -> q c = true) -> all p s = true -> all q s = true.
Proof.
  intros Hpq. induction s as [|c r IH]; simpl; [reflexivity|].
  intros H. apply andb_true_iff in H as [Hc Hr]. rewrite (Hpq c Hc), (IH Hr). reflexivity.
Qed.

Lemma takeWhile_app_stop p x y :
  all p x = true ->
  match y with String c _ => p c = false | EmptyString => True end ->
  takeWhile p (x +:+ y) = x.
Proof.
  intros Hx Hy. induction x as [|c r IH]; simpl in *.
  - destruct y as [|d y']; [reflexivity|]. simpl. rewrite Hy. reflexivity.
  - apply andb_true_iff in Hx as [Hc Hr]. rewrite Hc, (IH Hr). reflexivity.
Qed.

(** ** Removal leaves a leading name, the white space after it and the
    opening brace alone *)

Lemma removeAll_cons_none m c r :
  m (String c r) = None -> removeAll m (String c r) = String c (removeAll m r).
Proof. unfold removeAll. simpl. intros ->. reflexivity. Qed.

Section Prefix.
Variable m : Matcher.
Hypothesis none :
  forall a sp rest,
    all nameish a = true -> all isSpace sp = true ->
    m (a +:+ sp +:+ String "{" rest) = None.

Lemma removeAll_spaces sp rest :
  all isSpace sp = true ->
  removeAll m (sp +:+ String "{" rest) = sp +:+ String "{" (removeAll m rest).
Proof.
  induction sp as [|c sp IH]; intros H.
  - simpl. apply removeAll_cons_none. apply (none EmptyString EmptyString); reflexivity.
  - pose proof H as H'. simpl in H'. apply andb_true_iff in H' as [_ Hr].
    change (String c sp +:+ String "{" rest) with (String c (sp +:+ String "{" rest)).
    rewrite removeAll_cons_none.
    + rewrite (IH Hr). reflexivity.
    + apply (none EmptyString (String c sp)); [reflexivity|exact H].
Qed.

Lemma removeAll_name a sp rest :
  all nameish a = true -> all isSpace sp = true ->
  removeAll m (a +:+ sp +:+ String "{" rest)
  = a +:+ sp +:+ String "{" (removeAll m rest).
Proof.
  intros Ha Hsp. induction a as [|c a IH].
  - simpl. apply removeAll_spaces, Hsp.
  - pose proof Ha as Ha'. simpl in Ha'. apply andb_true_iff in Ha' as [_ Hr].
    change (String c a +:+ sp +:+ String "{" rest)
      with (String c (a +:+ sp +:+ String "{" rest)).
    rewrite removeAll_cons_none.
    + rewrite (IH Hr). reflexivity.
    + apply (none (String c a) sp); assumption.
Qed.
End Prefix.

(** The first character of such a text. *)
Lemma leading_char a sp rest :
  all nameish a = true -> all isSpace sp = true ->
  exists c r,
    a +:+ sp +:+ String "{" rest = String c r
    /\ c <> "/"%char /\ c <> "("%char
    /\ (a = EmptyString -> isLetter c = false).
Proof.
  intros Ha Hsp. destruct a as [|c a].
  - destruct sp as [|c sp]; simpl.
    + exists "{"%char, rest.
      split; [reflexivity|]. split; [discriminate|]. split; [discriminate|].
      reflexivity.
    + simpl in Hsp. apply andb_true_iff in Hsp as [Hc _].
      apply space_not in Hc as (_ & ? & _ & _ & ? & ?).
      exists c, (sp +:+ String "{" rest).
      split; [reflexivity|]. split; [assumption|]. split; [assumption|].
      intros _. assumption.
  - simpl in Ha. apply andb_true_iff in Ha as [Hc _].
    apply nameish_not in Hc as (_ & _ & _ & ? & ?).
    exists c, (a +:+ sp +:+ String "{" rest).
    split; [reflexivity|]. split; [assumption|]. split; [assumption|].
    discriminate.
Qed.

Lemma comment_none a sp rest :
  all nameish a = true -> all isSpace sp = true ->
  comment (a +:+ sp +:+ String "{" rest) = None.
Proof.
  intros Ha Hsp. destruct (leading_char a sp rest Ha Hsp) as (c & r & -> & Hc & _).
  unfold comment. simpl. rewrite bool_decide_eq_false_2 by congruence. reflexivity.
Qed.

(** No letter stands at the head of white space and a brace. *)
Lemma no_letter_ahead pat sp rest t :
  isLetter pat = true -> all isSpace sp = true ->
  startsWith_nocase (sp +:+ String "{" rest) (String pat t) = false.
Proof.
  intros Hp Hsp.
  destruct (leading_char EmptyString sp rest eq_refl Hsp) as (c & r & E & _ & _ & Hl).
  simpl in E. rewrite E. simpl.
  destruct (eq_nocase pat c) eqn:Hc; [|reflexivity].
  apply (eq_nocase_letter pat c Hp) in Hc. rewrite (Hl eq_refl) in Hc. discriminate.
Qed.

Lemma startsWith_nocase_cons b s a p :
  startsWith_nocase (String b s) (String a p) = eq_nocase a b && startsWith_nocase s p.
Proof. reflexivity. Qed.

Lemma url_none a sp rest :
  all nameish a = true -> all isSpace sp = true ->
  url (a +:+ sp +:+ String "{" rest) = None.
Proof.
  intros Ha Hsp. unfold url.
  destruct (startsWith_nocase (a +:+ sp +:+ String "{" rest) "url") eqn:E; [|reflexivity].
  destruct a as [|c1 [|c2 [|c3 a]]].
  - exfalso. cbn [String.append] in E.
    rewrite no_letter_ahead in E by (assumption || reflexivity). discriminate.
  - exfalso. cbn [String.append] in E. rewrite startsWith_nocase_cons in E.
    rewrite no_letter_ahead in E by (assumption || reflexivity).
    rewrite andb_false_r in E. discriminate.
  - exfalso. cbn [String.append] in E. rewrite !startsWith_nocase_cons in E.
    rewrite no_letter_ahead in E by (assumption || reflexivity).
    rewrite !andb_false_r in E. discriminate.
  - clear E. simpl in Ha.
    apply andb_true_iff in Ha as [_ Ha]. apply andb_true_iff in Ha as [_ Ha].
    apply andb_true_iff in Ha as [_ Ha].
    cbv zeta.
    match goal with
    | |- (if ?b then _ else _) = _ => assert (b = false) as ->; [|reflexivity]
    end.
    cbn [String.append slice].
    destruct a as [|c4 a].
    + cbn [String.append].
      rewrite takeWhile_app_stop by (assumption || reflexivity).
      change (3 + String.length sp) with (S (S (S (String.length sp)))).
      cbn [slice]. rewrite OrchestratorFacts.slice_app. reflexivity.
    + simpl in Ha. apply andb_true_iff in Ha as [Hc _].
      apply nameish_not in Hc as (Hs & _ & _ & _ & Hp).
      cbn [String.append takeWhile]. rewrite Hs. cbn [String.length Nat.add slice].
      cbn [startsWith]. rewrite bool_decide_eq_false_2 by congruence. reflexivity.
Qed.

(** ** The loop that cuts the selector portions out *)

Lemma cutAll_app st x y : cutAll st (x +:+ y) = cutAll (cutAll st x) y.
Proof. revert st. induction x as [|c x IH]; intros st; simpl; [reflexivity|apply IH]. Qed.

Lemma cutAll_top s :
  braceFree s = true ->
  forall st, depth st = 0%Z ->
    cutAll st s = {| selectorBlocks := selectorBlocks st; depth := 0;
                     currentSelector := currentSelector st +:+ s |}.
Proof.
  induction s as [|c s IH]; intros H st Hd.
  - simpl. rewrite append_nil_r. destruct st; simpl in *; subst; reflexivity.
  - simpl in H. apply andb_true_iff in H as [Hc H].
    apply andb_true_iff in Hc as [Ho Hc].
    apply negb_true_iff in Ho, Hc.
    simpl. unfold cut at 1. rewrite Ho, Hc, Hd. simpl.
    rewrite IH by (assumption || reflexivity). simpl.
    rewrite append_assoc. reflexivity.
Qed.

Lemma cutAll_inner s :
  braceFree s = true ->
  forall st, depth st <> 0%Z -> cutAll st s = st.
Proof.
  induction s as [|c s IH]; intros H st Hd; [reflexivity|].
  simpl in H. apply andb_true_iff in H as [Hc H].
  apply andb_true_iff in Hc as [Ho Hc].
  apply negb_true_iff in Ho, Hc.
  simpl. unfold cut at 1. rewrite Ho, Hc.
  rewrite (bool_decide_eq_false_2 _ Hd). apply IH; assumption.
Qed.

(** The loop only ever appends to the blocks. *)
Lemma cutAll_blocks s :
  forall st, exists more, selectorBlocks (cutAll st s) = selectorBlocks st ++ more.
Proof.
  induction s as [|c s IH]; intros st.
  - exists []. simpl. rewrite app_nil_r. reflexivity.
  - simpl. destruct (IH (cut st c)) as [more ->].
    unfold cut. repeat case_bool_decide; simpl; eauto.
    exists (currentSelector st :: more). rewrite <- app_assoc. reflexivity.
Qed.

(** One rule, read from the top level. *)
Lemma cutAll_rule sel body st :
  braceFree sel = true -> braceFree body = true -> depth st = 0%Z ->
  cutAll st (sel +:+ "{" +:+ body +:+ "}")
  = {| selectorBlocks := selectorBlocks st ++ [currentSelector st +:+ sel];
       depth := 0; currentSelector := EmptyString |}.
Proof.
  intros Hs Hb Hd. rewrite cutAll_app, (cutAll_top sel Hs st Hd).
  change ("{" +:+ body +:+ "}") with (String "{" (body +:+ "}")).
  cbn [cutAll]. unfold cut at 1. simpl.
  rewrite cutAll_app, (cutAll_inner body Hb) by (simpl; lia).
  reflexivity.
Qed.

Lemma join_head sep b more :
  exists tail,
    join sep (b :: more) = b +:+ tail
    /\ (tail = EmptyString \/ exists rest, tail = sep +:+ rest).
Proof.
  destruct more as [|b' more].
  - exists EmptyString. simpl. rewrite append_nil_r. auto.
  - exists (sep +:+ join sep (b' :: more)). rewrite join_cons2. eauto.
Qed.

(** The selector text of a stylesheet that begins with a name, white space
    and an opening brace. *)
Lemma selectorTextOf_leading a sp rest :
  all nameish a = true -> all isSpace sp = true ->
  exists tail,
    selectorTextOf (a +:+ sp +:+ String "{" rest) = a +:+ sp +:+ tail
    /\ (tail = EmptyString \/ exists r, tail = String " " r).
Proof.
  intros Ha Hsp. unfold selectorTextOf. cbv zeta.
  rewrite (removeAll_name comment comment_none a sp rest Ha Hsp).
  rewrite (removeAll_name url url_none a sp _ Ha Hsp).
  rewrite <- append_assoc, cutAll_app.
  rewrite (cutAll_top (a +:+ sp)); [|
    unfold braceFree; rewrite all_app; apply andb_true_iff; split|reflexivity].
  2:{ eapply all_impl; [|exact Ha]. intros c Hc.
      apply nameish_not in Hc as (_ & ? & ? & _).
      rewrite !bool_decide_eq_false_2 by assumption. reflexivity. }
  2:{ eapply all_impl; [|exact Hsp]. intros c Hc.
      apply space_not in Hc as (_ & _ & ? & ? & _).
      rewrite !bool_decide_eq_false_2 by assumption. reflexivity. }
  cbn [cutAll]. unfold cut at 1. simpl.
  match goal with
  | |- context [cutAll ?st ?s] => destruct (cutAll_blocks s st) as [more ->]
  end.
  cbn [selectorBlocks app]. destruct (join_head " " (a +:+ sp) more) as (tail & -> & Ht).
  exists tail. rewrite append_assoc. split; [reflexivity|].
  destruct Ht as [->|(r & ->)]; eauto.
Qed.

(** The leading name is captured. *)
Lemma execAll_leading sigil n sp tail :
  isName n = true -> all isSpace sp = true ->
  (tail = EmptyString \/ exists r, tail = String " " r) ->
  n ∈ execAll (selector sigil) (String sigil n +:+ sp +:+ tail).
Proof.
  intros Hn Hsp Ht. destruct n as [|c n]; [discriminate|].
  simpl in Hn. apply andb_true_iff in Hn as [Hc Hn].
  unfold execAll. cbn [String.append execAll_from]. unfold selector at 1.
  rewrite bool_decide_eq_true_2 by reflexivity. rewrite Hc. cbv zeta. simpl andb. cbv iota.
  rewrite takeWhile_app_stop.
  - simpl. left.
  - exact Hn.
  - destruct sp as [|s sp].
    + destruct Ht as [->|(r & ->)]; simpl; auto.
    + simpl in Hsp. apply andb_true_iff in Hsp as [Hs _].
      apply space_not in Hs as (? & _). simpl. assumption.
Qed.

Lemma leading_rule_defines t n sp rest defs :
  isName n = true -> all isSpace sp = true ->
  n ∈ names t (extractCSSDefinitions
                 (String (match t with class => "."%char | id => "#"%char end) n
                  +:+ sp +:+ String "{" rest) defs).
Proof.
  intros Hn Hsp. apply extractCSSDefinitions_names. right.
  rewrite regexOf_selector.
  set (sigil := match t with class => "."%char | id => "#"%char end).
  assert (all nameish (String sigil n) = true) as Ha.
  { simpl. apply andb_true_iff. split; [destruct t; reflexivity|].
    destruct n as [|c n]; [discriminate|]. simpl in Hn.
    apply andb_true_iff in Hn as [Hc Hn]. simpl.
    rewrite (nameChar_nameish c (nameStart_nameChar c Hc)). simpl.
    eapply all_impl; [apply nameChar_nameish|exact Hn]. }
  destruct (selectorTextOf_leading (String sigil n) sp rest Ha Hsp) as (tail & E & Ht).
  cbn [String.append] in E |- *. rewrite E.
  apply (execAll_leading sigil n sp tail Hn Hsp Ht).
Qed.

(** ** Stylesheets made of plain rules *)

Lemma plain_not c :
  negb (oneOfChars "{}/(" c) = true ->
  c <> "{"%char /\ c <> "}"%char /\ c <> "/"%char /\ c <> "("%char.
Proof.
  intros H. repeat split; intros ->; vm_compute in H; discriminate.
Qed.

Lemma plain_braceFree s : plain s = true -> braceFree s = true.
Proof.
  apply all_impl. intros c Hc. apply plain_not in Hc as (? & ? & _).
  rewrite !bool_decide_eq_false_2 by assumption. reflexivity.
Qed.

Lemma plain_absent c s :
  c = "/"%char \/ c = "("%char -> plain s = true -> all (isNot c) s = true.
Proof.
  intros Hc. apply all_impl. intros d Hd. apply plain_not in Hd as (_ & _ & ? & ?).
  unfold isNot. rewrite bool_decide_eq_false_2; [reflexivity|].
  destruct Hc as [-> | ->]; assumption.
Qed.

Lemma sheet_absent c rules trailing :
  c = "/"%char \/ c = "("%char ->
  Forall (fun r => plain r.1 = true /\ plain r.2 = true) rules ->
  plain trailing = true ->
  all (isNot c) (sheetText rules trailing) = true.
Proof.
  intros Hc Hr Ht. induction Hr as [|r rules [H1 H2] _ IH]; simpl.
  - apply plain_absent; assumption.
  - unfold ruleText. rewrite !all_app.
    rewrite (plain_absent c _ Hc H1), (plain_absent c _ Hc H2), IH.
    destruct Hc as [-> | ->]; reflexivity.
Qed.

Lemma removeAll_absent m c :
  (forall t, all (isNot c) t = true -> m t = None) ->
  forall s, all (isNot c) s = true -> removeAll m s = s.
Proof.
  intros Hm. induction s as [|d s IH]; intros H; [reflexivity|].
  rewrite removeAll_cons_none by (apply Hm, H).
  simpl in H. apply andb_true_iff in H as [_ H]. rewrite (IH H). reflexivity.
Qed.

Lemma comment_absent t : all (isNot "/") t = true -> comment t = None.
Proof.
  destruct t as [|c t]; [reflexivity|]. simpl. intros H.
  apply andb_true_iff in H as [H _]. unfold isNot in H.
  apply negb_true_iff, bool_decide_eq_false in H.
  unfold comment. simpl. rewrite bool_decide_eq_false_2 by congruence. reflexivity.
Qed.

Lemma url_absent t : all (isNot "(") t = true -> url t = None.
Proof.
  intros H. unfold url. destruct (startsWith_nocase t "url"); [|reflexivity].
  cbv zeta.
  match goal with
  | |- (if startsWith (slice t ?n) _ then _ else _) = _ =>
      pose proof (all_slice _ t n H) as Hs; destruct (slice t n) as [|c r]
  end; [reflexivity|].
  simpl in Hs. apply andb_true_iff in Hs as [Hs _]. unfold isNot in Hs.
  apply negb_true_iff, bool_decide_eq_false in Hs.
  simpl. rewrite bool_decide_eq_false_2 by congruence. reflexivity.
Qed.

Lemma cutAll_sheet rules trailing :
  Forall (fun r => plain r.1 = true /\ plain r.2 = true) rules ->
  plain trailing = true ->
  forall st, depth st = 0%Z -> currentSelector st = EmptyString ->
    cutAll st (sheetText rules trailing)
    = {| selectorBlocks := selectorBlocks st ++ map fst rules; depth := 0;
         currentSelector := trailing |}.
Proof.
  intros Hr Ht. induction Hr as [|r rules [H1 H2] _ IH]; intros st Hd Hc; simpl.
  - rewrite (cutAll_top trailing (plain_braceFree _ Ht) st Hd), Hc, app_nil_r.
    reflexivity.
  - rewrite cutAll_app. unfold ruleText.
    rewrite (cutAll_rule r.1 r.2 st (plain_braceFree _ H1) (plain_braceFree _ H2) Hd).
    rewrite IH by reflexivity. simpl. rewrite Hc, <- app_assoc. reflexivity.
Qed.

(** The selector text of such a stylesheet: the selector texts of its
    rules, joined. *)
Lemma selectorTextOf_sheet rules trailing :
  Forall (fun r => plain r.1 = true /\ plain r.2 = true) rules ->
  plain trailing = true ->
  selectorTextOf (sheetText rules trailing) = join " " (map fst rules).
Proof.
  intros Hr Ht. unfold selectorTextOf. cbv zeta.
  rewrite (removeAll_absent comment "/" comment_absent)
    by (apply sheet_absent; auto).
  rewrite (removeAll_absent url "(" url_absent) by (apply sheet_absent; auto).
  rewrite (cutAll_sheet rules trailing Hr Ht) by reflexivity. reflexivity.
Qed.

End SelectorMore.

(* ===================================================================== *)
(** * Further properties of JavaScriptAnalyzer and InMemoryAnalyzer *)
(* ===================================================================== *)

Module OrchestratorMore.
Import Js JsFacts InMemoryAnalyzer OrchestratorFacts ValidatorFacts Shapes.

Lemma js_fields acorn (file : FileInput) (i : CodeIssue) :
  i ∈ JavaScriptAnalyzer.analyze acorn file ->
  filePath i = path file /\ severity i = error /\ source i = "acorn".
Proof.
  unfold JavaScriptAnalyzer.analyze.
  destruct (acorn (content file)) as [[msg loc|msg|]|]; intros H;
    try (apply not_elem_of_nil in H; contradiction);
    apply list_elem_of_singleton in H; subst i; auto.
Qed.

(** The extension of a path that ends in a dot and dot-free text. *)
Lemma getExtension_suffix base t :
  all (isNot ".") t = true ->
  getExtension (base +:+ String "." t) = String "." (toLowerCase t).
Proof.
  intros H. unfold getExtension, lastIndexOf.
  rewrite lastIndexOf_last; [|lia|exact H].
  rewrite bool_decide_eq_false_2 by lia.
  replace (Z.to_nat (0 + Z.of_nat (String.length base))) with (String.length base) by lia.
  rewrite slice_app. reflexivity.
Qed.

(** What the validator takes for a stylesheet has the extension of one. *)
Lemma stylesheet_extension file :
  HTMLCSSCrossValidator.isStylesheet file = true -> getExtension (path file) = ".css".
Proof.
  unfold HTMLCSSCrossValidator.isStylesheet. intros H.
  apply endsWith_spec in H as [base ->]. apply (getExtension_suffix base "css"). reflexivity.
Qed.

Lemma markup_extension file :
  HTMLCSSCrossValidator.isMarkup file = true ->
  getExtension (path file) = ".html" \/ getExtension (path file) = ".htm".
Proof.
  unfold HTMLCSSCrossValidator.isMarkup. intros H.
  apply orb_true_iff in H as [H|H]; apply endsWith_spec in H as [base ->].
  - left. apply (getExtension_suffix base "html"). reflexivity.
  - right. apply (getExtension_suffix base "htm"). reflexivity.
Qed.

Lemma lower_char_is_dot d : bool_decide (lower_char d = "."%char) = bool_decide (d = "."%char).
Proof.
  apply bool_decide_ext. split; [apply lower_char_dot|intros ->; reflexivity].
Qed.

Lemma lastIndexOf_nocase s :
  forall i, lastIndexOf_from i (toLowerCase s) "." = lastIndexOf_from i s ".".
Proof.
  induction s as [|c s IH]; intros i; simpl; [reflexivity|].
  rewrite IH, lower_char_is_dot. reflexivity.
Qed.

Lemma slice_toLowerCase s : forall n, slice (toLowerCase s) n = toLowerCase (slice s n).
Proof.
  induction s as [|c s IH]; intros [|n]; simpl; try reflexivity. apply IH.
Qed.

(** The extension does not depend on the case of the path. *)
Lemma getExtension_nocase name : getExtension (toLowerCase name) = getExtension name.
Proof.
  unfold getExtension, lastIndexOf. rewrite lastIndexOf_nocase.
  case_bool_decide; [reflexivity|].
  rewrite slice_toLowerCase, toLowerCase_idemp. reflexivity.
Qed.

Section WithParsers.
Variable acorn : Acorn.Parse.
Variable htmlparser2 : HtmlParser2.Parser.

(** The dispatch, by extension. *)
Lemma analyzeOne_by_extension file :
  analyzeOne acorn htmlparser2 file
  = if bool_decide (getExtension (path file) ∈ JavaScriptAnalyzer.supportedExtensions)
    then JavaScriptAnalyzer.analyze acorn file
    else if bool_decide (getExtension (path file) ∈ HTMLAnalyzer.supportedExtensions)
    then HTMLAnalyzer.analyze htmlparser2 file
    else if bool_decide (getExtension (path file) ∈ CSSAnalyzer.supportedExtensions)
    then CSSAnalyzer.analyze file
    else [].
Proof.
  unfold analyzeOne, getAnalyzerForFile, analyzers. cbv zeta. simpl List.find.
  repeat case_bool_decide; reflexivity.
Qed.

Lemma analyzeOne_stylesheet file :
  HTMLCSSCrossValidator.isStylesheet file = true ->
  analyzeOne acorn htmlparser2 file = CSSAnalyzer.analyze file.
Proof.
  intros H. rewrite analyzeOne_by_extension, (stylesheet_extension file H). reflexivity.
Qed.

Lemma analyzeOne_markup file :
  HTMLCSSCrossValidator.isMarkup file = true ->
  analyzeOne acorn htmlparser2 file = HTMLAnalyzer.analyze htmlparser2 file.
Proof.
  intros H. rewrite analyzeOne_by_extension.
  destruct (markup_extension file H) as [-> | ->]; reflexivity.
Qed.

Lemma analyzeOne_fields file i :
  i ∈ analyzeOne acorn htmlparser2 file ->
  filePath i = path file /\ severity i = error.
Proof.
  rewrite analyzeOne_by_extension. repeat case_bool_decide; intros Hi.
  - apply js_fields in Hi as (? & ? & _). auto.
  - apply HTMLMore.markup_fields in Hi as ((? & ? & _) & _). auto.
  - apply CSSMore.stylesheet_fields in Hi as (? & ? & _). auto.
  - apply not_elem_of_nil in Hi. contradiction.
Qed.

Lemma count_app s (l1 l2 : list CodeIssue) :
  count s (l1 ++ l2) = count s l1 + count s l2.
Proof. unfold count. rewrite filter_app, length_app. reflexivity. Qed.

Lemma count_all s (l : list CodeIssue) :
  Forall (fun i => severity i = s) l -> count s l = length l.
Proof. intros H. unfold count. rewrite filter_all by exact H. reflexivity. Qed.

Lemma count_none s (l : list CodeIssue) :
  Forall (fun i => severity i <> s) l -> count s l = 0.
Proof. intros H. unfold count. rewrite filter_none by exact H. reflexivity. Qed.

Lemma single_file_errors files :
  Forall (fun i => severity i = error) (flat_map (analyzeOne acorn htmlparser2) files).
Proof.
  apply Forall_forall. intros i H.
  apply in_flat_map_elem in H as (file & _ & H).
  apply analyzeOne_fields in H as [_ H]. exact H.
Qed.

Lemma validator_warnings files :
  Forall (fun i => severity i = warning)
         (HTMLCSSCrossValidator.validate htmlparser2 files).
Proof.
  apply Forall_forall. intros i H.
  apply ValidatorMore.validate_fields in H as ((? & _) & _). assumption.
Qed.

(** The shape of the response and the tallies of its summary. *)
Lemma response_shape files :
  let r := analyze acorn htmlparser2 files in
  success r = true
  /\ issues (typecheck r) = []
  /\ summary (typecheck r) = {| errorCount := 0; warningCount := 0; infoCount := 0 |}
  /\ issues (lint r)
     = flat_map (analyzeOne acorn htmlparser2) files
       ++ HTMLCSSCrossValidator.validate htmlparser2 files
  /\ errorCount (summary (lint r)) = ResponseSpec.tally error (issues (lint r))
  /\ warningCount (summary (lint r)) = ResponseSpec.tally warning (issues (lint r))
  /\ infoCount (summary (lint r)) = ResponseSpec.tally info (issues (lint r))
  /\ errorCount (summary (lint r)) + warningCount (summary (lint r))
     + infoCount (summary (lint r)) = length (issues (lint r)).
Proof.
  unfold analyze. simpl. rewrite app_nil_r.
  rewrite !count_tally.
  repeat split. apply tally_total.
Qed.
End WithParsers.

End OrchestratorMore.

(* ===================================================================== *)
(** * The merges by push with a spread argument *)
(* ===================================================================== *)

Module SpreadFacts.
Import Js JsFacts Spread.

(** ** A text of closing braces *)

Lemma split_strayBraces n : split LF (strayBraces n) = [strayBraces n].
Proof.
  induction n as [|n IH]; [reflexivity|].
  cbn [strayBraces]. rewrite split_cons, IH. reflexivity.
Qed.

(** Every closing brace of such a line is reported, and the scan stays in
    its initial state. *)
Lemma scan_strayBraces name ln n :
  forall i prev,
    forChars (CSSAnalyzer.loopBody name ln) i prev (strayBraces n) CSSAnalyzer.initial
    = (CSSAnalyzer.initial, map (CSSAnalyzer.unexpectedBrace name ln) (seq i n)).
Proof.
  induction n as [|n IH]; intros i prev; [reflexivity|].
  cbn [strayBraces]. rewrite forChars_cons.
  rewrite (CSSFacts.loopBody_unexpected name ln i prev _ CSSAnalyzer.initial)
    by (simpl; (lia || reflexivity)).
  change {| CSSAnalyzer.braceCount := 0; CSSAnalyzer.inString := false;
            CSSAnalyzer.stringChar := CSSAnalyzer.stringChar CSSAnalyzer.initial;
            CSSAnalyzer.inComment := false |} with CSSAnalyzer.initial.
  rewrite IH. reflexivity.
Qed.

(** The stylesheet analyzer reports each of them. *)
Lemma analyze_strayBraces name n :
  CSSAnalyzer.analyze {| path := name; content := strayBraces n |}
  = map (CSSAnalyzer.unexpectedBrace name 0) (seq 0 n).
Proof.
  unfold CSSAnalyzer.analyze. cbn [path content].
  rewrite split_strayBraces, CSSFacts.scanLines_cons.
  unfold CSSAnalyzer.scanLine. rewrite scan_strayBraces. simpl.
  rewrite !app_nil_r. reflexivity.
Qed.

(** ** The loops *)

Section WithLimit.
Variable limit : nat.
Variable acorn : Acorn.Parse.
Variable htmlparser2 : HtmlParser2.Parser.

(** The loop over the files that merges the issues of each. *)
Lemma single_file_loop files :
  forall allIssues,
    forOf (fun allIssues file =>
             match InMemoryAnalyzer.getAnalyzerForFile acorn htmlparser2 (path file) with
             | Some analyzer => push limit allIssues (analyzeFile analyzer file)
             | None => Returned allIssues
             end)
          allIssues files
    = if forallb (fun file =>
                    bool_decide
                      (length (InMemoryAnalyzer.analyzeOne acorn htmlparser2 file)
                       <= limit))
                 files
      then Returned (allIssues
                     ++ flat_map (InMemoryAnalyzer.analyzeOne acorn htmlparser2) files)
      else Threw RangeError.
Proof.
  induction files as [|file files IH]; intros allIssues.
  - simpl. rewrite app_nil_r. reflexivity.
  - cbn [forOf forallb flat_map].
    assert (InMemoryAnalyzer.analyzeOne acorn htmlparser2 file
            = match InMemoryAnalyzer.getAnalyzerForFile acorn htmlparser2 (path file) with
              | Some analyzer => analyzeFile analyzer file
              | None => []
              end) as Hone by reflexivity.
    destruct (InMemoryAnalyzer.getAnalyzerForFile acorn htmlparser2 (path file))
      as [analyzer|]; rewrite Hone.
    + unfold push. case_bool_decide; cbn [bind andb]; [|reflexivity].
      rewrite IH, <- app_assoc. reflexivity.
    + rewrite bool_decide_eq_true_2 by (simpl; lia). cbn [bind andb app].
      apply IH.
Qed.

(** The loop over the files that merges the usages of each markup file. *)
Lemma usage_loop files :
  forall usedSelectors,
    forOf (fun usedSelectors file =>
             if HTMLCSSCrossValidator.isMarkup file
             then push limit usedSelectors
                    (HTMLCSSCrossValidator.extractHTMLUsage htmlparser2 file)
             else Returned usedSelectors)
          usedSelectors files
    = if forallb (fun file =>
                    negb (HTMLCSSCrossValidator.isMarkup file)
                    || bool_decide
                         (length (HTMLCSSCrossValidator.extractHTMLUsage htmlparser2 file)
                          <= limit))
                 files
      then Returned
             (usedSelectors
              ++ flat_map (fun file =>
                             if HTMLCSSCrossValidator.isMarkup file
                             then HTMLCSSCrossValidator.extractHTMLUsage htmlparser2 file
                             else [])
                          files)
      else Threw RangeError.
Proof.
  induction files as [|file files IH]; intros usedSelectors.
  - simpl. rewrite app_nil_r. reflexivity.
  - cbn [forOf forallb flat_map].
    destruct (HTMLCSSCrossValidator.isMarkup file); cbn [negb orb].
    + unfold push. case_bool_decide; cbn [bind andb]; [|reflexivity].
      rewrite IH, <- app_assoc. reflexivity.
    + cbn [bind andb app]. apply IH.
Qed.

(** The validator throws exactly when the usages of some markup file are
    past the limit. *)
Lemma validate_fits files :
  validate limit htmlparser2 files
  = if forallb (fun file =>
                  negb (HTMLCSSCrossValidator.isMarkup file)
                  || bool_decide
                       (length (HTMLCSSCrossValidator.extractHTMLUsage htmlparser2 file)
                        <= limit))
               files
    then Returned (HTMLCSSCrossValidator.validate htmlparser2 files)
    else Threw RangeError.
Proof.
  unfold validate. cbv zeta. rewrite usage_loop.
  destruct (forallb _ files); reflexivity.
Qed.

(** The call throws exactly when some merge is past the limit, and
    otherwise returns the response of [InMemoryAnalyzer.analyze]. *)
Lemma analyze_fits files :
  analyze limit acorn htmlparser2 files
  = if fits limit acorn htmlparser2 files
    then Returned (InMemoryAnalyzer.analyze acorn htmlparser2 files)
    else Threw RangeError.
Proof.
  unfold analyze, fits, crossValidators. rewrite single_file_loop.
  destruct (forallb _ files); cbn [bind andb forOf]; [|reflexivity].
  rewrite validate_fits.
  destruct (forallb _ files); cbn [bind andb]; [|reflexivity].
  unfold push. case_bool_decide; cbn [bind]; [|reflexivity].
  unfold InMemoryAnalyzer.analyze, InMemoryAnalyzer.crossValidators.
  cbn [flat_map app]. rewrite app_nil_r. reflexivity.
Qed.

(** One stylesheet with more stray closing braces than the limit. *)
Lemma strayBraces_past_limit :
  fits limit acorn htmlparser2
    [ {| path := "c.css"; content := strayBraces (S limit) |} ] = false.
Proof.
  unfold fits. cbn [forallb].
  rewrite (OrchestratorMore.analyzeOne_stylesheet acorn htmlparser2) by reflexivity.
  rewrite analyze_strayBraces, length_map, length_seq.
  rewrite bool_decide_eq_false_2 by lia. reflexivity.
Qed.
End WithLimit.

End SpreadFacts.

(* ===================================================================== *)
(** * The properties of the specification *)
(* ===================================================================== *)

Section RuleIds.
Import ResponseSpec.
Variable acorn : Acorn.Parse.
Variable htmlparser2 : HtmlParser2.Parser.

Lemma analyzeOne_rules file i :
  i ∈ InMemoryAnalyzer.analyzeOne acorn htmlparser2 file -> ruleId i ∈ producedRuleIds.
Proof.
  unfold InMemoryAnalyzer.analyzeOne, InMemoryAnalyzer.getAnalyzerForFile.
  destruct (List.find _ _) as [a|] eqn:E;
    [|intros H; apply not_elem_of_nil in H; contradiction].
  apply find_some in E as [E _]. simpl in E.
  destruct E as [<-|[<-|[<-|[]]]]; simpl.
  - apply OrchestratorFacts.js_rules.
  - apply OrchestratorFacts.html_rules.
  - apply OrchestratorFacts.css_rules.
Qed.

Lemma merged_rules files i :
  i ∈ issues (lint (InMemoryAnalyzer.analyze acorn htmlparser2 files)) ->
  ruleId i ∈ producedRuleIds.
Proof.
  unfold InMemoryAnalyzer.analyze. simpl. rewrite app_nil_r, elem_of_app.
  intros [H|H].
  - apply ValidatorFacts.in_flat_map_elem in H as (file & _ & H).
    eapply analyzeOne_rules, H.
  - eapply OrchestratorFacts.validate_produced, H.
Qed.
End RuleIds.

(** C1, as the specification states it, fails: the stylesheet analyzer
    reports a stray closing brace under the rule id CSS_UNEXPECTED_BRACE,
    which is not one of the twelve strings of the specification's taxonomy. *)
Lemma C1_rule_ids_counterexample :
  exists i,
    i ∈ CSSAnalyzer.analyze {| path := "c.css"; content := "}" |}
    /\ ruleId i ∉ ResponseSpec.specifiedRuleIds.
Proof.
  exists (CSSAnalyzer.unexpectedBrace "c.css" 0 0). split.
  - apply list_elem_of_In. vm_compute. left. reflexivity.
  - apply (bool_decide_eq_false_1 _). reflexivity.
Qed.

(** C1, amended: every issue produced by the stylesheet analyzer, the markup
    analyzer, the script analyzer or the cross-file validator, and so every
    issue of the merged response, carries one of the twelve rule ids the
    sources write (CSS_UNEXPECTED_BRACE, CSS_UNCLOSED_BRACE,
    CSS_UNCLOSED_COMMENT, CSS_UNCLOSED_STRING, HTML_UNEXPECTED_CLOSE,
    HTML_TAG_MISMATCH, HTML_UNCLOSED_TAG, HTML_PARSE_ERROR, JS_SYNTAX_ERROR,
    JS_PARSE_ERROR, CSS_CLASS_UNDEFINED, CSS_ID_UNDEFINED). *)
Theorem C1_rule_ids_produced
    (acorn : Acorn.Parse) (htmlparser2 : HtmlParser2.Parser)
    (files : list FileInput) (file : FileInput) (i : CodeIssue) :
  i ∈ CSSAnalyzer.analyze file
  \/ i ∈ HTMLAnalyzer.analyze htmlparser2 file
  \/ i ∈ JavaScriptAnalyzer.analyze acorn file
  \/ i ∈ HTMLCSSCrossValidator.validate htmlparser2 files
  \/ i ∈ issues (lint (InMemoryAnalyzer.analyze acorn htmlparser2 files)) ->
  ruleId i ∈ ResponseSpec.producedRuleIds.
Proof.
  intros [H|[H|[H|[H|H]]]].
  - eapply OrchestratorFacts.css_rules, H.
  - eapply OrchestratorFacts.html_rules, H.
  - eapply OrchestratorFacts.js_rules, H.
  - eapply OrchestratorFacts.validate_produced, H.
  - eapply merged_rules, H.
Qed.

Lemma C1_rule_ids_produced_witness :
  ruleId (HTMLAnalyzer.parseError "e.htm" "parser failed") ∈ ResponseSpec.producedRuleIds.
Proof.
  apply (C1_rule_ids_produced Samples.acorn Samples.htmlparser2 Samples.batch
           {| path := "e.htm"; content := Samples.broken |}).
  right. right. right. right.
  apply list_elem_of_In. vm_compute. tauto.
Defined.

(** C2: [analyze] does not return a response for every list of files. It
    merges the issues of each file, and then those of the validator, by a
    push with a spread argument, outside any try: on a stylesheet that holds
    more stray closing braces than one call may take arguments, the
    stylesheet analyzer reports each of them, the merge throws a RangeError
    and the promise of [analyze] is rejected. On every list of files the
    call throws exactly when one of its merges is past that number, and
    otherwise returns the response of [InMemoryAnalyzer.analyze]: its
    success field is true, its typecheck block has no issue and an all-zero
    summary, its lint issues are the issues of the single-file analyses
    followed by those of the validator, and each count of the lint summary
    is the tally of that severity over the lint issues. *)
Theorem C2_spread_push_raises
    (limit : nat) (acorn : Acorn.Parse) (htmlparser2 : HtmlParser2.Parser) :
  Spread.analyze limit acorn htmlparser2
    [ {| path := "c.css"; content := Spread.strayBraces (S limit) |} ]
  = Spread.Threw Spread.RangeError
  /\ forall files : list FileInput,
       Spread.analyze limit acorn htmlparser2 files
       = (if Spread.fits limit acorn htmlparser2 files
          then Spread.Returned (InMemoryAnalyzer.analyze acorn htmlparser2 files)
          else Spread.Threw Spread.RangeError)
       /\ let r := InMemoryAnalyzer.analyze acorn htmlparser2 files in
          success r = true
          /\ issues (typecheck r) = []
          /\ summary (typecheck r)
             = {| errorCount := 0; warningCount := 0; infoCount := 0 |}
          /\ issues (lint r)
             = flat_map (InMemoryAnalyzer.analyzeOne acorn htmlparser2) files
               ++ HTMLCSSCrossValidator.validate htmlparser2 files
          /\ errorCount (summary (lint r)) = ResponseSpec.tally error (issues (lint r))
          /\ warningCount (summary (lint r))
             = ResponseSpec.tally warning (issues (lint r))
          /\ infoCount (summary (lint r)) = ResponseSpec.tally info (issues (lint r))
          /\ errorCount (summary (lint r)) + warningCount (summary (lint r))
             + infoCount (summary (lint r)) = length (issues (lint r)).
Proof.
  split.
  - rewrite SpreadFacts.analyze_fits, SpreadFacts.strayBraces_past_limit.
    reflexivity.
  - intros files. split.
    + apply SpreadFacts.analyze_fits.
    + apply OrchestratorMore.response_shape.
Qed.

(** C3: in the stylesheet analyzer a closing brace met outside strings and
    comments at depth 0 produces exactly one unexpected-closing-brace error
    at that character's line and column and leaves the depth at 0; so a
    stray closing brace between two texts [a] and [b] whose braces are
    balanced (outside strings and comments, which they may contain) yields
    exactly that one error and no other issue. The error stands where [a]
    ends: on the last of the lines of [a], at the column that is the length
    of that line. *)
Theorem C3_unexpected_closing_brace :
  (forall name lineNum i prev next st,
      CSSAnalyzer.braceCount st = 0%Z ->
      CSSAnalyzer.inString st = false -> CSSAnalyzer.inComment st = false ->
      CSSAnalyzer.loopBody name lineNum i prev "}" next st
      = (false,
         {| CSSAnalyzer.braceCount := 0; CSSAnalyzer.inString := false;
            CSSAnalyzer.stringChar := CSSAnalyzer.stringChar st;
            CSSAnalyzer.inComment := false |},
         [CSSAnalyzer.unexpectedBrace name lineNum i]))
  /\ (forall name a b,
         StylesheetSpec.wellNested a -> StylesheetSpec.wellNested b ->
         CSSAnalyzer.analyze {| path := name; content := a +:+ String "}" b |}
         = [CSSAnalyzer.unexpectedBrace name (length (Js.split Js.LF a) - 1)
              (String.length (CSSText.lastLine a))]
         /\ line (CSSAnalyzer.unexpectedBrace name (length (Js.split Js.LF a) - 1)
                    (String.length (CSSText.lastLine a)))
            = Js.countNewlines a + 1).
Proof.
  split.
  - intros name lineNum i prev next st Hb Hs Hc.
    apply CSSFacts.loopBody_unexpected; [lia|assumption..].
  - intros name a b Ha Hb. split.
    + apply CSSFacts.analyze_stray_close;
        apply CSSFacts.analyze_nil_wellNested; assumption.
    + simpl. rewrite JsFacts.length_split. lia.
Qed.

Lemma C3_unexpected_closing_brace_witness :
  CSSAnalyzer.analyze
    {| path := "a.css";
       content := ("/* } */ .x" +:+ String Js.LF " ") +:+ String "}" ".a{ .b{ '}' } }" |}
  = [CSSAnalyzer.unexpectedBrace "a.css" 1 1].
Proof.
  apply (proj2 C3_unexpected_closing_brace "a.css"
           ("/* } */ .x" +:+ String Js.LF " ") ".a{ .b{ '}' } }");
    repeat split; vm_compute; reflexivity.
Defined.

(** C4 fails on the code: the comment above [classRegex] says that a class
    name may start with a letter, an underscore or a hyphen, but the pattern
    begins with [[a-zA-Z_]]. For the stylesheet [.-foo{color:red}] no class
    is collected, and a hyphen is not a character a collected name can
    start with ([ValidatorFacts.class_names_start]). *)
Theorem C4_hyphen_class_not_collected :
  HTMLCSSCrossValidator.classes
    (HTMLCSSCrossValidator.extractCSSDefinitions ".-foo{color:red}"
       HTMLCSSCrossValidator.noDefinitions) = ∅
  /\ Regex.nameStart "-" = false.
Proof. split; vm_compute; reflexivity. Qed.

(** C5, as the specification states it, fails on two counts. The text
    [}{{] has one more opening than closing brace, yet the unclosed-brace
    error reports 2: the stray closing brace was reported on its own and did
    not lower the depth. And no text makes all three end-of-file checks
    fire: the analyzer is never inside a comment and inside a string at
    once, so the unclosed-comment and the unclosed-string errors exclude
    each other. *)
Lemma C5_unclosed_brace_counterexample :
  ((StylesheetSpec.opened (StylesheetSpec.braces "}{{")
    - StylesheetSpec.closed (StylesheetSpec.braces "}{{") = 1)%Z
   /\ withRule "CSS_UNCLOSED_BRACE"
        (CSSAnalyzer.analyze {| path := "a.css"; content := "}{{" |})
      = [CSSAnalyzer.unclosedBrace "a.css" 2 1]
   /\ message (CSSAnalyzer.unclosedBrace "a.css" 2 1)
      = "Unclosed brace: 2 opening brace(s) without matching close")
  /\ (forall name text,
         withRule "CSS_UNCLOSED_COMMENT"
           (CSSAnalyzer.analyze {| path := name; content := text |}) = []
         \/ withRule "CSS_UNCLOSED_STRING"
              (CSSAnalyzer.analyze {| path := name; content := text |}) = []).
Proof.
  split; [repeat split; vm_compute; reflexivity|].
  intros name text.
  rewrite CSSFacts.withRule_comment, CSSFacts.withRule_string. simpl.
  pose proof (CSSFacts.not_comment_and_string name text) as H.
  destruct (CSSAnalyzer.inComment _); [|auto].
  destruct (CSSAnalyzer.inString _); [|auto]. exfalso. auto.
Qed.

(** C5, amended: for every stylesheet text the analyzer emits an
    unclosed-brace error exactly when the nesting depth left at the end of
    the text is positive, and then exactly one, reporting that depth and
    positioned at the last line. The depth is the one rule 7 gives for the
    braces outside strings and comments: the opening braces minus the
    closing ones, plus one for every closing brace that was reported as
    unexpected. The unclosed-comment error is emitted exactly when the text
    ends inside a comment and the unclosed-string error exactly when it ends
    inside a string; each of the two may come with the unclosed-brace error,
    never with the other. *)
Theorem C5_unclosed_brace_report (name text : string) :
  let found := CSSAnalyzer.analyze {| path := name; content := text |} in
  let braces := StylesheetSpec.braces text in
  let depth := StylesheetSpec.depthAfter braces in
  let nlines := length (Js.split Js.LF text) in
  withRule "CSS_UNCLOSED_BRACE" found
  = (if bool_decide (0 < depth)%Z
     then [CSSAnalyzer.unclosedBrace name depth nlines] else [])
  /\ depth = (StylesheetSpec.opened braces - StylesheetSpec.closed braces
              + Z.of_nat (length (withRule "CSS_UNEXPECTED_BRACE" found)))%Z
  /\ withRule "CSS_UNCLOSED_COMMENT" found
     = (if StylesheetSpec.isComment (StylesheetSpec.finalMode text)
        then [CSSAnalyzer.unclosedComment name nlines] else [])
  /\ withRule "CSS_UNCLOSED_STRING" found
     = (if StylesheetSpec.isQuoted (StylesheetSpec.finalMode text)
        then [CSSAnalyzer.unclosedString name nlines] else [])
  /\ (withRule "CSS_UNCLOSED_COMMENT" found = []
      \/ withRule "CSS_UNCLOSED_STRING" found = []).
Proof.
  cbv zeta.
  rewrite CSSFacts.withRule_unclosed, CSSFacts.withRule_unexpected,
    CSSFacts.withRule_comment, CSSFacts.withRule_string.
  cbv zeta. simpl path. simpl content.
  destruct (CSSFacts.scanText_lex name text) as (_ & _ & Hf).
  destruct (CSSFacts.final_flags name text) as [-> ->].
  destruct (CSSFacts.nest_arith (StylesheetSpec.braces text)) as [_ Ha].
  assert (StylesheetSpec.depthAfter (StylesheetSpec.braces text)
          = CSSAnalyzer.braceCount (CSSText.scan (CSSText.scanText name text).1)) as Hd.
  { unfold StylesheetSpec.depthAfter. rewrite Hf. reflexivity. }
  assert (StylesheetSpec.unexpectedIn (StylesheetSpec.braces text)
          = length (CSSText.scanText name text).2) as Hu.
  { unfold StylesheetSpec.unexpectedIn. rewrite Hf. reflexivity. }
  rewrite <- Hd, <- Hu. repeat split; [exact Ha|].
  destruct (StylesheetSpec.finalMode text); simpl; auto.
Qed.

(** C6: in the markup analyzer, after any sequence of events, a close-tag
    event for a non-void element whose name differs, case-insensitively,
    from the name of the top frame of a non-empty stack appends exactly one
    mismatched-closing-tag error, whose message names the expected tag and
    the tag found, and leaves the stack of open elements and the line
    counter as they were. *)
Theorem C6_mismatched_close_keeps_stack
    (name tag : string) (evs : list HtmlParser2.TagEvent) (top : HTMLAnalyzer.TagFrame) :
  let st := foldl (HTMLAnalyzer.handle name) HTMLAnalyzer.initial evs in
  Js.toLowerCase tag ∉ HTMLAnalyzer.selfClosingTags ->
  last (HTMLAnalyzer.tagStack st) = Some top ->
  Js.toLowerCase tag <> Js.toLowerCase (HTMLAnalyzer.name top) ->
  HTMLAnalyzer.onclosetag name tag st
  = {| HTMLAnalyzer.found :=
         HTMLAnalyzer.found st
         ++ [HTMLAnalyzer.tagMismatch name (HTMLAnalyzer.name top) tag
               (HTMLAnalyzer.currentLine st)];
       HTMLAnalyzer.tagStack := HTMLAnalyzer.tagStack st;
       HTMLAnalyzer.currentLine := HTMLAnalyzer.currentLine st |}
  /\ message (HTMLAnalyzer.tagMismatch name (HTMLAnalyzer.name top) tag
                (HTMLAnalyzer.currentLine st))
     = "Mismatched closing tag: expected </" +:+ HTMLAnalyzer.name top
       +:+ ">, found </" +:+ tag +:+ ">".
Proof.
  intros st Hvoid Htop Hne. split; [|reflexivity].
  apply HTMLFacts.onclosetag_mismatch; [assumption..|].
  pose proof (HTMLFacts.run_lowered name evs HTMLAnalyzer.initial
                HTMLFacts.initial_lowered) as Hl.
  fold st in Hl. unfold HTMLRun.lowered in Hl.
  apply last_Some in Htop as [l' Hst]. rewrite Hst in Hl.
  apply Forall_app in Hl as [_ Hl]. inversion Hl as [|? ? Htopl _]; subst.
  congruence.
Qed.

Lemma C6_mismatched_close_keeps_stack_witness :
  HTMLAnalyzer.onclosetag "a.html" "SPAN"
    (foldl (HTMLAnalyzer.handle "a.html") HTMLAnalyzer.initial
       [HtmlParser2.OpenTag "P" ∅; HtmlParser2.Text (String Js.LF "x");
        HtmlParser2.OpenTag "Div" ∅])
  = {| HTMLAnalyzer.found :=
         [HTMLAnalyzer.tagMismatch "a.html" "div" "SPAN" 2];
       HTMLAnalyzer.tagStack :=
         [ {| HTMLAnalyzer.name := "p"; HTMLAnalyzer.openedAt := 1 |};
           {| HTMLAnalyzer.name := "div"; HTMLAnalyzer.openedAt := 2 |} ];
       HTMLAnalyzer.currentLine := 2 |}.
Proof.
  refine (proj1 (C6_mismatched_close_keeps_stack "a.html" "SPAN"
                   [HtmlParser2.OpenTag "P" ∅; HtmlParser2.Text (String Js.LF "x");
                    HtmlParser2.OpenTag "Div" ∅]
                   {| HTMLAnalyzer.name := "div"; HTMLAnalyzer.openedAt := 2 |}
                   _ _ _)).
  - apply (bool_decide_eq_false_1 _). vm_compute. reflexivity.
  - vm_compute. reflexivity.
  - vm_compute. discriminate.
Defined.

(** C7: if the tag-event source throws an error during the markup analysis,
    the analyzer emits exactly one parse-error issue, carrying the error's
    message and positioned at line 1, after the issues found before the
    failure; and every frame that is on the stack of open elements at the
    failure is still reported as an unclosed tag at the line where it was
    opened: the frame was pushed by an open-tag event of the run, under the
    lowercased name of that tag, and its line is 1 plus the number of line
    feeds in the text events before that event. In particular the frame of
    a non-void open tag that no close-tag event follows before the failure
    is reported, at that line. *)
Theorem C7_parse_error_keeps_unclosed
    (htmlparser2 : HtmlParser2.Parser) (file : FileInput) (msg : string) :
  let run := htmlparser2 HTMLAnalyzer.options (content file) in
  let st := foldl (HTMLAnalyzer.handle (path file)) HTMLAnalyzer.initial
              (HtmlParser2.events run) in
  HtmlParser2.thrown run = Some (HtmlParser2.ErrorObject msg) ->
  HTMLAnalyzer.analyze htmlparser2 file
  = HTMLAnalyzer.found st
    ++ [HTMLAnalyzer.parseError (path file) msg]
    ++ map (HTMLAnalyzer.unclosedTag (path file)) (HTMLAnalyzer.tagStack st)
  /\ withRule "HTML_PARSE_ERROR" (HTMLAnalyzer.analyze htmlparser2 file)
     = [HTMLAnalyzer.parseError (path file) msg]
  /\ message (HTMLAnalyzer.parseError (path file) msg) = msg
  /\ line (HTMLAnalyzer.parseError (path file) msg) = 1
  /\ (forall frame,
         frame ∈ HTMLAnalyzer.tagStack st ->
         HTMLAnalyzer.unclosedTag (path file) frame
           ∈ HTMLAnalyzer.analyze htmlparser2 file
         /\ line (HTMLAnalyzer.unclosedTag (path file) frame)
            = HTMLAnalyzer.openedAt frame
         /\ exists before tag attribs after,
              HtmlParser2.events run
              = before ++ HtmlParser2.OpenTag tag attribs :: after
              /\ HTMLAnalyzer.name frame = Js.toLowerCase tag
              /\ HTMLAnalyzer.openedAt frame = 1 + Shapes.newlinesOf before)
  /\ (forall before tag attribs after,
         HtmlParser2.events run = before ++ HtmlParser2.OpenTag tag attribs :: after ->
         Js.toLowerCase tag ∉ HTMLAnalyzer.selfClosingTags ->
         HTMLRun.noClose after ->
         HTMLAnalyzer.unclosedTag (path file)
           {| HTMLAnalyzer.name := Js.toLowerCase tag;
              HTMLAnalyzer.openedAt := 1 + Shapes.newlinesOf before |}
           ∈ HTMLAnalyzer.analyze htmlparser2 file).
Proof.
  intros run st Hthrown.
  pose proof (HTMLFacts.analyze_caught htmlparser2 file msg Hthrown) as Han.
  fold run in Han. fold st in Han.
  assert (forall frame, frame ∈ HTMLAnalyzer.tagStack st ->
            HTMLAnalyzer.unclosedTag (path file) frame
              ∈ HTMLAnalyzer.analyze htmlparser2 file) as Hframe.
  { intros frame Hin. rewrite Han, !elem_of_app. right. right.
    apply list_elem_of_fmap. eauto. }
  split; [exact Han|]. split; [|split; [reflexivity|split; [reflexivity|split]]].
  - rewrite Han. unfold withRule. rewrite !filter_app.
    rewrite JsFacts.filter_none.
    2:{ eapply Forall_impl;
          [apply (HTMLFacts.run_found (path file) (HtmlParser2.events run)
                    HTMLAnalyzer.initial); constructor|].
        simpl. intros x [Hx|Hx] E; rewrite E in Hx; discriminate. }
    rewrite (JsFacts.filter_none _ (map _ _)).
    2:{ apply Forall_forall. intros x Hx E.
        apply list_elem_of_fmap in Hx as (f & -> & _). discriminate. }
    reflexivity.
  - intros frame Hin. split; [auto|]. split; [reflexivity|].
    pose proof (HTMLMore.run_frames (path file) (HtmlParser2.events run)) as Hall.
    rewrite Forall_forall in Hall.
    destruct (Hall frame Hin) as (before & tag & attribs & after & He & Hn & _ & Hl).
    exists before, tag, attribs, after. auto.
  - intros before tag attribs after Hev Hvoid Hnc. apply Hframe.
    unfold st. rewrite Hev, foldl_app. simpl.
    destruct (HTMLFacts.run_grows (path file) after
                (HTMLAnalyzer.onopentag tag
                   (foldl (HTMLAnalyzer.handle (path file)) HTMLAnalyzer.initial before))
                Hnc) as [more ->].
    unfold HTMLAnalyzer.onopentag. rewrite bool_decide_eq_false_2 by assumption.
    rewrite HTMLMore.run_line.
    simpl. rewrite !elem_of_app. left. right. apply list_elem_of_singleton. reflexivity.
Qed.

Lemma C7_parse_error_keeps_unclosed_witness :
  HTMLAnalyzer.analyze
    (fun _ _ =>
       {| HtmlParser2.events :=
            [ HtmlParser2.OpenTag "ul" ∅;
              HtmlParser2.Text (String Js.LF EmptyString);
              HtmlParser2.OpenTag "LI" ∅;
              HtmlParser2.Text ("a" +:+ String Js.LF "b");
              HtmlParser2.OpenTag "p" ∅;
              HtmlParser2.CloseTag "p";
              HtmlParser2.Text (String Js.LF EmptyString);
              HtmlParser2.OpenTag "b" ∅ ];
          HtmlParser2.thrown := Some (HtmlParser2.ErrorObject "parser failed") |})
    {| path := "e.htm";
       content := "<ul>" +:+ String Js.LF "<LI>a" +:+ String Js.LF "b<p></p>"
                  +:+ String Js.LF "<b>" |}
  = [ HTMLAnalyzer.parseError "e.htm" "parser failed";
      HTMLAnalyzer.unclosedTag "e.htm"
        {| HTMLAnalyzer.name := "ul"; HTMLAnalyzer.openedAt := 1 |};
      HTMLAnalyzer.unclosedTag "e.htm"
        {| HTMLAnalyzer.name := "li"; HTMLAnalyzer.openedAt := 2 |};
      HTMLAnalyzer.unclosedTag "e.htm"
        {| HTMLAnalyzer.name := "b"; HTMLAnalyzer.openedAt := 4 |} ].
Proof.
  refine (proj1 (C7_parse_error_keeps_unclosed _ _ "parser failed" _)).
  reflexivity.
Defined.



(** C9: a file whose path ends in an extension that lowercases to [.css]
    without being [.css] is dispatched by the orchestrator to the stylesheet
    analyzer, yet is neither a stylesheet nor markup for the validator: its
    definition-collection loop leaves the definition sets as they were, and
    the validator's result is the one of the batch without the file. *)
Theorem C9_uppercase_stylesheet_extension
    (acorn : Acorn.Parse) (htmlparser2 : HtmlParser2.Parser)
    (base ext text : string) :
  let file := {| path := base +:+ ext; content := text |} in
  Js.toLowerCase ext = ".css" -> ext <> ".css" ->
  InMemoryAnalyzer.getAnalyzerForFile acorn htmlparser2 (path file)
  = Some CSSAnalyzer.analyzer
  /\ InMemoryAnalyzer.analyzeOne acorn htmlparser2 file = CSSAnalyzer.analyze file
  /\ HTMLCSSCrossValidator.isStylesheet file = false
  /\ (forall defs, HTMLCSSCrossValidator.collect defs file = defs)
  /\ (forall before after,
         HTMLCSSCrossValidator.validate htmlparser2 (before ++ file :: after)
         = HTMLCSSCrossValidator.validate htmlparser2 (before ++ after)).
Proof.
  intros file Hext Hne.
  assert (HTMLCSSCrossValidator.isStylesheet file = false) as Hs.
  { apply OrchestratorFacts.not_stylesheet_suffix; assumption. }
  assert (HTMLCSSCrossValidator.isMarkup file = false) as Hm.
  { unfold HTMLCSSCrossValidator.isMarkup. simpl.
    destruct (OrchestratorFacts.not_markup_suffix base ext Hext) as [-> ->].
    reflexivity. }
  assert (InMemoryAnalyzer.getAnalyzerForFile acorn htmlparser2 (path file)
          = Some CSSAnalyzer.analyzer) as Hd.
  { unfold InMemoryAnalyzer.getAnalyzerForFile. simpl path.
    rewrite (OrchestratorFacts.getExtension_css base ext Hext). reflexivity. }
  split; [exact Hd|]. split; [|split; [exact Hs|split]].
  - unfold InMemoryAnalyzer.analyzeOne. rewrite Hd. reflexivity.
  - intros defs. unfold HTMLCSSCrossValidator.collect. rewrite Hs, Hm. reflexivity.
  - intros before after. apply ValidatorFacts.validate_skip; assumption.
Qed.

Lemma C9_uppercase_stylesheet_extension_witness :
  InMemoryAnalyzer.analyzeOne Samples.acorn Samples.htmlparser2
    {| path := "theme" +:+ ".CSS"; content := ".card{" |}
  = CSSAnalyzer.analyze {| path := "theme" +:+ ".CSS"; content := ".card{" |}
  /\ HTMLCSSCrossValidator.collect HTMLCSSCrossValidator.noDefinitions
       {| path := "theme" +:+ ".CSS"; content := ".card{" |}
     = HTMLCSSCrossValidator.noDefinitions.
Proof.
  destruct (C9_uppercase_stylesheet_extension Samples.acorn Samples.htmlparser2
              "theme" ".CSS" ".card{" eq_refl ltac:(discriminate))
    as (_ & H1 & _ & H2 & _).
  split; [exact H1 | exact (H2 HTMLCSSCrossValidator.noDefinitions)].
Defined.

(** C10: an open tag whose class attribute is empty or made of white space
    only contributes no class usage, and an open tag whose id attribute is
    the empty string contributes no id usage; and every warning of the
    validator stems from an open tag of a file of the batch whose class
    attribute is not blank (class-undefined) or whose id attribute is not
    empty (id-undefined). *)
Theorem C10_blank_attributes_unused :
  (forall name ln (attribs : gmap string string) value,
      attribs !! "class" = Some value -> Js.all Js.isSpace value = true ->
      HTMLCSSCrossValidator.classUsages name ln attribs = [])
  /\ (forall name ln (attribs : gmap string string),
         attribs !! "id" = Some EmptyString ->
         HTMLCSSCrossValidator.idUsages name ln attribs = [])
  /\ (forall (htmlparser2 : HtmlParser2.Parser) files i,
         i ∈ HTMLCSSCrossValidator.validate htmlparser2 files ->
         exists file tag (attribs : gmap string string),
           file ∈ files
           /\ HtmlParser2.OpenTag tag attribs
                ∈ HtmlParser2.events
                    (htmlparser2 HTMLCSSCrossValidator.options (content file))
           /\ ((ruleId i = "CSS_CLASS_UNDEFINED"
                /\ exists value, attribs !! "class" = Some value
                                 /\ Js.all Js.isSpace value = false)
               \/ (ruleId i = "CSS_ID_UNDEFINED"
                   /\ exists value, attribs !! "id" = Some value
                                    /\ value <> EmptyString))).
Proof.
  split; [exact ValidatorFacts.classUsages_blank|].
  split; [exact ValidatorFacts.idUsages_empty|].
  intros htmlparser2 files i Hi.
  apply ValidatorFacts.validate_elem in Hi as (file & u & Hf & _ & Hu & Hi).
  unfold HTMLCSSCrossValidator.extractHTMLUsage in Hu.
  apply ValidatorFacts.run_usage in Hu as [Hu|(tag & attribs & ln & Hev & Hu)];
    [apply not_elem_of_nil in Hu; contradiction|].
  exists file, tag, attribs. split; [assumption|]. split; [assumption|].
  apply ValidatorFacts.report_cases in Hi as [(-> & Ht & _)|(-> & Ht & _)].
  - left. split; [reflexivity|]. destruct Hu as [Hu|Hu].
    + apply ValidatorFacts.classUsages_elem in Hu as [_ Hv]. exact Hv.
    + apply ValidatorFacts.idUsages_elem in Hu as [Hid _]. congruence.
  - right. split; [reflexivity|]. destruct Hu as [Hu|Hu].
    + apply ValidatorFacts.classUsages_elem in Hu as [Hc _]. congruence.
    + apply ValidatorFacts.idUsages_elem in Hu as [_ Hv]. exact Hv.
Qed.

Lemma C10_blank_attributes_unused_witness :
  HTMLCSSCrossValidator.classUsages "a.html" 1
    {[ "class" := String " " (String Js.LF " "); "id" := EmptyString ]} = []
  /\ HTMLCSSCrossValidator.idUsages "a.html" 1
       {[ "class" := String " " (String Js.LF " "); "id" := EmptyString ]} = [].
Proof.
  split.
  - apply (proj1 C10_blank_attributes_unused "a.html" 1 _
             (String " " (String Js.LF " "))); vm_compute; reflexivity.
  - apply (proj1 (proj2 C10_blank_attributes_unused) "a.html" 1).
    vm_compute. reflexivity.
Defined.

(* ===================================================================== *)
(** * Further properties, read off the sources *)
(* ===================================================================== *)

(** X1: the stylesheet analyzer reports nothing exactly on the texts whose
    braces outside strings and comments are balanced and which end outside
    strings and comments. *)
Theorem X1_silent_iff_well_nested (name text : string) :
  CSSAnalyzer.analyze {| path := name; content := text |} = []
  <-> StylesheetSpec.wellNested text.
Proof. apply CSSFacts.analyze_nil_wellNested. Qed.

(** X2: every unexpected-closing-brace issue of the stylesheet analyzer
    points at a closing brace of the text: its line is a line of the text
    (1-based) and the character of that line at its column (0-based) is a
    closing brace. *)
Theorem X2_unexpected_brace_points_at_brace (file : FileInput) (i : CodeIssue) :
  i ∈ CSSAnalyzer.analyze file ->
  ruleId i = "CSS_UNEXPECTED_BRACE" ->
  1 <= line i
  /\ exists l,
       Js.split Js.LF (content file) !! (line i - 1) = Some l
       /\ Shapes.charAt (column i) l = Some "}"%char.
Proof.
  intros Hin Hrule.
  destruct (CSSMore.analyze_parts file) as (st & found & Hscan & Han).
  rewrite Han in Hin. apply elem_of_app in Hin as [Hin|Hin].
  - destruct (CSSMore.scanLines_emitted (path file) (Js.split Js.LF (content file))
                0 CSSAnalyzer.initial ltac:(simpl; lia)) as [_ Hall].
    rewrite Hscan in Hall. simpl in Hall. rewrite Forall_forall in Hall.
    destruct (Hall i Hin) as (j & l & k & Hj & Hk & ->). simpl.
    split; [lia|]. exists l. replace (j + 1 - 1) with j by lia. auto.
  - apply CSSFacts.endOfFile_rules in Hin. rewrite Hrule in Hin.
    destruct Hin as [?|[?|?]]; discriminate.
Qed.

Lemma X2_unexpected_brace_points_at_brace_witness :
  1 <= 2
  /\ exists l,
       Js.split Js.LF ("a{}" +:+ String Js.LF " }") !! (2 - 1) = Some l
       /\ Shapes.charAt 1 l = Some "}"%char.
Proof.
  apply (X2_unexpected_brace_points_at_brace
           {| path := "a.css"; content := "a{}" +:+ String Js.LF " }" |}
           (CSSAnalyzer.unexpectedBrace "a.css" 1 1)).
  - apply list_elem_of_In. vm_compute. tauto.
  - reflexivity.
Defined.

(** X3: every issue of the stylesheet analyzer carries the path of the
    analyzed file, the severity error and the source css-analyzer, and its
    line lies between 1 and the number of lines of the text. *)
Theorem X3_stylesheet_issue_fields (file : FileInput) (i : CodeIssue) :
  i ∈ CSSAnalyzer.analyze file ->
  filePath i = path file /\ severity i = error /\ source i = "css-analyzer"
  /\ 1 <= line i <= length (Js.split Js.LF (content file)).
Proof. apply CSSMore.stylesheet_fields. Qed.

Lemma X3_stylesheet_issue_fields_witness :
  filePath (CSSAnalyzer.unclosedComment "a.css" 2) = "a.css"
  /\ severity (CSSAnalyzer.unclosedComment "a.css" 2) = error
  /\ source (CSSAnalyzer.unclosedComment "a.css" 2) = "css-analyzer"
  /\ 1 <= line (CSSAnalyzer.unclosedComment "a.css" 2)
     <= length (Js.split Js.LF ("a{}" +:+ String Js.LF "/* b")).
Proof.
  apply (X3_stylesheet_issue_fields
           {| path := "a.css"; content := "a{}" +:+ String Js.LF "/* b" |}).
  apply list_elem_of_In. vm_compute. tauto.
Defined.

(** X4: when the parser's events are properly nested (every open tag that is
    not a void element is closed by a tag of the same name up to case, with
    properly nested events in between) and no Error is thrown, the markup
    analyzer reports nothing. *)
Theorem X4_nested_markup_silent (parser : HtmlParser2.Parser) (file : FileInput) :
  Shapes.Nested (HtmlParser2.events (parser HTMLAnalyzer.options (content file))) ->
  (forall msg, HtmlParser2.thrown (parser HTMLAnalyzer.options (content file))
               <> Some (HtmlParser2.ErrorObject msg)) ->
  HTMLAnalyzer.analyze parser file = [].
Proof.
  intros Hn Ht. unfold HTMLAnalyzer.analyze. cbv zeta.
  rewrite (HTMLMore.run_nested (path file) _ Hn). simpl.
  destruct (HtmlParser2.thrown _) as [[msg|]|]; simpl; try reflexivity.
  exfalso. apply (Ht msg). reflexivity.
Qed.

Lemma X4_nested_markup_silent_witness :
  HTMLAnalyzer.analyze
    (fun _ _ =>
       {| HtmlParser2.events :=
            [HtmlParser2.OpenTag "DIV" ∅; HtmlParser2.OpenTag "br" ∅;
             HtmlParser2.Text "a"; HtmlParser2.CloseTag "div"];
          HtmlParser2.thrown := None |})
    {| path := "a.html"; content := "<DIV><br>a</div>" |} = [].
Proof.
  apply X4_nested_markup_silent.
  - simpl.
    apply (Shapes.Nested_element "DIV" ∅
             [HtmlParser2.OpenTag "br" ∅; HtmlParser2.Text "a"] "div" []).
    + vm_compute. discriminate.
    + reflexivity.
    + apply Shapes.Nested_void; [reflexivity|].
      apply Shapes.Nested_text, Shapes.Nested_nil.
    + apply Shapes.Nested_nil.
  - simpl. discriminate.
Defined.

(** X5: open and close events of void elements (area, base, br, col, embed,
    hr, img, input, link, meta, param, source, track, wbr, in any case)
    have no effect on the markup analyzer: dropping them from a run leaves
    the issues, the stack and the line counter the same. *)
Theorem X5_void_elements_ignored (name : string) (evs : list HtmlParser2.TagEvent)
    (st : HTMLAnalyzer.State) :
  foldl (HTMLAnalyzer.handle name) st
        (filter (fun ev => Shapes.isVoidEvent ev = false) evs)
  = foldl (HTMLAnalyzer.handle name) st evs.
Proof.
  revert st. induction evs as [|ev evs IH]; intros st; [reflexivity|].
  rewrite filter_cons. destruct (decide (Shapes.isVoidEvent ev = false)) as [H|H].
  - simpl. apply IH.
  - apply not_false_is_true in H. simpl foldl.
    rewrite (HTMLMore.handle_void name st ev H). apply IH.
Qed.

(** X6: the markup analyzer lists the issues of a kind in the order of the
    text: the lines of the issues raised during parsing (unexpected and
    mismatched closing tags) never decrease along the returned list, and
    the unclosed-tag issues come in the order in which their tags were
    opened, so that their lines never decrease either. *)
Theorem X6_markup_issues_in_line_order (parser : HtmlParser2.Parser)
    (file : FileInput) :
  StronglySorted le
    (map line (filter (fun i => ruleId i ∈ Shapes.handlerRules)
                 (HTMLAnalyzer.analyze parser file)))
  /\ StronglySorted le
       (map line (withRule "HTML_UNCLOSED_TAG" (HTMLAnalyzer.analyze parser file))).
Proof.
  rewrite HTMLMore.handler_issues, HTMLMore.unclosed_issues.
  destruct (HTMLMore.run_orderly (path file)
              (HtmlParser2.events (parser HTMLAnalyzer.options (content file)))
              HTMLAnalyzer.initial HTMLMore.initial_orderly) as (_ & Hs & _ & _ & Ho).
  split.
  - eapply StronglySorted_fmap; [|exact Ho]. intros i j H. exact H.
  - rewrite <- list_fmap_compose.
    eapply StronglySorted_fmap; [|exact Hs]. intros f g H. exact H.
Qed.

(** X7: every issue of the markup analyzer carries the path of the analyzed
    file, the severity error, the source htmlparser2 and column 0, and its
    line lies between 1 and one more than the number of line feeds in the
    text events of the run. *)
Theorem X7_markup_issue_fields (parser : HtmlParser2.Parser) (file : FileInput)
    (i : CodeIssue) :
  i ∈ HTMLAnalyzer.analyze parser file ->
  Shapes.markupFields (path file) i
  /\ 1 <= line i
     <= 1 + Shapes.newlinesOf
              (HtmlParser2.events (parser HTMLAnalyzer.options (content file))).
Proof. apply HTMLMore.markup_fields. Qed.

Lemma X7_markup_issue_fields_witness :
  Shapes.markupFields "a.html" (HTMLAnalyzer.unclosedTag "a.html"
                                  {| HTMLAnalyzer.name := "p"; HTMLAnalyzer.openedAt := 2 |})
  /\ 1 <= 2 <= 1 + Shapes.newlinesOf
                     [HtmlParser2.Text (String Js.LF "x"); HtmlParser2.OpenTag "P" ∅].
Proof.
  apply (X7_markup_issue_fields
           (fun _ _ =>
              {| HtmlParser2.events :=
                   [HtmlParser2.Text (String Js.LF "x"); HtmlParser2.OpenTag "P" ∅];
                 HtmlParser2.thrown := None |})
           {| path := "a.html"; content := String Js.LF "x<P>" |}
           (HTMLAnalyzer.unclosedTag "a.html"
              {| HTMLAnalyzer.name := "p"; HTMLAnalyzer.openedAt := 2 |})).
  apply list_elem_of_In. vm_compute. tauto.
Defined.

(** X8: every issue of the cross validator is a warning of the source
    html-css-validator at column 0; its path is the path of a markup file
    of the batch (one ending in .html or .htm) and its line lies between 1
    and one more than the number of line feeds in the text events of that
    file's run. *)
Theorem X8_validator_issue_fields (parser : HtmlParser2.Parser)
    (files : list FileInput) (i : CodeIssue) :
  i ∈ HTMLCSSCrossValidator.validate parser files ->
  Shapes.validatorFields i
  /\ exists file,
       file ∈ files /\ HTMLCSSCrossValidator.isMarkup file = true
       /\ filePath i = path file
       /\ 1 <= line i
          <= 1 + Shapes.newlinesOf
                   (HtmlParser2.events
                      (parser HTMLCSSCrossValidator.options (content file))).
Proof. apply ValidatorMore.validate_fields. Qed.

Lemma X8_validator_issue_fields_witness :
  Shapes.validatorFields
    (HTMLCSSCrossValidator.classUndefined
       {| HTMLCSSCrossValidator.usedName := "card";
          HTMLCSSCrossValidator.type := HTMLCSSCrossValidator.class;
          HTMLCSSCrossValidator.usedIn := "a.html";
          HTMLCSSCrossValidator.usedAt := 1 |})
  /\ exists file,
       file ∈ [ {| path := "a.html"; content := Samples.user |} ]
       /\ HTMLCSSCrossValidator.isMarkup file = true
       /\ "a.html" = path file
       /\ 1 <= 1
          <= 1 + Shapes.newlinesOf
                   (HtmlParser2.events
                      (Samples.htmlparser2 HTMLCSSCrossValidator.options (content file))).
Proof.
  apply (X8_validator_issue_fields Samples.htmlparser2
           [ {| path := "a.html"; content := Samples.user |} ]
           (HTMLCSSCrossValidator.classUndefined
              {| HTMLCSSCrossValidator.usedName := "card";
                 HTMLCSSCrossValidator.type := HTMLCSSCrossValidator.class;
                 HTMLCSSCrossValidator.usedIn := "a.html";
                 HTMLCSSCrossValidator.usedAt := 1 |})).
  apply list_elem_of_In. vm_compute. tauto.
Defined.

(** X9: every class name and every id name the validator collects from a
    batch, from stylesheets and from inline style blocks, is one character
    of a-z, A-Z or underscore followed by characters of a-z, A-Z, 0-9,
    underscore or hyphen. *)
Theorem X9_collected_names_are_names (files : list FileInput) (n : string) :
  n ∈ HTMLCSSCrossValidator.classes
        (foldl HTMLCSSCrossValidator.collect HTMLCSSCrossValidator.noDefinitions files)
  \/ n ∈ HTMLCSSCrossValidator.ids
          (foldl HTMLCSSCrossValidator.collect HTMLCSSCrossValidator.noDefinitions files) ->
  Shapes.isName n = true.
Proof.
  intros [H|H].
  - apply (ValidatorMore.collected_isName HTMLCSSCrossValidator.class files n H).
  - apply (ValidatorMore.collected_isName HTMLCSSCrossValidator.id files n H).
Qed.

Lemma X9_collected_names_are_names_witness : Shapes.isName "nav-bar" = true.
Proof.
  apply (X9_collected_names_are_names
           [ {| path := "a.css"; content := "ul.nav-bar > li { margin: 0 }" |} ]).
  left. apply (ValidatorFacts.extractCSSDefinitions_classes _ _ "nav-bar").
  right. apply list_elem_of_In. vm_compute. tauto.
Defined.



(** X11: every undefined-class issue of the cross validator is about a token
    of a class attribute: its name is not empty, holds no white space,
    matches none of the dynamic or utility patterns and is not among the
    collected class names. *)
Theorem X11_reported_class_is_plain_token (parser : HtmlParser2.Parser)
    (files : list FileInput) (i : CodeIssue) :
  i ∈ HTMLCSSCrossValidator.validate parser files ->
  ruleId i = "CSS_CLASS_UNDEFINED" ->
  exists u,
    i = HTMLCSSCrossValidator.classUndefined u
    /\ Shapes.isToken (HTMLCSSCrossValidator.usedName u) = true
    /\ HTMLCSSCrossValidator.isLikelyDynamicOrFrameworkClass
         (HTMLCSSCrossValidator.usedName u) = false
    /\ HTMLCSSCrossValidator.usedName u
         ∉ HTMLCSSCrossValidator.classes
             (foldl HTMLCSSCrossValidator.collect
                HTMLCSSCrossValidator.noDefinitions files).
Proof.
  intros Hi Hrule.
  apply ValidatorMore.validate_iff in Hi as (file & u & _ & _ & Hu & Hi).
  apply ValidatorMore.report_elem in Hi as (-> & Hd & Hl).
  apply ValidatorMore.extractHTMLUsage_ok in Hu as (_ & _ & Ht).
  unfold Shapes.undefinedIssue in *.
  destruct (HTMLCSSCrossValidator.type u) eqn:E; [|discriminate].
  exists u. auto.
Qed.

Lemma X11_reported_class_is_plain_token_witness :
  exists u,
    HTMLCSSCrossValidator.classUndefined
      {| HTMLCSSCrossValidator.usedName := "card";
         HTMLCSSCrossValidator.type := HTMLCSSCrossValidator.class;
         HTMLCSSCrossValidator.usedIn := "a.html";
         HTMLCSSCrossValidator.usedAt := 1 |}
    = HTMLCSSCrossValidator.classUndefined u
    /\ Shapes.isToken (HTMLCSSCrossValidator.usedName u) = true
    /\ HTMLCSSCrossValidator.isLikelyDynamicOrFrameworkClass
         (HTMLCSSCrossValidator.usedName u) = false
    /\ HTMLCSSCrossValidator.usedName u
         ∉ HTMLCSSCrossValidator.classes
             (foldl HTMLCSSCrossValidator.collect
                HTMLCSSCrossValidator.noDefinitions
                [ {| path := "a.html"; content := Samples.user |} ]).
Proof.
  apply (X11_reported_class_is_plain_token Samples.htmlparser2
           [ {| path := "a.html"; content := Samples.user |} ]).
  - apply list_elem_of_In. vm_compute. tauto.
  - reflexivity.
Defined.

(** X12: a class whose name begins with flex, grid, block, inline, hidden,
    visible, absolute, relative, fixed or sticky is never reported as
    undefined, whatever follows the keyword: that pattern asks for no
    hyphen after it. *)
Theorem X12_layout_prefix_never_reported (parser : HtmlParser2.Parser)
    (files : list FileInput) (u : HTMLCSSCrossValidator.CSSUsage) (keyword : string) :
  keyword ∈ Shapes.layoutKeywords ->
  Js.startsWith (HTMLCSSCrossValidator.usedName u) keyword = true ->
  HTMLCSSCrossValidator.classUndefined u
    ∉ HTMLCSSCrossValidator.validate parser files.
Proof.
  intros Hk Hs Hi.
  apply ValidatorMore.validate_iff in Hi as (file & u' & _ & _ & _ & Hi).
  apply ValidatorMore.report_elem in Hi as (Heq & _ & Hl).
  assert (HTMLCSSCrossValidator.type u' = HTMLCSSCrossValidator.class) as Ht.
  { unfold Shapes.undefinedIssue in Heq.
    destruct (HTMLCSSCrossValidator.type u'); [reflexivity|].
    apply (f_equal ruleId) in Heq. discriminate. }
  unfold Shapes.undefinedIssue in Heq. rewrite Ht in Heq.
  apply ValidatorFacts.classUndefined_name in Heq. rewrite <- Heq in Hl.
  rewrite (ValidatorMore.layout_prefix_likely _ _ Hk Hs) in Hl.
  specialize (Hl Ht). discriminate.
Qed.

Lemma X12_layout_prefix_never_reported_witness :
  HTMLCSSCrossValidator.classUndefined
    {| HTMLCSSCrossValidator.usedName := "fixedheader";
       HTMLCSSCrossValidator.type := HTMLCSSCrossValidator.class;
       HTMLCSSCrossValidator.usedIn := "a.html";
       HTMLCSSCrossValidator.usedAt := 1 |}
  ∉ HTMLCSSCrossValidator.validate
      (fun _ _ =>
         {| HtmlParser2.events :=
              [HtmlParser2.OpenTag "div" {[ "class" := "fixedheader" ]}];
            HtmlParser2.thrown := None |})
      [ {| path := "a.html"; content := "<div class=fixedheader>" |} ].
Proof.
  apply (X12_layout_prefix_never_reported _ _ _ "fixed").
  - apply list_elem_of_In. vm_compute. tauto.
  - reflexivity.
Defined.

(** X13: the order of the files of a batch does not matter to the cross
    validator beyond the order of its issues: a reordered batch yields the
    same issues, each as many times. *)
Theorem X13_validator_ignores_file_order (parser : HtmlParser2.Parser)
    (files files' : list FileInput) :
  files ≡ₚ files' ->
  HTMLCSSCrossValidator.validate parser files
  ≡ₚ HTMLCSSCrossValidator.validate parser files'.
Proof.
  intros Hp. unfold HTMLCSSCrossValidator.validate. cbv zeta.
  rewrite (ValidatorMore.collected_permutation files files'
             HTMLCSSCrossValidator.noDefinitions Hp).
  apply Permutation_flat_map, Permutation_flat_map, Hp.
Qed.

Lemma X13_validator_ignores_file_order_witness :
  HTMLCSSCrossValidator.validate Samples.htmlparser2
    [ {| path := "a.html"; content := Samples.user |};
      {| path := "b.html"; content := Samples.styled |} ]
  ≡ₚ HTMLCSSCrossValidator.validate Samples.htmlparser2
       [ {| path := "b.html"; content := Samples.styled |};
         {| path := "a.html"; content := Samples.user |} ].
Proof.
  apply X13_validator_ignores_file_order. apply perm_swap.
Defined.

(** X14: in a stylesheet made of rules whose selector texts and bodies hold
    no brace, slash or opening parenthesis, followed by such a text, names
    are collected from the selector texts alone, joined by single spaces:
    nothing in a body and nothing after the last rule defines a name. *)
Theorem X14_only_selectors_define (rules : list (string * string))
    (trailing : string) (defs : HTMLCSSCrossValidator.Definitions) :
  Forall (fun r => Shapes.plain r.1 = true /\ Shapes.plain r.2 = true) rules ->
  Shapes.plain trailing = true ->
  HTMLCSSCrossValidator.extractCSSDefinitions (Shapes.sheetText rules trailing) defs
  = {| HTMLCSSCrossValidator.classes :=
         foldl HTMLCSSCrossValidator.add (HTMLCSSCrossValidator.classes defs)
           (Regex.execAll Regex.classRegex (Js.join " " (map fst rules)));
       HTMLCSSCrossValidator.ids :=
         foldl HTMLCSSCrossValidator.add (HTMLCSSCrossValidator.ids defs)
           (Regex.execAll Regex.idRegex (Js.join " " (map fst rules))) |}.
Proof.
  intros Hr Ht. unfold HTMLCSSCrossValidator.extractCSSDefinitions. cbv zeta.
  rewrite (SelectorMore.selectorTextOf_sheet rules trailing Hr Ht). reflexivity.
Qed.

Lemma X14_only_selectors_define_witness :
  HTMLCSSCrossValidator.extractCSSDefinitions
    (Shapes.sheetText [("a.b", "color:.red"); (" #c", "margin:0")] " .d")
    HTMLCSSCrossValidator.noDefinitions
  = {| HTMLCSSCrossValidator.classes :=
         foldl HTMLCSSCrossValidator.add
           (HTMLCSSCrossValidator.classes HTMLCSSCrossValidator.noDefinitions)
           (Regex.execAll Regex.classRegex
              (Js.join " " (map fst [("a.b", "color:.red"); (" #c", "margin:0")])));
       HTMLCSSCrossValidator.ids :=
         foldl HTMLCSSCrossValidator.add
           (HTMLCSSCrossValidator.ids HTMLCSSCrossValidator.noDefinitions)
           (Regex.execAll Regex.idRegex
              (Js.join " " (map fst [("a.b", "color:.red"); (" #c", "margin:0")]))) |}.
Proof.
  apply X14_only_selectors_define.
  - repeat constructor.
  - reflexivity.
Defined.

(** X15: a class or an id whose rule opens a stylesheet of the batch (the
    dot or the hash, the name, white space, an opening brace, then
    anything) is never reported as undefined. *)
Theorem X15_leading_rule_defines (parser : HtmlParser2.Parser)
    (files : list FileInput) (file : FileInput) (n sp rest : string)
    (u : HTMLCSSCrossValidator.CSSUsage) :
  file ∈ files ->
  HTMLCSSCrossValidator.isStylesheet file = true ->
  Shapes.isName n = true ->
  Js.all Js.isSpace sp = true ->
  content file
  = String (Shapes.sigil (HTMLCSSCrossValidator.type u)) n +:+ sp +:+ "{" +:+ rest ->
  HTMLCSSCrossValidator.usedName u = n ->
  Shapes.undefinedIssue u ∉ HTMLCSSCrossValidator.validate parser files.
Proof.
  intros Hf Hs Hn Hsp Hc Hu Hi.
  apply ValidatorMore.validate_iff in Hi as (file' & u' & _ & _ & _ & Hi).
  apply ValidatorMore.report_elem in Hi as (Heq & Hd & _).
  apply ValidatorMore.undefinedIssue_inj in Heq as [Ht Hname].
  apply Hd. rewrite <- Ht, <- Hname, Hu.
  apply ValidatorMore.collected_names. right. exists file. split; [exact Hf|].
  apply (ValidatorMore.stylesheet_defines _ file _ Hs). rewrite Hc.
  apply (SelectorMore.leading_rule_defines
           (HTMLCSSCrossValidator.type u) n sp rest _ Hn Hsp).
Qed.

Lemma X15_leading_rule_defines_witness :
  Shapes.undefinedIssue
    {| HTMLCSSCrossValidator.usedName := "card";
       HTMLCSSCrossValidator.type := HTMLCSSCrossValidator.class;
       HTMLCSSCrossValidator.usedIn := "a.html";
       HTMLCSSCrossValidator.usedAt := 1 |}
  ∉ HTMLCSSCrossValidator.validate Samples.htmlparser2
      [ {| path := "a.html"; content := Samples.user |};
        {| path := "a.css"; content := ".card {color:red} /* .x" |} ].
Proof.
  apply (X15_leading_rule_defines Samples.htmlparser2 _
           {| path := "a.css"; content := ".card {color:red} /* .x" |}
           "card" " " "color:red} /* .x").
  - apply list_elem_of_In. vm_compute. tauto.
  - vm_compute. reflexivity.
  - reflexivity.
  - reflexivity.
  - reflexivity.
  - reflexivity.
Defined.

(** X16: in the response of the orchestrator, the error count is the number
    of issues of the single-file analyzers, the warning count is the number
    of issues of the cross validator, and the info count is 0. *)
Theorem X16_summary_by_origin (acorn : Acorn.Parse) (htmlparser2 : HtmlParser2.Parser)
    (files : list FileInput) :
  summary (lint (InMemoryAnalyzer.analyze acorn htmlparser2 files))
  = {| errorCount :=
         length (flat_map (InMemoryAnalyzer.analyzeOne acorn htmlparser2) files);
       warningCount := length (HTMLCSSCrossValidator.validate htmlparser2 files);
       infoCount := 0 |}.
Proof.
  unfold InMemoryAnalyzer.analyze. cbv zeta.
  unfold InMemoryAnalyzer.crossValidators. simpl. rewrite app_nil_r.
  rewrite !OrchestratorMore.count_app.
  pose proof (OrchestratorMore.single_file_errors acorn htmlparser2 files) as He.
  pose proof (OrchestratorMore.validator_warnings htmlparser2 files) as Hw.
  rewrite (OrchestratorMore.count_all error _ He),
          (OrchestratorMore.count_all warning _ Hw).
  rewrite (OrchestratorMore.count_none error
             (HTMLCSSCrossValidator.validate htmlparser2 files)),
          (OrchestratorMore.count_none warning (flat_map _ files)),
          (OrchestratorMore.count_none info (flat_map _ files)),
          (OrchestratorMore.count_none info
             (HTMLCSSCrossValidator.validate htmlparser2 files)).
  - f_equal; lia.
  - eapply Forall_impl; [exact Hw|]. simpl. intros i ->. discriminate.
  - eapply Forall_impl; [exact He|]. simpl. intros i ->. discriminate.
  - eapply Forall_impl; [exact He|]. simpl. intros i ->. discriminate.
  - eapply Forall_impl; [exact Hw|]. simpl. intros i ->. discriminate.
Qed.

(** X17: a file the cross validator reads as a stylesheet (path ending in
    .css) is analyzed by the stylesheet analyzer, and a file it reads as
    markup (path ending in .html or .htm) by the markup analyzer. *)
Theorem X17_validated_files_are_analyzed (acorn : Acorn.Parse)
    (htmlparser2 : HtmlParser2.Parser) (file : FileInput) :
  HTMLCSSCrossValidator.isStylesheet file || HTMLCSSCrossValidator.isMarkup file = true ->
  InMemoryAnalyzer.analyzeOne acorn htmlparser2 file
  = if HTMLCSSCrossValidator.isStylesheet file then CSSAnalyzer.analyze file
    else HTMLAnalyzer.analyze htmlparser2 file.
Proof.
  destruct (HTMLCSSCrossValidator.isStylesheet file) eqn:Hs; simpl.
  - intros _. apply OrchestratorMore.analyzeOne_stylesheet, Hs.
  - apply OrchestratorMore.analyzeOne_markup.
Qed.

Lemma X17_validated_files_are_analyzed_witness :
  InMemoryAnalyzer.analyzeOne Samples.acorn Samples.htmlparser2
    {| path := "e.htm"; content := Samples.broken |}
  = if HTMLCSSCrossValidator.isStylesheet {| path := "e.htm"; content := Samples.broken |}
    then CSSAnalyzer.analyze {| path := "e.htm"; content := Samples.broken |}
    else HTMLAnalyzer.analyze Samples.htmlparser2
           {| path := "e.htm"; content := Samples.broken |}.
Proof.
  apply X17_validated_files_are_analyzed. reflexivity.
Defined.

(** X18: a file whose extension (the text from the last dot on, lowercased,
    or nothing without a dot) is none of .js, .mjs, .html, .htm and .css
    changes nothing: the response of the batch is the response of the batch
    without the file. *)
Theorem X18_other_extension_is_inert (acorn : Acorn.Parse)
    (htmlparser2 : HtmlParser2.Parser) (before after : list FileInput)
    (file : FileInput) :
  InMemoryAnalyzer.getExtension (path file)
    ∉ [".js"; ".mjs"; ".html"; ".htm"; ".css"] ->
  InMemoryAnalyzer.analyze acorn htmlparser2 (before ++ file :: after)
  = InMemoryAnalyzer.analyze acorn htmlparser2 (before ++ after).
Proof.
  intros Hext.
  assert (HTMLCSSCrossValidator.isStylesheet file = false) as Hs.
  { apply not_true_is_false. intros H.
    apply OrchestratorMore.stylesheet_extension in H.
    apply Hext. rewrite H. rewrite !elem_of_cons. tauto. }
  assert (HTMLCSSCrossValidator.isMarkup file = false) as Hm.
  { apply not_true_is_false. intros H.
    apply OrchestratorMore.markup_extension in H.
    apply Hext. rewrite !elem_of_cons. destruct H as [-> | ->]; tauto. }
  assert (InMemoryAnalyzer.analyzeOne acorn htmlparser2 file = []) as Hone.
  { rewrite OrchestratorMore.analyzeOne_by_extension.
    unfold JavaScriptAnalyzer.supportedExtensions, HTMLAnalyzer.supportedExtensions,
      CSSAnalyzer.supportedExtensions.
    rewrite !elem_of_cons in Hext.
    repeat case_bool_decide; try reflexivity; exfalso; apply Hext;
      match goal with
      | H : _ ∈ _ |- _ => rewrite !elem_of_cons in H; tauto
      end. }
  unfold InMemoryAnalyzer.analyze. cbv zeta.
  unfold InMemoryAnalyzer.crossValidators. simpl.
  rewrite (ValidatorFacts.validate_skip htmlparser2 before file after Hs Hm).
  rewrite !flat_map_app. simpl. rewrite Hone. reflexivity.
Qed.

Lemma X18_other_extension_is_inert_witness :
  InMemoryAnalyzer.analyze Samples.acorn Samples.htmlparser2
    ([ {| path := "c.css"; content := "}" |} ]
     ++ {| path := "Makefile"; content := ".a{" |}
     :: [ {| path := "a.html"; content := Samples.user |} ])
  = InMemoryAnalyzer.analyze Samples.acorn Samples.htmlparser2
      ([ {| path := "c.css"; content := "}" |} ]
       ++ [ {| path := "a.html"; content := Samples.user |} ]).
Proof.
  apply X18_other_extension_is_inert.
  apply (bool_decide_eq_false_1 _). reflexivity.
Defined.

(** X19: every issue of the orchestrator's response is filed under the path
    of a file of the batch. *)
Theorem X19_issue_paths_in_batch (acorn : Acorn.Parse)
    (htmlparser2 : HtmlParser2.Parser) (files : list FileInput) (i : CodeIssue) :
  i ∈ issues (lint (InMemoryAnalyzer.analyze acorn htmlparser2 files)) ->
  exists file, file ∈ files /\ filePath i = path file.
Proof.
  unfold InMemoryAnalyzer.analyze. cbv zeta.
  unfold InMemoryAnalyzer.crossValidators. simpl. rewrite app_nil_r.
  rewrite elem_of_app. intros [H|H].
  - apply ValidatorFacts.in_flat_map_elem in H as (file & Hf & H).
    apply OrchestratorMore.analyzeOne_fields in H as [H _]. eauto.
  - apply ValidatorMore.validate_fields in H as (_ & file & Hf & _ & Hp & _). eauto.
Qed.

Lemma X19_issue_paths_in_batch_witness :
  exists file,
    file ∈ Samples.batch
    /\ filePath (CSSAnalyzer.unexpectedBrace "c.css" 0 0) = path file.
Proof.
  apply (X19_issue_paths_in_batch Samples.acorn Samples.htmlparser2).
  apply list_elem_of_In. vm_compute. tauto.
Defined.

(** X20: the orchestrator chooses the analyzer of a file without regard to
    the case of its path: a path and its lowercased form get the same
    analyzer, or none. *)
Theorem X20_dispatch_ignores_case (acorn : Acorn.Parse)
    (htmlparser2 : HtmlParser2.Parser) (name : string) :
  InMemoryAnalyzer.getAnalyzerForFile acorn htmlparser2 (Js.toLowerCase name)
  = InMemoryAnalyzer.getAnalyzerForFile acorn htmlparser2 name.
Proof.
  unfold InMemoryAnalyzer.getAnalyzerForFile.
  rewrite OrchestratorMore.getExtension_nocase. reflexivity.
Qed.

(** X21: the stylesheet analyzer lists its issues in the order of the text:
    the lines of the issues never decrease along the returned list, and the
    unexpected-closing-brace issues come strictly by position (an earlier
    line, or the same line and an earlier column), so that no two of them
    share a position. *)
Theorem X21_stylesheet_issues_in_text_order (file : FileInput) :
  StronglySorted le (map line (CSSAnalyzer.analyze file))
  /\ StronglySorted Shapes.before
       (withRule "CSS_UNEXPECTED_BRACE" (CSSAnalyzer.analyze file)).
Proof.
  destruct (CSSMore.analyze_parts file) as (st & found & Hscan & ->).
  destruct (CSSMore.scanLines_ordered (path file) (Js.split Js.LF (content file))
              0 CSSAnalyzer.initial) as [Hs Hf].
  rewrite Hscan in Hs, Hf. cbn [snd] in Hs, Hf.
  set (n := length (Js.split Js.LF (content file))) in *.
  assert (Forall (fun o => line o = n /\ ruleId o <> "CSS_UNEXPECTED_BRACE")
                 (CSSAnalyzer.endOfFile (path file) n st)) as He.
  { unfold CSSAnalyzer.endOfFile. rewrite !Forall_app.
    repeat split; repeat case_match; repeat constructor; discriminate. }
  split.
  - assert (StronglySorted (fun i j : CodeIssue => line i <= line j)
              (found ++ CSSAnalyzer.endOfFile (path file) n st)) as Hall;
      [|eapply StronglySorted_fmap; [|exact Hall]; intros i j H; exact H].
    apply StronglySorted_app_2.
    + rewrite Forall_forall in Hf, He. intros x1 x2 H1 H2.
      destruct (Hf x1 H1) as [? _]. destruct (He x2 H2) as [? _]. lia.
    + eapply CSSMore.sorted_weaken; [|exact Hs].
      intros i j [H|[H _]]; lia.
    + clear Hs Hf. induction He as [|o l [Ho _] He IH]; [constructor|].
      constructor; [exact IH|].
      eapply Forall_impl; [exact He|]. simpl. intros x [-> _]. lia.
  - unfold withRule. rewrite filter_app.
    rewrite JsFacts.filter_all
      by (eapply Forall_impl; [exact Hf|]; simpl; intros o [_ H]; exact H).
    rewrite JsFacts.filter_none
      by (eapply Forall_impl; [exact He|]; simpl; intros o [_ H]; exact H).
    rewrite app_nil_r. exact Hs.
Qed.
